(** * Local authentication and per-user storage of the expense manager

    A shallow embedding of the providers of the React Native application:
    [AuthContext] (sign-up, sign-in, sessions, password reset, profile
    update) and [ExpenseContext] / [IncomeContext] (the delete and load
    paths), all of them working on the device's [AsyncStorage].

    Conventions of the embedding:
    - a JavaScript string is a [string]; one [ascii] stands for one code
      unit, so the alphabet is the code units 0..255;
    - a millisecond timestamp ([Date.now()], [expiresAt], [expiry]) is a [Z];
    - [AsyncStorage] is kept in parsed form: each key family holds the value
      that [JSON.parse] gives back for what the application wrote there;
    - [async] functions run to completion one after the other; a rejected
      promise is a [Thrown] completion that carries [err.message]. *)

From Stdlib Require Import ZArith QArith.QArith_base Ascii String List Bool Lia.
From stdpp Require Import base option list strings pretty gmap.

Local Open Scope Z_scope.
Local Open Scope string_scope.
Local Open Scope list_scope.

(** ** JavaScript values *)

Module JS.

  (** [!s] for a string [s]: only the empty string is falsy. *)
Definition not_string (s : string) : bool := String.eqb s "".

  (** [!x] for [x : string | null] (what [AsyncStorage.getItem] returns). *)
Definition not_item (x : option string) : bool :=
    match x with
    | None => true
    | Some s => not_string s
    end.

  (** [n.toString()] for an integral number. *)
Definition toString (n : Z) : string := pretty n.

  (** [xs.findIndex(p)], with [None] for [-1]. *)
Fixpoint findIndex {A : Type} (p : A -> bool) (xs : list A) : option nat :=
    match xs with
    | [] => None
    | x :: xs' => if p x then Some O else S <$> findIndex p xs'
    end.

  (** [xs.find(p)]: the first element that satisfies [p]. What JavaScript
    returns is a reference to the element in [xs], so it comes with its
    position: an assignment to a field of the result is an update of [xs]
    at that position. *)
Definition find {A : Type} (p : A -> bool) (xs : list A) : option (nat * A) :=
    i ← findIndex p xs; x ← xs !! i; Some (i, x).

(** A string read from storage when it is truthy ([None] for [null] and
    for the empty string). *)
Definition truthy (x : option string) : option string :=
    match x with
    | Some s => if not_string s then None else Some s
    | None => None
    end.

  (** [xs.some(p)]. *)
Definition some {A : Type} (p : A -> bool) (xs : list A) : bool := existsb p xs.

  (** [xs.filter(p)]. *)
Definition filter {A : Type} (p : A -> bool) (xs : list A) : list A :=
    List.filter p xs.

End JS.

(** ** Regular expressions, as far as [validateEmail] needs them *)

Module RegExp.

Inductive t : Type :=
  | Never : t                        (* matches no string *)
  | Eps : t                          (* matches the empty string *)
  | Class : (ascii -> bool) -> t     (* one code unit of a class *)
  | Cat : t -> t -> t
  | Alt : t -> t -> t
  | Star : t -> t.

Definition Plus (r : t) : t := Cat r (Star r).

Fixpoint nullable (r : t) : bool :=
    match r with
    | Never => false
    | Eps => true
    | Class _ => false
    | Cat r1 r2 => nullable r1 && nullable r2
    | Alt r1 r2 => nullable r1 || nullable r2
    | Star _ => true
    end.

Fixpoint deriv (c : ascii) (r : t) : t :=
    match r with
    | Never => Never
    | Eps => Never
    | Class p => if p c then Eps else Never
    | Cat r1 r2 =>
        if nullable r1
        then Alt (Cat (deriv c r1) r2) (deriv c r2)
        else Cat (deriv c r1) r2
    | Alt r1 r2 => Alt (deriv c r1) (deriv c r2)
    | Star r1 => Cat (deriv c r1) (Star r1)
    end.

  (** [/^r$/.test(s)]: the whole of [s] matches [r]. *)
Fixpoint test (r : t) (s : string) : bool :=
    match s with
    | EmptyString => nullable r
    | String c s' => test (deriv c r) s'
    end.

  (** The class [\s], on the code units 0..255: tab, line feed, vertical
      tab, form feed, carriage return, space and no-break space. *)
Definition white_space (c : ascii) : bool :=
    let n := nat_of_ascii c in
    (Nat.leb 9 n && Nat.leb n 13) || Nat.eqb n 32 || Nat.eqb n 160.

Definition is_char (d c : ascii) : bool := Ascii.eqb c d.

(** A range [lo-hi] and an enumeration of a character class. *)
Definition in_range (lo hi c : ascii) : bool :=
    Nat.leb (nat_of_ascii lo) (nat_of_ascii c) &&
    Nat.leb (nat_of_ascii c) (nat_of_ascii hi).

Definition one_of (set : list ascii) (c : ascii) : bool :=
    existsb (Ascii.eqb c) set.

(** Any code unit, for the text around a match. *)
Definition any_char : t := Class (fun _ => true).

(** [/r/.test(s)] for a pattern without anchors: some part of [s]
    matches [r]. *)
Definition search (r : t) (s : string) : bool :=
    test (Cat (Star any_char) (Cat r (Star any_char))) s.

End RegExp.

(** ** String methods *)

Module JSString.

(** [s.trimStart()]: white space and line terminators are the class [\s]. *)
Fixpoint trimStart (s : string) : string :=
    match s with
    | EmptyString => EmptyString
    | String c s' => if RegExp.white_space c then trimStart s' else s
    end.

Fixpoint reverse_onto (acc s : string) : string :=
    match s with
    | EmptyString => acc
    | String c s' => reverse_onto (String c acc) s'
    end.

Definition reverse (s : string) : string := reverse_onto EmptyString s.

(** [s.trimEnd()] *)
Definition trimEnd (s : string) : string := reverse (trimStart (reverse s)).

(** [s.trim()] *)
Definition trim (s : string) : string := trimEnd (trimStart s).

End JSString.

(** ** Records of the data model *)

(** [interface StoredUser]: an entry of the user directory. *)
Module StoredUser.
Record t : Type := mk
    { id : string; email : string; name : string; passwordHash : string }.

  (** [u.passwordHash = h], as a new value. *)
Definition set_passwordHash (h : string) (u : t) : t :=
    mk (id u) (email u) (name u) h.
End StoredUser.

(** [type User] without its [null]: the public projection. [name] is
    optional in the type. *)
Module User.
Record t : Type := mk
    { id : string; email : string; name : option string }.
End User.

(** [type AuthError] without its [null]. *)
Module AuthError.
Record t : Type := mk { code : string; message : string }.
End AuthError.

(** [interface SessionData]. *)
Module SessionData.
Record t : Type := mk { token : string; expiresAt : Z; userId : string }.
End SessionData.

(** The object stored under [reset_code_<email>]. *)
Module ResetData.
Record t : Type := mk { code : string; expiry : Z }.
End ResetData.

(** The argument of [updateUserProfile]; a key that is left out is [None]. *)
Module ProfileUpdates.
Record t : Type := mk { name : option string; email : option string }.
End ProfileUpdates.

(** [interface Expense] and [interface Income]. The amount is a JSON
    number, kept as a rational. *)
Module Expense.
Record t : Type := mk
    { id : string; amount : Q; description : string; category : string;
      date : string; userId : string }.
End Expense.

Module Income.
Record t : Type := mk
    { id : string; amount : Q; description : string; category : string;
      date : string; userId : string }.
End Income.

(** [Omit<Expense, 'id' | 'userId'>] and [Omit<Income, 'id' | 'userId'>]:
    what the add paths are given. *)
Module ExpenseData.
Record t : Type := mk
    { amount : Q; description : string; category : string; date : string }.
End ExpenseData.

(** [Partial<Omit<..., 'id' | 'userId'>>]: what the update paths are given;
    a key that is left out is [None]. *)
Module ExpensePatch.
Record t : Type := mk
    { amount : option Q; description : option string;
      category : option string; date : option string }.
End ExpensePatch.

(** ** The key-value store *)

Module AsyncStorage.

  (** The keys that AuthContext, ExpenseContext and IncomeContext use, by
    family. No other part of the application reads or writes them. *)
Inductive Key : Type :=
  | RegisteredUsers : Key              (* 'registered_users' *)
  | Salt : string -> Key               (* `${SALT_KEY}_${userId}` *)
  | AuthStore : Key                    (* STORAGE_KEY of AuthContext *)
  | Session : Key                      (* SESSION_KEY *)
  | ResetCode : string -> Key          (* `reset_code_${email}` *)
  | Expenses : Key                     (* STORAGE_KEY of ExpenseContext *)
  | Incomes : Key.                     (* STORAGE_KEY of IncomeContext *)

Definition SALT_KEY : string := "@auth_salt".

  (** The string under which a key is stored. *)
Definition key_name (k : Key) : string :=
    match k with
    | RegisteredUsers => "registered_users"
    | Salt userId => SALT_KEY +:+ "_" +:+ userId
    | AuthStore => "@auth_store"
    | Session => "@auth_session"
    | ResetCode email => "reset_code_" +:+ email
    | Expenses => "@expenses"
    | Incomes => "@incomes"
    end.

  (** The store, one component per key family; an absent key is [None].
      Salts are stored raw, every other value as JSON. *)
Record t : Type := mk
    { registered_users : option (list StoredUser.t);
      salts : gmap string string;               (* by userId *)
      auth_store : option User.t;
      auth_session : option SessionData.t;
      reset_codes : gmap string ResetData.t;    (* by email *)
      expenses : option (list Expense.t);
      incomes : option (list Income.t) }.

Definition empty : t := mk None ∅ None None ∅ None None.

Definition set_registered_users (v : option (list StoredUser.t)) (s : t) : t :=
    mk v (salts s) (auth_store s) (auth_session s) (reset_codes s)
       (expenses s) (incomes s).
Definition set_salts (v : gmap string string) (s : t) : t :=
    mk (registered_users s) v (auth_store s) (auth_session s) (reset_codes s)
       (expenses s) (incomes s).
Definition set_auth_store (v : option User.t) (s : t) : t :=
    mk (registered_users s) (salts s) v (auth_session s) (reset_codes s)
       (expenses s) (incomes s).
Definition set_auth_session (v : option SessionData.t) (s : t) : t :=
    mk (registered_users s) (salts s) (auth_store s) v (reset_codes s)
       (expenses s) (incomes s).
Definition set_reset_codes (v : gmap string ResetData.t) (s : t) : t :=
    mk (registered_users s) (salts s) (auth_store s) (auth_session s) v
       (expenses s) (incomes s).
Definition set_expenses (v : option (list Expense.t)) (s : t) : t :=
    mk (registered_users s) (salts s) (auth_store s) (auth_session s)
       (reset_codes s) v (incomes s).
Definition set_incomes (v : option (list Income.t)) (s : t) : t :=
    mk (registered_users s) (salts s) (auth_store s) (auth_session s)
       (reset_codes s) (expenses s) v.

  (** [multiRemove([SESSION_KEY, STORAGE_KEY])] of AuthContext. *)
Definition remove_session_and_user (s : t) : t :=
    set_auth_store None (set_auth_session None s).

End AsyncStorage.

(** ** The world the auth provider runs in *)

(** The React state of [AuthProvider]. *)
Module AuthState.
Record t : Type := mk
    { user : option User.t;
      isLoading : bool;
      error : option AuthError.t;
      isInitialized : bool;
      sessionExpiry : option Z }.

Definition initial : t := mk None false None false None.

Definition set_user (v : option User.t) (s : t) : t :=
    mk v (isLoading s) (error s) (isInitialized s) (sessionExpiry s).
Definition set_isLoading (v : bool) (s : t) : t :=
    mk (user s) v (error s) (isInitialized s) (sessionExpiry s).
Definition set_error (v : option AuthError.t) (s : t) : t :=
    mk (user s) (isLoading s) v (isInitialized s) (sessionExpiry s).
Definition set_isInitialized (v : bool) (s : t) : t :=
    mk (user s) (isLoading s) (error s) v (sessionExpiry s).
Definition set_sessionExpiry (v : option Z) (s : t) : t :=
    mk (user s) (isLoading s) (error s) (isInitialized s) v.
End AuthState.

(** Storage, provider state, the clock, the router and the pending
    timeouts. [clock] is the sequence of values that the successive calls of
    [Date.now()] return and [reads] counts the calls made so far. *)
Module World.
Record t : Type := mk
    { storage : AsyncStorage.t;
      state : AuthState.t;
      clock : nat -> Z;
      reads : nat;
      route : option string;          (* last [router.replace] *)
      timeouts : list Z }.            (* delays given to [setTimeout] *)

Definition set_storage (v : AsyncStorage.t) (w : t) : t :=
    mk v (state w) (clock w) (reads w) (route w) (timeouts w).
Definition set_state (v : AuthState.t) (w : t) : t :=
    mk (storage w) v (clock w) (reads w) (route w) (timeouts w).
Definition set_reads (v : nat) (w : t) : t :=
    mk (storage w) (state w) (clock w) v (route w) (timeouts w).
Definition set_route (v : option string) (w : t) : t :=
    mk (storage w) (state w) (clock w) (reads w) v (timeouts w).
Definition set_timeouts (v : list Z) (w : t) : t :=
    mk (storage w) (state w) (clock w) (reads w) (route w) v.

  (** What the call of [Date.now()] after [k] more calls returns. *)
Definition reading (k : nat) (w : t) : Z := clock w (k + reads w)%nat.

  (** What the next call of [Date.now()] returns. *)
Definition now (w : t) : Z := reading 0 w.
End World.

(** ** Completions: a state monad with exceptions *)

Inductive Completion (A : Type) : Type :=
| Normal : A -> Completion A
| Thrown : string -> Completion A.      (* [throw new Error(msg)] *)
Arguments Normal {A} _.
Arguments Thrown {A} _.

Definition Async (A : Type) : Type := World.t -> Completion A * World.t.

Definition ret {A : Type} (a : A) : Async A := fun w => (Normal a, w).

Definition bind {A B : Type} (m : Async A) (k : A -> Async B) : Async B :=
  fun w =>
    match m w with
    | (Normal a, w') => k a w'
    | (Thrown e, w') => (Thrown e, w')
    end.

Definition throw {A : Type} (msg : string) : Async A := fun w => (Thrown msg, w).

(** [try { body } catch (err) { handler }], [err.message] given to the handler. *)
Definition try_catch {A : Type} (body : Async A) (handler : string -> Async A)
  : Async A :=
  fun w =>
    match body w with
    | (Normal a, w') => (Normal a, w')
    | (Thrown e, w') => handler e w'
    end.

(** [try { body } finally { fin }]. *)
Definition try_finally {A : Type} (body : Async A) (fin : Async unit) : Async A :=
  fun w =>
    match body w with
    | (c, w') =>
        match fin w' with
        | (Normal _, w'') => (c, w'')
        | (Thrown e, w'') => (Thrown e, w'')
        end
    end.

Declare Scope async_scope.
Delimit Scope async_scope with async.
Notation "x <- m ;; k" := (bind m (fun x => k))
  (at level 100, m at next level, right associativity) : async_scope.
Notation "m ;; k" := (bind m (fun _ => k))
  (at level 100, right associativity) : async_scope.

Definition modify (f : World.t -> World.t) : Async unit :=
  fun w => (Normal tt, f w).
Definition gets {A : Type} (f : World.t -> A) : Async A :=
  fun w => (Normal (f w), w).

(** ** AuthContext *)

Module AuthContext.
Import World.
Local Open Scope async_scope.

Definition STORAGE_KEY : AsyncStorage.Key := AsyncStorage.AuthStore.
Definition SESSION_KEY : AsyncStorage.Key := AsyncStorage.Session.

(** 7 days in milliseconds. *)
Definition SESSION_DURATION : Z := 7 * 24 * 60 * 60 * 1000.

(** *** Primitives: clock, storage, React setters, router, timers *)

(** [Date.now()]. *)
Definition Date_now : Async Z :=
  fun w => (Normal (now w), set_reads (S (reads w)) w).

Definition getItem_registered_users : Async (option (list StoredUser.t)) :=
  gets (fun w => AsyncStorage.registered_users (storage w)).
Definition setItem_registered_users (users : list StoredUser.t) : Async unit :=
  modify (fun w => set_storage (AsyncStorage.set_registered_users (Some users) (storage w)) w).

Definition getItem_salt (userId : string) : Async (option string) :=
  gets (fun w => AsyncStorage.salts (storage w) !! userId).
Definition setItem_salt (userId salt : string) : Async unit :=
  modify (fun w => set_storage
    (AsyncStorage.set_salts (<[userId := salt]> (AsyncStorage.salts (storage w))) (storage w)) w).

Definition getItem_auth_store : Async (option User.t) :=
  gets (fun w => AsyncStorage.auth_store (storage w)).
Definition setItem_auth_store (u : User.t) : Async unit :=
  modify (fun w => set_storage (AsyncStorage.set_auth_store (Some u) (storage w)) w).

Definition getItem_session : Async (option SessionData.t) :=
  gets (fun w => AsyncStorage.auth_session (storage w)).
Definition setItem_session (s : SessionData.t) : Async unit :=
  modify (fun w => set_storage (AsyncStorage.set_auth_session (Some s) (storage w)) w).

Definition getItem_reset_code (email : string) : Async (option ResetData.t) :=
  gets (fun w => AsyncStorage.reset_codes (storage w) !! email).
Definition removeItem_reset_code (email : string) : Async unit :=
  modify (fun w => set_storage
    (AsyncStorage.set_reset_codes (delete email (AsyncStorage.reset_codes (storage w))) (storage w)) w).

(** [AsyncStorage.multiRemove([SESSION_KEY, STORAGE_KEY])]. *)
Definition multiRemove_session_and_user : Async unit :=
  modify (fun w => set_storage (AsyncStorage.remove_session_and_user (storage w)) w).

Definition setUser (u : option User.t) : Async unit :=
  modify (fun w => set_state (AuthState.set_user u (state w)) w).
Definition setIsLoading (b : bool) : Async unit :=
  modify (fun w => set_state (AuthState.set_isLoading b (state w)) w).
Definition setError (e : option AuthError.t) : Async unit :=
  modify (fun w => set_state (AuthState.set_error e (state w)) w).
Definition setIsInitialized (b : bool) : Async unit :=
  modify (fun w => set_state (AuthState.set_isInitialized b (state w)) w).
Definition setSessionExpiry (e : option Z) : Async unit :=
  modify (fun w => set_state (AuthState.set_sessionExpiry e (state w)) w).

Definition router_replace (path : string) : Async unit :=
  modify (set_route (Some path)).

(** [setTimeout(handleSessionExpiration, delay)]: the delay is recorded. *)
Definition setTimeout (delay : Z) : Async unit :=
  modify (fun w => set_timeouts (timeouts w ++ [delay]) w).

Definition auth_error (code message : string) : option AuthError.t :=
  Some (AuthError.mk code message).

(** *** The provider's functions *)

Definition clearError : Async unit := setError None.

(** [/^[^\s@]+@[^\s@]+\.[^\s@]+$/] *)
Definition emailRegex : RegExp.t :=
  let not_space_at := RegExp.Class
    (fun c => negb (RegExp.white_space c || RegExp.is_char "@" c)) in
  RegExp.Cat (RegExp.Plus not_space_at)
    (RegExp.Cat (RegExp.Class (RegExp.is_char "@"))
       (RegExp.Cat (RegExp.Plus not_space_at)
          (RegExp.Cat (RegExp.Class (RegExp.is_char "."))
             (RegExp.Plus not_space_at)))).

Definition validateEmail (email : string) : bool := RegExp.test emailRegex email.

Definition handleSessionExpiration : Async unit :=
  multiRemove_session_and_user ;;
  setUser None ;;
  setSessionExpiry None ;;
  router_replace "/login".

Definition startSessionTimer (expiryTime : Z) : Async unit :=
  t <- Date_now ;;
  let timeUntilExpiry := expiryTime - t in
  if (0 <? timeUntilExpiry)%Z then setTimeout timeUntilExpiry else ret tt.

Definition loadStoredAuth : Async unit :=
  try_finally
    (try_catch
       (sessionData <- getItem_session ;;
        match sessionData with
        | Some session =>
            t <- Date_now ;;
            if (t <? SessionData.expiresAt session)%Z then
              storedAuth <- getItem_auth_store ;;
              match storedAuth with
              | Some userData =>
                  setUser (Some userData) ;;
                  setSessionExpiry (Some (SessionData.expiresAt session)) ;;
                  startSessionTimer (SessionData.expiresAt session)
              | None => ret tt
              end
            else handleSessionExpiration
        | None => ret tt
        end)
       (fun _ =>
          multiRemove_session_and_user ;;
          setUser None ;;
          setSessionExpiry None))
    (setIsInitialized true).

Definition signOut : Async unit :=
  setIsLoading true ;;
  try_finally
    (try_catch
       (multiRemove_session_and_user ;;
        setUser None ;;
        setSessionExpiry None ;;
        router_replace "/login")
       (fun _ =>
          setError (auth_error "auth/sign-out-failed"
                      "Failed to sign out. Please try again.")))
    (setIsLoading false).

(** Everything below goes through the hash. [sha256_base64 x] stands for
    [Base64.stringify(SHA256(x))] of crypto-js. *)
Section Hashing.
Variable sha256_base64 : string -> string.

Definition generateSalt : Async string :=
  t <- Date_now ;; ret (sha256_base64 (JS.toString t)).

Definition hashPassword (password salt : string) : string :=
  sha256_base64 (password +:+ salt).

Definition createSession (userId : string) (rememberMe : bool) : Async unit :=
  t <- Date_now ;;
  let token := sha256_base64 (userId +:+ JS.toString t) in
  t' <- Date_now ;;
  let expiresAt :=
    t' + (if rememberMe then SESSION_DURATION else 24 * 60 * 60 * 1000) in
  let sessionData := SessionData.mk token expiresAt userId in
  setItem_session sessionData ;;
  setSessionExpiry (Some expiresAt) ;;
  startSessionTimer expiresAt.

Definition signUp (email password name : string) : Async unit :=
  clearError ;;
  if JS.not_string email || JS.not_string password || JS.not_string name then
    setError (auth_error "auth/missing-fields" "All fields are required")
  else if negb (validateEmail email) then
    setError (auth_error "auth/invalid-email" "Please enter a valid email address")
  else if (String.length password <? 6)%nat then
    setError (auth_error "auth/weak-password"
                "Password should be at least 6 characters")
  else
    setIsLoading true ;;
    try_finally
      (try_catch
         (existingUsers <- getItem_registered_users ;;
          let users := default [] existingUsers in
          if JS.some (fun u => String.eqb (StoredUser.email u) email) users then
            throw "User already exists"
          else
            t <- Date_now ;;
            let userId := JS.toString t in
            salt <- generateSalt ;;
            setItem_salt userId salt ;;
            storedSalt <- getItem_salt userId ;;
            if JS.not_item storedSalt then throw "Failed to store salt"
            else
              let newUser :=
                StoredUser.mk userId email name (hashPassword password salt) in
              setItem_registered_users (users ++ [newUser]) ;;
              setUser (Some (User.mk (StoredUser.id newUser)
                               (StoredUser.email newUser)
                               (Some (StoredUser.name newUser)))) ;;
              createSession (StoredUser.id newUser) true ;;
              router_replace "/(tabs)/dashboard")
         (fun err =>
            (if String.eqb err "User already exists" then
               setError (auth_error "auth/email-already-in-use"
                           "An account with this email already exists")
             else
               setError (auth_error "auth/registration-failed"
                           "Registration failed. Please try again.")) ;;
            throw err))
      (setIsLoading false).

(** The end of the [try] block of [signIn], from the comparison of the
    digests on. [foundUser] is the entry as it is by then and [salt] the
    value of [salt || backupSalt]. *)
Definition signIn_compare (password : string) (rememberMe : bool)
    (foundUser : StoredUser.t) (salt : string) : Async unit :=
  let hashedPassword := hashPassword password salt in
  if negb (String.eqb hashedPassword (StoredUser.passwordHash foundUser)) then
    throw "Invalid password"
  else
    let userWithoutSensitiveData :=
      User.mk (StoredUser.id foundUser) (StoredUser.email foundUser)
        (Some (StoredUser.name foundUser)) in
    createSession (StoredUser.id foundUser) rememberMe ;;
    setItem_auth_store userWithoutSensitiveData ;;
    setUser (Some userWithoutSensitiveData) ;;
    router_replace "/(tabs)/dashboard".

Definition signIn (email password : string) (rememberMe : bool) : Async unit :=
  clearError ;;
  if JS.not_string email || JS.not_string password then
    setError (auth_error "auth/missing-fields" "Email and password are required")
  else if negb (validateEmail email) then
    setError (auth_error "auth/invalid-email" "Please enter a valid email address")
  else
    setIsLoading true ;;
    try_finally
      (try_catch
         (registeredUsers <- getItem_registered_users ;;
          match registeredUsers with
          | None => throw "User not found"
          | Some users =>
              match JS.find (fun u => String.eqb (StoredUser.email u) email) users with
              | None => throw "User not found"
              | Some (i, foundUser) =>
                  salt <- getItem_salt (StoredUser.id foundUser) ;;
                  match JS.truthy salt with
                  | None =>
                      backupSalt <- generateSalt ;;
                      setItem_salt (StoredUser.id foundUser) backupSalt ;;
                      let newHash := hashPassword password backupSalt in
                      (* foundUser.passwordHash = newHash: users[i] changes *)
                      let foundUser' := StoredUser.set_passwordHash newHash foundUser in
                      let users' := <[i := foundUser']> users in
                      let updatedUsers :=
                        map (fun u =>
                               if String.eqb (StoredUser.id u) (StoredUser.id foundUser')
                               then foundUser' else u) users' in
                      setItem_registered_users updatedUsers ;;
                      signIn_compare password rememberMe foundUser' backupSalt
                  | Some salt =>
                      signIn_compare password rememberMe foundUser salt
                  end
              end
          end)
         (fun err =>
            (if String.eqb err "User not found" then
               setError (auth_error "auth/user-not-found"
                           "No account found with this email")
             else if String.eqb err "Invalid password" then
               setError (auth_error "auth/wrong-password" "Incorrect password")
             else
               setError (auth_error "auth/unknown"
                           "Failed to sign in. Please try again.")) ;;
            throw err))
      (setIsLoading false).

Definition resetPassword (email code newPassword : string) : Async unit :=
  clearError ;;
  setIsLoading true ;;
  try_finally
    (try_catch
       (resetDataStr <- getItem_reset_code email ;;
        match resetDataStr with
        | None => throw "No reset code found"
        | Some resetData =>
            t <- Date_now ;;
            if (ResetData.expiry resetData <? t)%Z then throw "Reset code expired"
            else if negb (String.eqb (ResetData.code resetData) code) then
              throw "Invalid code"
            else
              registeredUsers <- getItem_registered_users ;;
              let users := default [] registeredUsers in
              match JS.findIndex (fun u => String.eqb (StoredUser.email u) email) users with
              | None => throw "User not found"
              | Some userIndex =>
                  salt <- generateSalt ;;
                  let passwordHash := hashPassword newPassword salt in
                  let users' :=
                    alter (StoredUser.set_passwordHash passwordHash) userIndex users in
                  setItem_registered_users users' ;;
                  match users' !! userIndex with
                  | Some u => setItem_salt (StoredUser.id u) salt
                  | None => throw "Cannot read properties of undefined"
                  end ;;
                  removeItem_reset_code email
              end
        end)
       (fun err =>
          (if String.eqb err "No reset code found" then
             setError (auth_error "auth/no-reset-code"
                         "Please request a new reset code")
           else if String.eqb err "Reset code expired" then
             setError (auth_error "auth/code-expired" "Reset code has expired")
           else if String.eqb err "Invalid code" then
             setError (auth_error "auth/invalid-code" "Invalid reset code")
           else
             setError (auth_error "auth/reset-failed" "Failed to reset password")) ;;
          throw err))
    (setIsLoading false).

End Hashing.

(** [{ ...u, ...updates }] for a directory entry. *)
Definition merge_stored (updates : ProfileUpdates.t) (u : StoredUser.t) : StoredUser.t :=
  StoredUser.mk (StoredUser.id u)
    (default (StoredUser.email u) (ProfileUpdates.email updates))
    (default (StoredUser.name u) (ProfileUpdates.name updates))
    (StoredUser.passwordHash u).

(** [{ ...prev, ...updates }] for the current user. *)
Definition merge_user (updates : ProfileUpdates.t) (prev : User.t) : User.t :=
  User.mk (User.id prev)
    (default (User.email prev) (ProfileUpdates.email updates))
    (match ProfileUpdates.name updates with
     | Some n => Some n
     | None => User.name prev
     end).

Definition updateUserProfile (updates : ProfileUpdates.t) : Async unit :=
  current <- gets (fun w => AuthState.user (state w)) ;;
  match current with
  | None => throw "No user logged in"
  | Some user =>
      try_catch
        (registeredUsers <- getItem_registered_users ;;
         match registeredUsers with
         | None => throw "No users found"
         | Some users =>
             match JS.findIndex
                     (fun u => String.eqb (StoredUser.id u) (User.id user)) users with
             | None => throw "User not found"
             | Some userIndex =>
                 setItem_registered_users
                   (alter (merge_stored updates) userIndex users) ;;
                 modify (fun w =>
                   set_state
                     (AuthState.set_user
                        (merge_user updates <$> AuthState.user (state w))
                        (state w)) w)
             end
         end)
        (fun _ => throw "Failed to update profile")
  end.

Definition setItem_reset_code (email : string) (resetData : ResetData.t)
  : Async unit :=
  modify (fun w => set_storage
    (AsyncStorage.set_reset_codes
       (<[email := resetData]> (AsyncStorage.reset_codes (storage w)))
       (storage w)) w).

(** [drawn] is the number that
    [Math.floor(100000 + Math.random() * 900000)] evaluates to in this
    call: the random draw is an input of the model. *)
Definition requestPasswordReset (drawn : Z) (email : string) : Async unit :=
  clearError ;;
  setIsLoading true ;;
  try_finally
    (try_catch
       (registeredUsers <- getItem_registered_users ;;
        let users := default [] registeredUsers in
        match JS.find (fun u => String.eqb (StoredUser.email u) email) users with
        | None => throw "User not found"
        | Some _ =>
            let resetCode := JS.toString drawn in
            t <- Date_now ;;
            setItem_reset_code email (ResetData.mk resetCode (t + 5 * 60 * 1000))
        end)
       (fun err =>
          (if String.eqb err "User not found" then
             setError (auth_error "auth/user-not-found"
                         "No account found with this email")
           else
             setError (auth_error "auth/reset-failed"
                         "Failed to initiate password reset")) ;;
          throw err))
    (setIsLoading false).

End AuthContext.

(** ** ExpenseContext *)

Module ExpenseContext.

Definition STORAGE_KEY : AsyncStorage.Key := AsyncStorage.Expenses.

(** The React state of [ExpenseProvider] that the load and delete paths
    touch. [expenses] is the state variable of that name, the list that
    [setExpenses] writes. It is not the [expenses] of the provider's value:
    that one is [filteredExpenses], which an effect computes from this list
    by sorting (by date, descending, unless [sortExpenses] says otherwise)
    and filtering (by [activeFilter]). The effect, [sortExpenses] and
    [filterExpenses] are not part of the model. *)
Record State : Type := mk
  { expenses : list Expense.t; isLoading : bool; error : option string }.

Definition initial : State := mk [] true None.

(** [expense.userId === user?.id] *)
Definition belongs_to (user : option User.t) (expense : Expense.t) : bool :=
  match user with
  | Some u => String.eqb (Expense.userId expense) (User.id u)
  | None => false
  end.

(** [user] is the current user of [useAuth()]. *)
Definition loadExpenses (user : option User.t) (w : AsyncStorage.t * State)
  : AsyncStorage.t * State :=
  let (storage, st) := w in
  let st' :=
    match AsyncStorage.expenses storage with
    | Some allExpenses =>
        let userExpenses := JS.filter (belongs_to user) allExpenses in
        mk userExpenses (isLoading st) (error st)
    | None => st
    end in
  (storage, mk (expenses st') false (error st')).

Definition deleteExpense (id : string) (w : AsyncStorage.t * State)
  : AsyncStorage.t * State :=
  let (storage, st) := w in
  match AsyncStorage.expenses storage with
  | Some allExpenses =>
      let keep := fun expense => negb (String.eqb (Expense.id expense) id) in
      let updatedExpenses := JS.filter keep allExpenses in
      (AsyncStorage.set_expenses (Some updatedExpenses) storage,
       mk (JS.filter keep (expenses st)) (isLoading st) (error st))
  | None => w
  end.

(** [{ id, userId, ...expenseData }] *)
Definition new_expense (id userId : string) (expenseData : ExpenseData.t)
  : Expense.t :=
  Expense.mk id (ExpenseData.amount expenseData)
    (ExpenseData.description expenseData) (ExpenseData.category expenseData)
    (ExpenseData.date expenseData) userId.

(** [now] is what [Date.now()] returns in this call. *)
Definition addExpense (user : option User.t) (now : Z)
    (expenseData : ExpenseData.t) (w : AsyncStorage.t * State)
  : Completion unit * (AsyncStorage.t * State) :=
  let (storage, st) := w in
  match user with
  | None => (Thrown "User not authenticated", w)
  | Some u =>
      let newExpense := new_expense (JS.toString now) (User.id u) expenseData in
      let allExpenses := default [] (AsyncStorage.expenses storage) in
      (Normal tt,
       (AsyncStorage.set_expenses (Some (allExpenses ++ [newExpense])) storage,
        mk (expenses st ++ [newExpense]) (isLoading st) (error st)))
  end.

(** [{ ...expense, ...expenseData }] for a partial [expenseData]. *)
Definition patch (expenseData : ExpensePatch.t) (expense : Expense.t) : Expense.t :=
  Expense.mk (Expense.id expense)
    (default (Expense.amount expense) (ExpensePatch.amount expenseData))
    (default (Expense.description expense) (ExpensePatch.description expenseData))
    (default (Expense.category expense) (ExpensePatch.category expenseData))
    (default (Expense.date expense) (ExpensePatch.date expenseData))
    (Expense.userId expense).

Definition updateExpense (id : string) (expenseData : ExpensePatch.t)
    (w : AsyncStorage.t * State) : AsyncStorage.t * State :=
  let (storage, st) := w in
  match AsyncStorage.expenses storage with
  | Some allExpenses =>
      match JS.findIndex (fun expense => String.eqb (Expense.id expense) id)
              allExpenses with
      | Some expenseIndex =>
          (AsyncStorage.set_expenses
             (Some (alter (patch expenseData) expenseIndex allExpenses)) storage,
           mk (map (fun expense =>
                      if String.eqb (Expense.id expense) id
                      then patch expenseData expense else expense)
                 (expenses st))
              (isLoading st) (error st))
      | None => w
      end
  | None => w
  end.

End ExpenseContext.

(** ** IncomeContext *)

Module IncomeContext.

Definition STORAGE_KEY : AsyncStorage.Key := AsyncStorage.Incomes.

(** The React state of [IncomeProvider]. [incomes] is the state variable of
    that name, the list that [setIncomes] writes; the [incomes] of the
    provider's value is [filteredIncomes], computed from this list by an
    effect that sorts and filters it and that is not part of the model. *)
Record State : Type := mk
  { incomes : list Income.t; isLoading : bool; error : option string }.

Definition initial : State := mk [] true None.

(** [income.userId === user?.id] *)
Definition belongs_to (user : option User.t) (income : Income.t) : bool :=
  match user with
  | Some u => String.eqb (Income.userId income) (User.id u)
  | None => false
  end.

Definition loadIncomes (user : option User.t) (w : AsyncStorage.t * State)
  : AsyncStorage.t * State :=
  let (storage, st) := w in
  let st' :=
    match AsyncStorage.incomes storage with
    | Some allIncomes =>
        let userIncomes := JS.filter (belongs_to user) allIncomes in
        mk userIncomes (isLoading st) (error st)
    | None => st
    end in
  (storage, mk (incomes st') false (error st')).

Definition deleteIncome (id : string) (w : AsyncStorage.t * State)
  : AsyncStorage.t * State :=
  let (storage, st) := w in
  match AsyncStorage.incomes storage with
  | Some allIncomes =>
      let keep := fun income => negb (String.eqb (Income.id income) id) in
      let updatedIncomes := JS.filter keep allIncomes in
      (AsyncStorage.set_incomes (Some updatedIncomes) storage,
       mk (JS.filter keep (incomes st)) (isLoading st) (error st))
  | None => w
  end.

(** [{ id, userId, ...incomeData }] *)
Definition new_income (id userId : string) (incomeData : ExpenseData.t)
  : Income.t :=
  Income.mk id (ExpenseData.amount incomeData)
    (ExpenseData.description incomeData) (ExpenseData.category incomeData)
    (ExpenseData.date incomeData) userId.

(** [now] is what [Date.now()] returns in this call. *)
Definition addIncome (user : option User.t) (now : Z)
    (incomeData : ExpenseData.t) (w : AsyncStorage.t * State)
  : Completion unit * (AsyncStorage.t * State) :=
  let (storage, st) := w in
  match user with
  | None => (Thrown "User not authenticated", w)
  | Some u =>
      let newIncome := new_income (JS.toString now) (User.id u) incomeData in
      let allIncomes := default [] (AsyncStorage.incomes storage) in
      (Normal tt,
       (AsyncStorage.set_incomes (Some (allIncomes ++ [newIncome])) storage,
        mk (incomes st ++ [newIncome]) (isLoading st) (error st)))
  end.

(** [{ ...income, ...incomeData }] for a partial [incomeData]. *)
Definition patch (incomeData : ExpensePatch.t) (income : Income.t) : Income.t :=
  Income.mk (Income.id income)
    (default (Income.amount income) (ExpensePatch.amount incomeData))
    (default (Income.description income) (ExpensePatch.description incomeData))
    (default (Income.category income) (ExpensePatch.category incomeData))
    (default (Income.date income) (ExpensePatch.date incomeData))
    (Income.userId income).

Definition updateIncome (id : string) (incomeData : ExpensePatch.t)
    (w : AsyncStorage.t * State) : AsyncStorage.t * State :=
  let (storage, st) := w in
  match AsyncStorage.incomes storage with
  | Some allIncomes =>
      match JS.findIndex (fun income => String.eqb (Income.id income) id)
              allIncomes with
      | Some incomeIndex =>
          (AsyncStorage.set_incomes
             (Some (alter (patch incomeData) incomeIndex allIncomes)) storage,
           mk (map (fun income =>
                      if String.eqb (Income.id income) id
                      then patch incomeData income else income)
                 (incomes st))
              (isLoading st) (error st))
      | None => w
      end
  | None => w
  end.

End IncomeContext.

(** ** utils/passwordUtils *)

Module PasswordUtils.

Inductive PasswordStrength : Type := weak | medium | strong.

Record PasswordValidation : Type := mk
  { isValid : bool;
    strength : PasswordStrength;
    hasMinLength : bool;
    hasUpperCase : bool;
    hasLowerCase : bool;
    hasNumber : bool;
    hasSpecialChar : bool;
    message : string }.

(** The members of the class of [hasSpecialChar]; the double quote is
    code unit 34. *)
Definition special_chars : list ascii :=
  list_ascii_of_string "!@#$%^&*(),.?" ++ [ascii_of_nat 34] ++
  list_ascii_of_string ":{}|<>".

Definition upper_case : RegExp.t := RegExp.Class (RegExp.in_range "A" "Z").
Definition lower_case : RegExp.t := RegExp.Class (RegExp.in_range "a" "z").
Definition digit : RegExp.t := RegExp.Class (RegExp.in_range "0" "9").
Definition special : RegExp.t := RegExp.Class (RegExp.one_of special_chars).

(** [if (flag) score++] *)
Definition bump (flag : bool) (score : nat) : nat :=
  if flag then S score else score.

Definition validatePassword (password : string) : PasswordValidation :=
  let hasMinLength := Nat.leb 8 (String.length password) in
  let hasUpperCase := RegExp.search upper_case password in
  let hasLowerCase := RegExp.search lower_case password in
  let hasNumber := RegExp.search digit password in
  let hasSpecialChar := RegExp.search special password in
  let score := 0%nat in
  let score := bump hasMinLength score in
  let score := bump hasUpperCase score in
  let score := bump hasLowerCase score in
  let score := bump hasNumber score in
  let score := bump hasSpecialChar score in
  if Nat.leb 4 score then
    mk true strong hasMinLength hasUpperCase hasLowerCase hasNumber
       hasSpecialChar "Strong password"
  else if Nat.leb 3 score then
    mk true medium hasMinLength hasUpperCase hasLowerCase hasNumber
       hasSpecialChar "Medium strength password"
  else
    mk false weak hasMinLength hasUpperCase hasLowerCase hasNumber
       hasSpecialChar "Weak password".

End PasswordUtils.

(** ** The screens that call the auth provider

    A screen's form fields are the arguments of its functions. The
    [passwordValidation] of a screen is [validatePassword] of its password
    field: [handlePasswordChange] sets both together. The alerts are not
    part of the model, and neither are the effects on [error] of the
    screens, which show the provider's error in an alert and call
    [clearError]: the model of a handler is the handler alone, and the
    statements about the handlers say nothing of the provider's [error]. *)

(** app/(auth)/register *)
Module RegisterScreen.
Import World AuthContext.
Local Open Scope async_scope.

Record Errors : Type := mk
  { email : string; password : string; confirmPassword : string; name : string }.

(** The validity and the [newErrors] that [setErrors] is given. *)
Definition validateForm (name email password confirmPassword : string)
  : bool * Errors :=
  let passwordValidation := PasswordUtils.validatePassword password in
  let isValid := true in
  let '(isValid, e_name) :=
    if JS.not_string (JSString.trim name)
    then (false, "Name is required") else (isValid, "") in
  let '(isValid, e_email) :=
    if JS.not_string (JSString.trim email)
    then (false, "Email is required")
    else if negb (RegExp.test emailRegex email)
    then (false, "Please enter a valid email") else (isValid, "") in
  let '(isValid, e_password) :=
    if negb (PasswordUtils.isValid passwordValidation)
    then (false, "Password does not meet requirements") else (isValid, "") in
  let '(isValid, e_confirm) :=
    if negb (String.eqb password confirmPassword)
    then (false, "Passwords do not match") else (isValid, "") in
  (isValid, mk e_email e_password e_confirm e_name).

Definition handleRegister (sha256_base64 : string -> string)
    (name email password confirmPassword : string) : Async unit :=
  if negb (fst (validateForm name email password confirmPassword)) then ret tt
  else
    try_catch
      (signUp sha256_base64 email password name ;;
       router_replace "/(tabs)/dashboard")
      (fun _ => ret tt).

End RegisterScreen.

(** app/(auth)/reset-password *)
Module ResetPasswordScreen.
Import World AuthContext.
Local Open Scope async_scope.

Record Errors : Type := mk
  { email : string; code : string; password : string; confirmPassword : string }.

Definition validateForm (email code password confirmPassword : string)
  : bool * Errors :=
  let passwordValidation := PasswordUtils.validatePassword password in
  let isValid := true in
  let '(isValid, e_email) :=
    if JS.not_string (JSString.trim email)
    then (false, "Email is required")
    else if negb (RegExp.test emailRegex email)
    then (false, "Please enter a valid email") else (isValid, "") in
  let '(isValid, e_code) :=
    if JS.not_string (JSString.trim code)
    then (false, "Reset code is required")
    else if negb (Nat.eqb (String.length code) 6)
    then (false, "Invalid reset code") else (isValid, "") in
  let '(isValid, e_password) :=
    if negb (PasswordUtils.isValid passwordValidation)
    then (false, "Password does not meet requirements") else (isValid, "") in
  let '(isValid, e_confirm) :=
    if negb (String.eqb password confirmPassword)
    then (false, "Passwords do not match") else (isValid, "") in
  (isValid, mk e_email e_code e_password e_confirm).

Definition handleReset (sha256_base64 : string -> string)
    (email code password confirmPassword : string) : Async unit :=
  if negb (fst (validateForm email code password confirmPassword)) then ret tt
  else
    try_catch
      (resetPassword sha256_base64 email code password)
      (fun _ => ret tt).

End ResetPasswordScreen.

(** app/(auth)/forgot-password *)
Module ForgotPasswordScreen.
Import World AuthContext.
Local Open Scope async_scope.

(** The validity and the [emailError] that is set. *)
Definition validateForm (email : string) : bool * string :=
  if JS.not_string (JSString.trim email) then (false, "Email is required")
  else if negb (RegExp.test emailRegex email)
  then (false, "Please enter a valid email")
  else (true, "").


End ForgotPasswordScreen.

(** app/(auth)/login *)
Module LoginScreen.
Import World AuthContext.
Local Open Scope async_scope.

(** The validity, [emailError] and [passwordError]. *)
Definition validateForm (email password : string) : bool * string * string :=
  let isValid := true in
  let '(isValid, emailError) :=
    if JS.not_string (JSString.trim email)
    then (false, "Email is required") else (isValid, "") in
  let '(isValid, passwordError) :=
    if JS.not_string password
    then (false, "Password is required") else (isValid, "") in
  (isValid, emailError, passwordError).


End LoginScreen.

(** components/PersonalInfo *)
Module PersonalInfo.
Import World AuthContext.
Local Open Scope async_scope.


End PersonalInfo.

(** ** Concrete worlds for the examples *)

(** A stand-in for the digest in the examples: it keeps its input, so
    different inputs give different digests, and it is never empty. *)
Definition example_digest (x : string) : string := "#" +:+ x.

(** A clock that starts at [t0] and advances one millisecond per reading. *)
Definition ticking (t0 : Z) : nat -> Z := fun n => t0 + Z.of_nat n.

Definition world_of (s : AsyncStorage.t) (t0 : Z) : World.t :=
  World.mk s AuthState.initial (ticking t0) 0 None [].

Definition outcome {A : Type} (r : Completion A * World.t) : Completion A := fst r.
Definition after {A : Type} (r : Completion A * World.t) : World.t := snd r.
Definition stored {A : Type} (r : Completion A * World.t) : AsyncStorage.t :=
  World.storage (snd r).
Definition state_after {A : Type} (r : Completion A * World.t) : AuthState.t :=
  World.state (snd r).

(** ** Vocabulary of the statements *)

(** The input checks of [signUp] and of [signIn]. *)
Definition signUp_accepts (email password name : string) : Prop :=
  email <> "" /\ password <> "" /\ name <> "" /\
  AuthContext.validateEmail email = true /\ (6 <= String.length password)%nat.

Definition signIn_accepts (email password : string) : Prop :=
  email <> "" /\ password <> "" /\ AuthContext.validateEmail email = true.

(** The directory as [signUp] reads it: an absent key is the empty list. *)
Definition directory (s : AsyncStorage.t) : list StoredUser.t :=
  default [] (AsyncStorage.registered_users s).

(** [email] is the email of some entry of the directory. *)
Definition registered (email : string) (s : AsyncStorage.t) : Prop :=
  exists u, u ∈ directory s /\ StoredUser.email u = email.

Definition has_email (email : string) (u : StoredUser.t) : bool :=
  String.eqb (StoredUser.email u) email.

(** No two entries of the directory have the same email. *)
Definition unique_emails (s : AsyncStorage.t) : Prop :=
  NoDup (map StoredUser.email (directory s)).

(** A stored session comes with a stored user projection. *)
Definition session_has_projection (s : AsyncStorage.t) : Prop :=
  is_Some (AsyncStorage.auth_session s) -> is_Some (AsyncStorage.auth_store s).

(** Two registered users and a store that holds them, for the examples. *)
Definition ann : StoredUser.t := StoredUser.mk "1" "ann@x.io" "Ann" "digest-of-ann".
Definition bob : StoredUser.t := StoredUser.mk "2" "bob@x.io" "Bob" "digest-of-bob".

Definition store_with (users : list StoredUser.t) (salts : list (string * string))
  : AsyncStorage.t :=
  AsyncStorage.set_salts (list_to_map salts)
    (AsyncStorage.set_registered_users (Some users) AsyncStorage.empty).

(** [x.id !== id], the test of the delete paths. *)
Definition other_id {A : Type} (id_of : A -> string) (id : string) (x : A) : bool :=
  negb (String.eqb (id_of x) id).

(** Two expenses, the first of user "1", the second of user "2". *)
Definition rent : Expense.t :=
  Expense.mk "e1" (900 # 1) "Rent" "housing" "2024-03-01T00:00:00.000Z" "1".
Definition lunch : Expense.t :=
  Expense.mk "e2" (25 # 2) "Lunch" "food" "2024-03-02T12:00:00.000Z" "2".

Definition salary : Income.t :=
  Income.mk "i1" (3000 # 1) "Salary" "job" "2024-03-01T00:00:00.000Z" "1".
Definition refund : Income.t :=
  Income.mk "i2" (40 # 1) "Refund" "other" "2024-03-05T00:00:00.000Z" "2".

(** A session of user "1" that expires at 1000, stored with the user
    projection. *)
Definition stale_session : SessionData.t := SessionData.mk "token" 1000 "1".

Definition store_with_session : AsyncStorage.t :=
  AsyncStorage.set_auth_store (Some (User.mk "1" "ann@x.io" (Some "Ann")))
    (AsyncStorage.set_auth_session (Some stale_session)
       (store_with [ann] [("1", "salt-of-ann")])).

(** A store with Ann, her salt and a reset code that expires at [expiry]. *)
Definition reset_pending (expiry : Z) : AsyncStorage.t :=
  AsyncStorage.set_reset_codes {[ "ann@x.io" := ResetData.mk "123456" expiry ]}
    (store_with [ann] [("1", "salt-of-ann")]).

(** The strings a regular expression matches. *)
Inductive Matches : RegExp.t -> string -> Prop :=
| Matches_eps : Matches RegExp.Eps ""
| Matches_class (p : ascii -> bool) (c : ascii) :
    p c = true -> Matches (RegExp.Class p) (String c "")
| Matches_cat (r1 r2 : RegExp.t) (s1 s2 : string) :
    Matches r1 s1 -> Matches r2 s2 -> Matches (RegExp.Cat r1 r2) (s1 +:+ s2)
| Matches_alt_l (r1 r2 : RegExp.t) (s : string) :
    Matches r1 s -> Matches (RegExp.Alt r1 r2) s
| Matches_alt_r (r1 r2 : RegExp.t) (s : string) :
    Matches r2 s -> Matches (RegExp.Alt r1 r2) s
| Matches_star_nil (r : RegExp.t) : Matches (RegExp.Star r) ""
| Matches_star_more (r : RegExp.t) (s1 s2 : string) :
    Matches r s1 -> Matches (RegExp.Star r) s2 ->
    Matches (RegExp.Star r) (s1 +:+ s2).

(** The code units of a string, and a class that holds of all of them. *)
Definition chars (s : string) : list ascii := list_ascii_of_string s.

Definition all_chars (p : ascii -> bool) (s : string) : bool :=
  forallb p (chars s).

Definition some_char (p : ascii -> bool) (s : string) : bool :=
  existsb p (chars s).

(** A part of an email address: not empty, no white space, no [@]. *)
Definition address_part (s : string) : Prop :=
  s <> "" /\
  all_chars (fun c => negb (RegExp.white_space c || RegExp.is_char "@" c)) s = true.

(** The four character classes of [validatePassword]. *)
Definition is_upper : ascii -> bool := RegExp.in_range "A" "Z".
Definition is_lower : ascii -> bool := RegExp.in_range "a" "z".
Definition is_digit : ascii -> bool := RegExp.in_range "0" "9".
Definition is_special : ascii -> bool := RegExp.one_of PasswordUtils.special_chars.

(** How many of the four classes a code unit is in, and how many of them
    occur in a string. *)
Definition classes_of (c : ascii) : nat :=
  (Nat.b2n (is_upper c) + Nat.b2n (is_lower c) +
   Nat.b2n (is_digit c) + Nat.b2n (is_special c))%nat.

Definition classes_in (s : string) : nat :=
  (Nat.b2n (some_char is_upper s) + Nat.b2n (some_char is_lower s) +
   Nat.b2n (some_char is_digit s) + Nat.b2n (some_char is_special s))%nat.

(** The number of criteria of [validatePassword] that a password meets. *)
Definition criteria_met (password : string) : nat :=
  (Nat.b2n (Nat.leb 8 (String.length password)) + classes_in password)%nat.

(** [u.id === id], the test of [updateUserProfile]. *)
Definition has_id (id : string) (u : StoredUser.t) : bool :=
  String.eqb (StoredUser.id u) id.

(** No two entries of the directory have the same id. *)
Definition unique_ids (s : AsyncStorage.t) : Prop :=
  NoDup (map StoredUser.id (directory s)).



(** An expense and an income as the forms hand them over. *)
Definition coffee : ExpenseData.t :=
  ExpenseData.mk (7 # 2) "Coffee" "Food" "2024-03-03T08:00:00.000Z".

(** A world in which [u] is the current user. *)
Definition signed_in (u : User.t) (w : World.t) : World.t :=
  World.set_state (AuthState.set_user (Some u) (World.state w)) w.

Definition ann_user : User.t := User.mk "1" "ann@x.io" (Some "Ann").
Definition bob_user : User.t := User.mk "2" "bob@x.io" (Some "Bob").

(** Ann and Bob with their salts and their records. *)
Definition two_users : AsyncStorage.t :=
  AsyncStorage.set_incomes (Some [salary; refund])
    (AsyncStorage.set_expenses (Some [rent; lunch])
       (store_with [ann; bob] [("1", "salt-of-ann"); ("2", "salt-of-bob")])).

(** * Properties *)

(** ** The key families do not overlap

    Two keys of the providers are stored under the same string only when
    they are the same key: this is what lets the store be kept as one
    component per family. *)

Lemma key_name_inj (k1 k2 : AsyncStorage.Key) :
  AsyncStorage.key_name k1 = AsyncStorage.key_name k2 -> k1 = k2.
Proof.
  destruct k1, k2; intros E; cbv in E; try reflexivity; try discriminate E;
    injection E as ->; reflexivity.
Qed.

(** ** JavaScript helpers *)

Lemma not_string_false (s : string) : s <> "" -> JS.not_string s = false.
Proof. intros Hs. unfold JS.not_string. apply String.eqb_neq. exact Hs. Qed.

Lemma truthy_Some (s : string) : s <> "" -> JS.truthy (Some s) = Some s.
Proof. intros Hs. unfold JS.truthy. rewrite not_string_false; auto. Qed.

Lemma not_item_Some (s : string) : s <> "" -> JS.not_item (Some s) = false.
Proof. apply not_string_false. Qed.

Section FindFacts.
Context {A : Type} (p : A -> bool).

Lemma findIndex_cons (x : A) (xs : list A) :
  JS.findIndex p (x :: xs) = if p x then Some 0%nat else S <$> JS.findIndex p xs.
Proof. reflexivity. Qed.

Lemma findIndex_Some (xs : list A) (i : nat) :
  JS.findIndex p xs = Some i ->
  exists x, xs !! i = Some x /\ p x = true /\
            forall j y, (j < i)%nat -> xs !! j = Some y -> p y = false.
Proof.
  revert i. induction xs as [|x xs IH]; intros i; cbn; [discriminate|].
  destruct (p x) eqn:Hx.
  - intros [= <-]. exists x. repeat split; auto. intros j y Hj. lia.
  - destruct (JS.findIndex p xs) as [k|]; cbn; [|discriminate].
    intros [= <-]. destruct (IH k eq_refl) as (y & Hy & Hpy & Hlt).
    exists y. repeat split; auto.
    intros [|j] z Hj; cbn; [intros [= <-]; exact Hx|].
    apply Hlt. lia.
Qed.

Lemma findIndex_None (xs : list A) :
  JS.findIndex p xs = None <-> JS.some p xs = false.
Proof.
  unfold JS.some. induction xs as [|x xs IH]; cbn; [tauto|].
  destruct (p x); cbn; [split; discriminate|].
  rewrite <- IH. destruct (JS.findIndex p xs); cbn; split; intros H;
    try discriminate; reflexivity.
Qed.

Lemma findIndex_is_Some (xs : list A) :
  JS.some p xs = true -> exists i, JS.findIndex p xs = Some i.
Proof.
  intros H. destruct (JS.findIndex p xs) as [i|] eqn:E; [eauto|].
  apply findIndex_None in E. congruence.
Qed.

(** A new last element that satisfies [p] is found when nothing before it
    does. *)
Lemma findIndex_snoc (xs : list A) (y : A) :
  JS.some p xs = false -> p y = true ->
  JS.findIndex p (xs ++ [y]) = Some (length xs).
Proof.
  unfold JS.some. induction xs as [|x xs IH]; cbn; intros Hxs Hy.
  - rewrite Hy. reflexivity.
  - apply orb_false_iff in Hxs as [Hx Hxs]. rewrite Hx, IH; auto.
Qed.

Lemma find_Some (xs : list A) (i : nat) (x : A) :
  JS.find p xs = Some (i, x) <->
  JS.findIndex p xs = Some i /\ xs !! i = Some x.
Proof.
  unfold JS.find. destruct (JS.findIndex p xs) as [k|]; cbn.
  - destruct (xs !! k) as [y|] eqn:E; cbn.
    + split; [intros [= <- <-]; auto|intros [[= <-] ?]; congruence].
    + split; [discriminate|intros [[= <-] ?]; congruence].
  - split; [discriminate|intros [? _]; discriminate].
Qed.

Lemma find_snoc (xs : list A) (y : A) :
  JS.some p xs = false -> p y = true ->
  JS.find p (xs ++ [y]) = Some (length xs, y).
Proof.
  intros Hxs Hy. apply find_Some. split; [apply findIndex_snoc; auto|].
  rewrite lookup_app_r by lia. rewrite Nat.sub_diag. reflexivity.
Qed.

End FindFacts.

(** ** The auth provider *)

Import AuthContext.

(** Unfolds the monad and the provider's primitives, then computes. *)
Ltac unfold_async :=
  unfold outcome, after, stored, state_after,
    handleSessionExpiration, startSessionTimer, clearError,
    multiRemove_session_and_user, removeItem_reset_code, getItem_reset_code,
    setItem_session, getItem_session, setItem_auth_store, getItem_auth_store,
    setItem_salt, getItem_salt, setItem_registered_users,
    getItem_registered_users, setUser, setIsLoading, setError,
    setIsInitialized, setSessionExpiry, router_replace, setTimeout, Date_now,
    try_finally, try_catch, throw, bind, ret, modify, gets in *.

Ltac run := unfold_async; cbn.

(** Writes the clock readings as [World.clock w n]. *)
Ltac clocks := unfold World.now, World.reading in *; cbn [Nat.add] in *.

#[local] Arguments validateEmail : simpl never.
#[local] Arguments JS.not_string : simpl never.
#[local] Arguments JS.toString : simpl never.
#[local] Arguments JS.find : simpl never.
#[local] Arguments JS.findIndex : simpl never.
#[local] Arguments JS.some : simpl never.
#[local] Arguments AuthContext.hashPassword : simpl never.
#[local] Arguments Nat.ltb : simpl never.
#[local] Arguments Z.ltb : simpl never.
#[local] Arguments String.eqb : simpl nomatch.

Lemma registered_some (email : string) (s : AsyncStorage.t) :
  registered email s <-> JS.some (has_email email) (directory s) = true.
Proof.
  unfold registered, JS.some. rewrite existsb_exists. split.
  - intros (u & Hin & He). exists u. split.
    + apply list_elem_of_In. exact Hin.
    + apply String.eqb_eq. exact He.
  - intros (u & Hin & He). exists u. split.
    + apply list_elem_of_In. exact Hin.
    + apply String.eqb_eq. exact He.
Qed.

Lemma not_registered_some (email : string) (s : AsyncStorage.t) :
  ~ registered email s <-> JS.some (has_email email) (directory s) = false.
Proof.
  rewrite registered_some. destruct (JS.some _ _); split; congruence.
Qed.

Lemma signUp_checks_pass (email password name : string) :
  signUp_accepts email password name ->
  JS.not_string email || JS.not_string password || JS.not_string name = false /\
  validateEmail email = true /\
  (String.length password <? 6)%nat = false.
Proof.
  intros (He & Hp & Hn & Hshape & Hlen).
  rewrite !not_string_false by assumption.
  repeat split; auto. apply Nat.ltb_ge. exact Hlen.
Qed.

Lemma signIn_checks_pass (email password : string) :
  signIn_accepts email password ->
  JS.not_string email || JS.not_string password = false /\
  validateEmail email = true.
Proof.
  intros (He & Hp & Hshape). rewrite !not_string_false by assumption. auto.
Qed.

Lemma registered_dec (email : string) (s : AsyncStorage.t) :
  {registered email s} + {~ registered email s}.
Proof.
  destruct (JS.some (has_email email) (directory s)) eqn:E.
  - left. apply registered_some. exact E.
  - right. apply not_registered_some. exact E.
Qed.

Lemma signUp_accepts_dec (email password name : string) :
  {signUp_accepts email password name} + {~ signUp_accepts email password name}.
Proof.
  unfold signUp_accepts.
  destruct (String.string_dec email ""); [right; tauto|].
  destruct (String.string_dec password ""); [right; tauto|].
  destruct (String.string_dec name ""); [right; tauto|].
  destruct (validateEmail email); [|right; intros (_ & _ & _ & [=] & _)].
  destruct (le_dec 6 (String.length password)); [left|right]; tauto.
Qed.

Lemma classic_signIn_accepts (email password : string) :
  signIn_accepts email password \/ ~ signIn_accepts email password.
Proof.
  unfold signIn_accepts.
  destruct (String.string_dec email ""); [right; tauto|].
  destruct (String.string_dec password ""); [right; tauto|].
  destruct (validateEmail email); [left; tauto|right; intros (_ & _ & [=])].
Qed.

(** With pairwise distinct emails, the lookup by the email of an entry of
    the directory returns that entry. *)
Lemma find_by_unique_email (users : list StoredUser.t) (u : StoredUser.t) :
  NoDup (map StoredUser.email users) -> In u users ->
  exists i, JS.find (has_email (StoredUser.email u)) users = Some (i, u).
Proof.
  intros Hnd Hin.
  enough (exists i, JS.findIndex (has_email (StoredUser.email u)) users = Some i
                    /\ users !! i = Some u) as (i & Hi & Hu)
    by (exists i; apply find_Some; auto).
  induction users as [|x xs IH]; [destruct Hin|].
  cbn in Hnd. apply NoDup_cons in Hnd as [Hx Hxs]. rewrite findIndex_cons.
  destruct (has_email (StoredUser.email u) x) eqn:E.
  - exists 0%nat. split; [reflexivity|]. cbn. f_equal.
    destruct Hin as [->|Hin]; [reflexivity|]. exfalso. apply Hx.
    apply String.eqb_eq in E. rewrite E.
    apply list_elem_of_fmap. exists u. split; [reflexivity|].
    apply list_elem_of_In. exact Hin.
  - destruct Hin as [->|Hin].
    + unfold has_email in E. rewrite String.eqb_refl in E. discriminate.
    + destruct (IH Hxs Hin) as (i & Hi & Hu). exists (S i). rewrite Hi.
      auto.
Qed.

Lemma lookup_map {A B : Type} (f : A -> B) (xs : list A) (i : nat) :
  map f xs !! i = f <$> xs !! i.
Proof.
  revert i. induction xs as [|x xs IH]; intros [|i]; cbn; auto.
Qed.

(** Replacing an element by one with the same image does not change [map]. *)
Lemma map_insert_same {A B : Type} (f : A -> B) (xs : list A) (i : nat) (x x' : A) :
  xs !! i = Some x -> f x' = f x -> map f (<[i := x']> xs) = map f xs.
Proof.
  revert i. induction xs as [|y xs IH]; intros [|i]; cbn; try discriminate.
  - intros [= ->] ->. reflexivity.
  - intros Hi Hf. f_equal. apply IH; assumption.
Qed.

Section AuthProperties.
Variable sha256_base64 : string -> string.

Local Abbreviation signUp := (signUp sha256_base64).
Local Abbreviation signIn := (signIn sha256_base64).
Local Abbreviation resetPassword := (resetPassword sha256_base64).
Local Abbreviation createSession := (createSession sha256_base64).
Local Abbreviation hashPassword := (hashPassword sha256_base64).

(** What [createSession] leaves behind. *)
Lemma createSession_spec (userId : string) (rememberMe : bool) (w : World.t) :
  let expiresAt :=
    World.reading 1 w + (if rememberMe then 604800000 else 86400000) in
  let session :=
    SessionData.mk (sha256_base64 (userId +:+ JS.toString (World.now w)))
      expiresAt userId in
  outcome (createSession userId rememberMe w) = Normal tt /\
  stored (createSession userId rememberMe w) =
    AsyncStorage.set_auth_session (Some session) (World.storage w) /\
  state_after (createSession userId rememberMe w) =
    AuthState.set_sessionExpiry (Some expiresAt) (World.state w) /\
  World.reads (after (createSession userId rememberMe w)) = (3 + World.reads w)%nat /\
  World.clock (after (createSession userId rememberMe w)) = World.clock w.
Proof.
  unfold createSession, AuthContext.createSession. run.
  unfold SESSION_DURATION.
  destruct rememberMe; cbn;
    match goal with |- context [if ?c then _ else _] => destruct c end;
    cbn; repeat split; reflexivity.
Qed.

(** [signUp] when one of its input checks fails: the promise resolves, an
    error is set and nothing is stored. *)
Lemma signUp_rejected (email password name : string) (w : World.t) :
  ~ signUp_accepts email password name ->
  outcome (signUp email password name w) = Normal tt /\
  stored (signUp email password name w) = World.storage w /\
  AuthState.error (state_after (signUp email password name w)) <> None.
Proof.
  intros Hno. unfold signUp, AuthContext.signUp. unfold_async.
  destruct (JS.not_string email || JS.not_string password || JS.not_string name)
    eqn:Hmissing; [cbn; repeat split; discriminate|].
  destruct (validateEmail email) eqn:Hshape; [|cbn; repeat split; discriminate].
  destruct (String.length password <? 6)%nat eqn:Hlen;
    [cbn; repeat split; discriminate|].
  exfalso. apply Hno. unfold signUp_accepts, JS.not_string in *.
  apply orb_false_iff in Hmissing as [Hmissing Hn].
  apply orb_false_iff in Hmissing as [He Hp].
  apply String.eqb_neq in He, Hp, Hn. apply Nat.ltb_ge in Hlen. auto.
Qed.

(** [signUp] with an email of the directory, on inputs that pass the checks. *)
Lemma signUp_duplicate (email password name : string) (w : World.t) :
  signUp_accepts email password name ->
  registered email (World.storage w) ->
  outcome (signUp email password name w) = Thrown "User already exists" /\
  stored (signUp email password name w) = World.storage w /\
  AuthState.error (state_after (signUp email password name w)) =
    auth_error "auth/email-already-in-use"
      "An account with this email already exists".
Proof.
  intros Hok Hreg. apply signUp_checks_pass in Hok as (Hm & Hshape & Hlen).
  apply registered_some in Hreg. unfold directory, has_email in Hreg.
  unfold signUp, AuthContext.signUp. unfold_async.
  rewrite Hm, Hshape, Hlen. cbn. rewrite Hreg. cbn.
  repeat split; reflexivity.
Qed.

(** The world after a [signUp] that goes through. *)
Lemma signUp_registers (email password name : string) (w : World.t) :
  (forall x, sha256_base64 x <> "") ->
  signUp_accepts email password name ->
  ~ registered email (World.storage w) ->
  let userId := JS.toString (World.now w) in
  let salt := sha256_base64 (JS.toString (World.reading 1 w)) in
  let newUser := StoredUser.mk userId email name (hashPassword password salt) in
  let expiresAt := World.reading 3 w + 604800000 in
  let session :=
    SessionData.mk (sha256_base64 (userId +:+ JS.toString (World.reading 2 w)))
      expiresAt userId in
  let s := World.storage w in
  outcome (signUp email password name w) = Normal tt /\
  stored (signUp email password name w) =
    AsyncStorage.set_auth_session (Some session)
      (AsyncStorage.set_registered_users (Some (directory s ++ [newUser]))
         (AsyncStorage.set_salts (<[userId := salt]> (AsyncStorage.salts s)) s)) /\
  state_after (signUp email password name w) =
    AuthState.mk (Some (User.mk userId email (Some name))) false None
      (AuthState.isInitialized (World.state w)) (Some expiresAt) /\
  World.clock (after (signUp email password name w)) = World.clock w /\
  World.reads (after (signUp email password name w)) = (5 + World.reads w)%nat.
Proof.
  intros Hne Hok Hnew. apply signUp_checks_pass in Hok as (Hm & Hshape & Hlen).
  apply not_registered_some in Hnew. unfold directory, has_email in Hnew.
  unfold signUp, AuthContext.signUp, AuthContext.generateSalt,
    AuthContext.createSession.
  unfold_async. rewrite Hm, Hshape, Hlen. cbn. rewrite Hnew. cbn.
  rewrite lookup_insert_eq. rewrite not_item_Some by apply Hne. cbn.
  match goal with |- context [if ?c then _ else _] => destruct c end;
    cbn; repeat split; reflexivity.
Qed.

(** [signIn] when one of its input checks fails: the promise resolves, an
    error is set and nothing is stored. *)
Lemma signIn_rejected (email password : string) (rememberMe : bool) (w : World.t) :
  ~ signIn_accepts email password ->
  outcome (signIn email password rememberMe w) = Normal tt /\
  stored (signIn email password rememberMe w) = World.storage w /\
  AuthState.error (state_after (signIn email password rememberMe w)) <> None.
Proof.
  intros Hno. unfold signIn, AuthContext.signIn. unfold_async.
  destruct (JS.not_string email || JS.not_string password) eqn:Hmissing;
    [cbn; repeat split; discriminate|].
  destruct (validateEmail email) eqn:Hshape; [|cbn; repeat split; discriminate].
  exfalso. apply Hno. unfold signIn_accepts, JS.not_string in *.
  apply orb_false_iff in Hmissing as [He Hp].
  apply String.eqb_neq in He, Hp. auto.
Qed.

(** Salt present and truthy, digests differ. *)
Lemma signIn_wrong_password (email password : string) (rememberMe : bool)
    (w : World.t) (users : list StoredUser.t) (i : nat) (u : StoredUser.t)
    (salt : string) :
  signIn_accepts email password ->
  AsyncStorage.registered_users (World.storage w) = Some users ->
  JS.find (has_email email) users = Some (i, u) ->
  AsyncStorage.salts (World.storage w) !! StoredUser.id u = Some salt ->
  salt <> "" ->
  hashPassword password salt <> StoredUser.passwordHash u ->
  outcome (signIn email password rememberMe w) = Thrown "Invalid password" /\
  stored (signIn email password rememberMe w) = World.storage w /\
  AuthState.error (state_after (signIn email password rememberMe w)) =
    auth_error "auth/wrong-password" "Incorrect password".
Proof.
  intros Hok Husers Hfind Hsalt Hne Hdiff.
  apply signIn_checks_pass in Hok as (Hm & Hshape). unfold has_email in Hfind.
  apply String.eqb_neq in Hdiff.
  unfold signIn, AuthContext.signIn, AuthContext.signIn_compare. unfold_async.
  rewrite Hm, Hshape. cbn. rewrite Husers, Hfind. cbn.
  rewrite Hsalt, truthy_Some by exact Hne. cbn. rewrite Hdiff. cbn.
  repeat split; reflexivity.
Qed.

(** Salt present and truthy, digests equal. *)
Lemma signIn_success (email password : string) (rememberMe : bool)
    (w : World.t) (users : list StoredUser.t) (i : nat) (u : StoredUser.t)
    (salt : string) :
  signIn_accepts email password ->
  AsyncStorage.registered_users (World.storage w) = Some users ->
  JS.find (has_email email) users = Some (i, u) ->
  AsyncStorage.salts (World.storage w) !! StoredUser.id u = Some salt ->
  salt <> "" ->
  hashPassword password salt = StoredUser.passwordHash u ->
  let projection :=
    User.mk (StoredUser.id u) (StoredUser.email u) (Some (StoredUser.name u)) in
  let expiresAt :=
    World.reading 1 w + (if rememberMe then 604800000 else 86400000) in
  let session :=
    SessionData.mk
      (sha256_base64 (StoredUser.id u +:+ JS.toString (World.now w)))
      expiresAt (StoredUser.id u) in
  outcome (signIn email password rememberMe w) = Normal tt /\
  stored (signIn email password rememberMe w) =
    AsyncStorage.set_auth_store (Some projection)
      (AsyncStorage.set_auth_session (Some session) (World.storage w)) /\
  state_after (signIn email password rememberMe w) =
    AuthState.mk (Some projection) false None
      (AuthState.isInitialized (World.state w)) (Some expiresAt).
Proof.
  intros Hok Husers Hfind Hsalt Hne Hsame.
  apply signIn_checks_pass in Hok as (Hm & Hshape). unfold has_email in Hfind.
  apply String.eqb_eq in Hsame.
  unfold signIn, AuthContext.signIn, AuthContext.signIn_compare,
    AuthContext.createSession. unfold_async.
  rewrite Hm, Hshape. cbn. rewrite Husers, Hfind. cbn.
  rewrite Hsalt, truthy_Some by exact Hne. cbn. rewrite Hsame. cbn.
  unfold SESSION_DURATION.
  destruct rememberMe; cbn;
    match goal with |- context [if ?c then _ else _] => destruct c end;
    cbn; repeat split; reflexivity.
Qed.

(** No salt under the user's key: a salt is made from the clock and stored,
    every entry with the user's id becomes the entry with the digest of the
    supplied password under the new salt, and the sign-in goes through. *)
Lemma signIn_self_heal (email password : string) (rememberMe : bool)
    (w : World.t) (users : list StoredUser.t) (i : nat) (u : StoredUser.t) :
  signIn_accepts email password ->
  AsyncStorage.registered_users (World.storage w) = Some users ->
  JS.find (has_email email) users = Some (i, u) ->
  JS.truthy (AsyncStorage.salts (World.storage w) !! StoredUser.id u) = None ->
  let newSalt := sha256_base64 (JS.toString (World.now w)) in
  let u' := StoredUser.set_passwordHash (hashPassword password newSalt) u in
  let users' :=
    map (fun v => if String.eqb (StoredUser.id v) (StoredUser.id u) then u' else v)
      users in
  let projection :=
    User.mk (StoredUser.id u) (StoredUser.email u) (Some (StoredUser.name u)) in
  let expiresAt :=
    World.reading 2 w + (if rememberMe then 604800000 else 86400000) in
  let session :=
    SessionData.mk
      (sha256_base64 (StoredUser.id u +:+ JS.toString (World.reading 1 w)))
      expiresAt (StoredUser.id u) in
  let s := World.storage w in
  outcome (signIn email password rememberMe w) = Normal tt /\
  stored (signIn email password rememberMe w) =
    AsyncStorage.set_auth_store (Some projection)
      (AsyncStorage.set_auth_session (Some session)
         (AsyncStorage.set_registered_users (Some users')
            (AsyncStorage.set_salts
               (<[StoredUser.id u := newSalt]> (AsyncStorage.salts s)) s))) /\
  state_after (signIn email password rememberMe w) =
    AuthState.mk (Some projection) false None
      (AuthState.isInitialized (World.state w)) (Some expiresAt).
Proof.
  intros Hok Husers Hfind Hsalt.
  apply signIn_checks_pass in Hok as (Hm & Hshape).
  pose proof Hfind as Hat. apply find_Some in Hat as [_ Hat].
  unfold has_email in Hfind.
  unfold signIn, AuthContext.signIn, AuthContext.signIn_compare,
    AuthContext.createSession, AuthContext.generateSalt. unfold_async.
  rewrite Hm, Hshape. cbn. rewrite Husers, Hfind. cbn.
  rewrite Hsalt. cbn. rewrite String.eqb_refl. cbn.
  rewrite (map_insert_same _ users i u) by
    (try exact Hat; cbn; rewrite String.eqb_refl; reflexivity).
  unfold SESSION_DURATION.
  destruct rememberMe; cbn;
    match goal with |- context [if ?c then _ else _] => destruct c end;
    cbn; repeat split; reflexivity.
Qed.

(** *** resetPassword *)

Lemma resetPassword_no_code (email code newPassword : string) (w : World.t) :
  AsyncStorage.reset_codes (World.storage w) !! email = None ->
  outcome (resetPassword email code newPassword w) = Thrown "No reset code found" /\
  stored (resetPassword email code newPassword w) = World.storage w /\
  AuthState.error (state_after (resetPassword email code newPassword w)) =
    auth_error "auth/no-reset-code" "Please request a new reset code".
Proof.
  intros Hnone. unfold resetPassword, AuthContext.resetPassword. run.
  rewrite Hnone. cbn. repeat split; reflexivity.
Qed.

Lemma resetPassword_expired (email code newPassword : string) (w : World.t)
    (resetData : ResetData.t) :
  AsyncStorage.reset_codes (World.storage w) !! email = Some resetData ->
  ResetData.expiry resetData < World.now w ->
  outcome (resetPassword email code newPassword w) = Thrown "Reset code expired" /\
  stored (resetPassword email code newPassword w) = World.storage w /\
  AuthState.error (state_after (resetPassword email code newPassword w)) =
    auth_error "auth/code-expired" "Reset code has expired".
Proof.
  intros Hcode Hlate. apply Z.ltb_lt in Hlate.
  unfold resetPassword, AuthContext.resetPassword. run.
  rewrite Hcode. cbn. clocks. rewrite Hlate. cbn.
  repeat split; reflexivity.
Qed.

Lemma resetPassword_invalid_code (email code newPassword : string) (w : World.t)
    (resetData : ResetData.t) :
  AsyncStorage.reset_codes (World.storage w) !! email = Some resetData ->
  World.now w <= ResetData.expiry resetData ->
  ResetData.code resetData <> code ->
  outcome (resetPassword email code newPassword w) = Thrown "Invalid code" /\
  stored (resetPassword email code newPassword w) = World.storage w /\
  AuthState.error (state_after (resetPassword email code newPassword w)) =
    auth_error "auth/invalid-code" "Invalid reset code".
Proof.
  intros Hcode Hintime Hdiff. apply Z.ltb_ge in Hintime.
  apply String.eqb_neq in Hdiff.
  unfold resetPassword, AuthContext.resetPassword. run.
  rewrite Hcode. cbn. clocks. rewrite Hintime. cbn.
  rewrite Hdiff. cbn. repeat split; reflexivity.
Qed.

(** A code that is there, not expired and equal to the supplied one, for an
    email of the directory: whatever the new password is, the first entry
    with that email gets a digest under a new salt, the salt is stored and
    the code is removed. *)
Lemma resetPassword_success (email code newPassword : string) (w : World.t)
    (resetData : ResetData.t) (i : nat) :
  AsyncStorage.reset_codes (World.storage w) !! email = Some resetData ->
  World.now w <= ResetData.expiry resetData ->
  ResetData.code resetData = code ->
  JS.findIndex (has_email email) (directory (World.storage w)) = Some i ->
  let s := World.storage w in
  let salt := sha256_base64 (JS.toString (World.reading 1 w)) in
  let users' :=
    alter (StoredUser.set_passwordHash (hashPassword newPassword salt)) i
      (directory s) in
  exists u,
    directory s !! i = Some u /\ StoredUser.email u = email /\
    outcome (resetPassword email code newPassword w) = Normal tt /\
    stored (resetPassword email code newPassword w) =
      AsyncStorage.set_reset_codes (delete email (AsyncStorage.reset_codes s))
        (AsyncStorage.set_salts
           (<[StoredUser.id u := salt]> (AsyncStorage.salts s))
           (AsyncStorage.set_registered_users (Some users') s)) /\
    AuthState.error (state_after (resetPassword email code newPassword w)) = None.
Proof.
  intros Hcode Hintime Hsame Hfind. apply Z.ltb_ge in Hintime.
  apply String.eqb_eq in Hsame.
  destruct (findIndex_Some _ _ _ Hfind) as (u & Hu & Hpu & _).
  exists u. split; [exact Hu|]. split; [apply String.eqb_eq; exact Hpu|].
  unfold directory, has_email in *.
  unfold resetPassword, AuthContext.resetPassword, AuthContext.generateSalt. run.
  rewrite Hcode. cbn. clocks. rewrite Hintime. cbn.
  rewrite Hsame. cbn. rewrite Hfind. cbn.
  rewrite list_lookup_alter, Hu. cbn.
  destruct (decide (i = i)); [|congruence]. cbn. repeat split; reflexivity.
Qed.

Lemma resetPassword_user_not_found (email code newPassword : string)
    (w : World.t) (resetData : ResetData.t) :
  AsyncStorage.reset_codes (World.storage w) !! email = Some resetData ->
  World.now w <= ResetData.expiry resetData ->
  ResetData.code resetData = code ->
  ~ registered email (World.storage w) ->
  outcome (resetPassword email code newPassword w) = Thrown "User not found" /\
  stored (resetPassword email code newPassword w) = World.storage w.
Proof.
  intros Hcode Hintime Hsame Hnew. apply Z.ltb_ge in Hintime.
  apply String.eqb_eq in Hsame.
  apply not_registered_some, findIndex_None in Hnew.
  unfold directory, has_email in *.
  unfold resetPassword, AuthContext.resetPassword. run.
  rewrite Hcode. cbn. clocks. rewrite Hintime. cbn. rewrite Hsame. cbn. rewrite Hnew. cbn.
  split; reflexivity.
Qed.

(** ** The claims about the auth provider *)

(** C5. [createSession] stores a session that expires 7 days after the
    current time when [rememberMe] is set and 24 hours after it otherwise;
    and [loadStoredAuth], given a stored session whose [expiresAt] is not
    later than the current time, returns no session (no current user, no
    session expiry) and removes both the stored session and the stored user
    projection. *)
Theorem session_lifetime_and_lazy_expiry :
  (forall (w : World.t) (userId : string) (rememberMe : bool),
     let r := createSession userId rememberMe w in
     let t := World.reading 1 w in
     outcome r = Normal tt /\
     AsyncStorage.auth_session (stored r) =
       Some (SessionData.mk
               (sha256_base64 (userId +:+ JS.toString (World.now w)))
               (if rememberMe then t + 7 * 24 * 60 * 60 * 1000
                else t + 24 * 60 * 60 * 1000)
               userId)) /\
  (forall (w : World.t) (session : SessionData.t),
     AsyncStorage.auth_session (World.storage w) = Some session ->
     SessionData.expiresAt session <= World.now w ->
     let r := loadStoredAuth w in
     outcome r = Normal tt /\
     AsyncStorage.auth_session (stored r) = None /\
     AsyncStorage.auth_store (stored r) = None /\
     AuthState.user (state_after r) = None /\
     AuthState.sessionExpiry (state_after r) = None).
Proof.
  split.
  - intros w userId rememberMe r t.
    destruct (createSession_spec userId rememberMe w) as (Ho & Hs & _).
    split; [exact Ho|]. subst r. rewrite Hs. cbn.
    destruct rememberMe; reflexivity.
  - intros w session Hsession Hexpired. apply Z.ltb_ge in Hexpired.
    unfold loadStoredAuth. run. clocks. rewrite Hsession. cbn.
    rewrite Hexpired. cbn. repeat split; reflexivity.
Qed.

(** C6. With a reset code stored for the email: [resetPassword] is rejected
    with "Reset code expired" when the current time is past the code's
    expiry and with "Invalid code" when the code is not expired and differs
    from the supplied one, and in both cases storage, hence every stored
    digest, is unchanged; with a matching, unexpired code for a registered
    email it goes through; and whenever it goes through the stored code is
    removed, so that a next call for that email, with the same code or any
    other, is rejected with "No reset code found". *)
Theorem resetPassword_code_checks
    (email code newPassword : string) (w : World.t) (resetData : ResetData.t) :
  AsyncStorage.reset_codes (World.storage w) !! email = Some resetData ->
  let r := resetPassword email code newPassword w in
  (ResetData.expiry resetData < World.now w ->
     outcome r = Thrown "Reset code expired" /\
     AuthState.error (state_after r) =
       auth_error "auth/code-expired" "Reset code has expired" /\
     stored r = World.storage w) /\
  (World.now w <= ResetData.expiry resetData ->
   ResetData.code resetData <> code ->
     outcome r = Thrown "Invalid code" /\
     AuthState.error (state_after r) =
       auth_error "auth/invalid-code" "Invalid reset code" /\
     stored r = World.storage w) /\
  (World.now w <= ResetData.expiry resetData ->
   ResetData.code resetData = code ->
   registered email (World.storage w) ->
     outcome r = Normal tt) /\
  (outcome r = Normal tt ->
     AsyncStorage.reset_codes (stored r) !! email = None /\
     forall code' newPassword' : string,
       let r' := resetPassword email code' newPassword' (after r) in
       outcome r' = Thrown "No reset code found" /\
       AuthState.error (state_after r') =
         auth_error "auth/no-reset-code" "Please request a new reset code").
Proof.
  intros Hcode r. subst r. repeat apply conj.
  - intros Hlate.
    destruct (resetPassword_expired email code newPassword w _ Hcode Hlate)
      as (Ho & Hs & He). auto.
  - intros Hintime Hdiff.
    destruct (resetPassword_invalid_code email code newPassword w _
                Hcode Hintime Hdiff) as (Ho & Hs & He). auto.
  - intros Hintime Hsame Hreg.
    apply registered_some, findIndex_is_Some in Hreg as [i Hi].
    destruct (resetPassword_success email code newPassword w _ i
                Hcode Hintime Hsame Hi) as (u & _ & _ & Ho & _). exact Ho.
  - intros Hdone.
    assert (Hgone : AsyncStorage.reset_codes
                      (stored (resetPassword email code newPassword w)) !! email
                    = None).
    { destruct (Z_lt_le_dec (ResetData.expiry resetData) (World.now w))
        as [Hlate|Hintime].
      { destruct (resetPassword_expired email code newPassword w _ Hcode Hlate)
          as (Ho & _). congruence. }
      destruct (String.string_dec (ResetData.code resetData) code) as [Hsame|Hdiff].
      2:{ destruct (resetPassword_invalid_code email code newPassword w _
                      Hcode Hintime Hdiff) as (Ho & _). congruence. }
      destruct (registered_dec email (World.storage w)) as [Hreg|Hnew].
      2:{ destruct (resetPassword_user_not_found email code newPassword w _
                      Hcode Hintime Hsame Hnew) as (Ho & _). congruence. }
      apply registered_some, findIndex_is_Some in Hreg as [i Hi].
      destruct (resetPassword_success email code newPassword w _ i
                  Hcode Hintime Hsame Hi) as (u & _ & _ & _ & Hs & _).
      rewrite Hs. cbn. apply lookup_delete_eq. }
    split; [exact Hgone|]. intros code' newPassword'. cbn zeta.
    destruct (resetPassword_no_code email code' newPassword'
                (after (resetPassword email code newPassword w)) Hgone)
      as (Ho & _ & He). auto.
Qed.

(** C9. With a stored, unexpired, matching reset code for a registered
    email, [resetPassword] goes through for every new password, the empty
    string and strings of fewer than 6 characters included: the first entry
    with that email gets the digest of the new password under a new salt.
    [signUp], for its part, stores nothing when the password has fewer than
    6 characters. *)
Theorem resetPassword_accepts_any_password :
  (forall (email code newPassword : string) (w : World.t) (resetData : ResetData.t),
     AsyncStorage.reset_codes (World.storage w) !! email = Some resetData ->
     World.now w <= ResetData.expiry resetData ->
     ResetData.code resetData = code ->
     registered email (World.storage w) ->
     let r := resetPassword email code newPassword w in
     outcome r = Normal tt /\
     AuthState.error (state_after r) = None /\
     exists (i : nat) (u : StoredUser.t) (salt : string),
       directory (World.storage w) !! i = Some u /\
       StoredUser.email u = email /\
       AsyncStorage.salts (stored r) !! StoredUser.id u = Some salt /\
       directory (stored r) !! i =
         Some (StoredUser.set_passwordHash (hashPassword newPassword salt) u)) /\
  (forall (email password name : string) (w : World.t),
     (String.length password < 6)%nat ->
     let r := signUp email password name w in
     outcome r = Normal tt /\
     stored r = World.storage w /\
     AuthState.error (state_after r) <> None).
Proof.
  split.
  - intros email code newPassword w resetData Hcode Hintime Hsame Hreg r.
    apply registered_some, findIndex_is_Some in Hreg as [i Hi].
    destruct (resetPassword_success email code newPassword w _ i
                Hcode Hintime Hsame Hi) as (u & Hu & Hemail & Ho & Hs & He).
    subst r. split; [exact Ho|]. split; [exact He|].
    exists i, u, (sha256_base64 (JS.toString (World.reading 1 w))).
    split; [exact Hu|]. split; [exact Hemail|]. rewrite Hs. cbn. split.
    + apply lookup_insert_eq.
    + unfold directory in *. cbn. rewrite list_lookup_alter.
      destruct (decide (i = i)); [|congruence]. rewrite Hu. reflexivity.
  - intros email password name w Hshort r. subst r.
    apply signUp_rejected. unfold signUp_accepts. lia.
Qed.

(** C1, as amended. For the directory entry that the lookup by email finds
    and whose salt key is absent, [signIn] with that email and any password,
    when both pass the input checks of [signIn] (both non-empty, the email
    of the shape local@domain.tld), makes a new salt, stores it under the
    user's key, rewrites the entry's digest to the digest of the supplied
    password under the new salt, and goes through: it is not rejected with
    "Invalid password", whichever password was supplied. *)
Theorem signIn_missing_salt_accepts_any_password
    (email password : string) (rememberMe : bool) (w : World.t)
    (users : list StoredUser.t) (i : nat) (u : StoredUser.t) :
  AsyncStorage.registered_users (World.storage w) = Some users ->
  JS.find (has_email email) users = Some (i, u) ->
  AsyncStorage.salts (World.storage w) !! StoredUser.id u = None ->
  signIn_accepts email password ->
  let r := signIn email password rememberMe w in
  let newSalt := sha256_base64 (JS.toString (World.now w)) in
  AsyncStorage.salts (stored r) !! StoredUser.id u = Some newSalt /\
  (exists users',
     AsyncStorage.registered_users (stored r) = Some users' /\
     users' !! i =
       Some (StoredUser.set_passwordHash (hashPassword password newSalt) u)) /\
  outcome r = Normal tt /\
  AuthState.error (state_after r) = None /\
  AuthState.user (state_after r) =
    Some (User.mk (StoredUser.id u) (StoredUser.email u)
            (Some (StoredUser.name u))).
Proof.
  intros Husers Hfind Habsent Hok r newSalt. subst r.
  assert (Hfalsy : JS.truthy (AsyncStorage.salts (World.storage w)
                                !! StoredUser.id u) = None)
    by (rewrite Habsent; reflexivity).
  destruct (signIn_self_heal email password rememberMe w users i u
              Hok Husers Hfind Hfalsy) as (Ho & Hs & Hst).
  apply find_Some in Hfind as [_ Hat].
  rewrite Hs, Hst. cbn. repeat apply conj; try reflexivity.
  - apply lookup_insert_eq.
  - eexists. split; [reflexivity|]. rewrite lookup_map, Hat. cbn.
    rewrite String.eqb_refl. reflexivity.
  - exact Ho.
Qed.

(** C7, as amended. For the directory entry that the lookup by email finds
    and whose salt key holds a non-empty salt, [signIn] with that email and
    a password, when both pass the input checks of [signIn], and the digest
    of the password under the stored salt differs from the stored digest, is
    rejected with "Invalid password" (auth/wrong-password) and leaves
    storage, hence the entry's digest, unchanged. *)
Theorem signIn_wrong_password_rejected
    (email password : string) (rememberMe : bool) (w : World.t)
    (users : list StoredUser.t) (i : nat) (u : StoredUser.t) (salt : string) :
  AsyncStorage.registered_users (World.storage w) = Some users ->
  JS.find (has_email email) users = Some (i, u) ->
  AsyncStorage.salts (World.storage w) !! StoredUser.id u = Some salt ->
  salt <> "" ->
  signIn_accepts email password ->
  hashPassword password salt <> StoredUser.passwordHash u ->
  let r := signIn email password rememberMe w in
  outcome r = Thrown "Invalid password" /\
  AuthState.error (state_after r) =
    auth_error "auth/wrong-password" "Incorrect password" /\
  AsyncStorage.registered_users (stored r) = Some users /\
  stored r = World.storage w.
Proof.
  intros Husers Hfind Hsalt Hne Hok Hdiff r. subst r.
  destruct (signIn_wrong_password email password rememberMe w users i u salt
              Hok Husers Hfind Hsalt Hne Hdiff) as (Ho & Hs & He).
  rewrite Hs. auto.
Qed.

(** C8, as amended. When some entry of the directory has exactly the
    supplied email, [signUp] leaves the stored directory, every salt and the
    stored session unchanged; and when the supplied email, password and name
    pass the input checks of [signUp] (all non-empty, the email of the shape
    local@domain.tld, at least 6 characters of password) it is rejected with
    "User already exists" (auth/email-already-in-use). *)
Theorem signUp_existing_email_rejected
    (email password name : string) (w : World.t) :
  registered email (World.storage w) ->
  let r := signUp email password name w in
  (AsyncStorage.registered_users (stored r) =
     AsyncStorage.registered_users (World.storage w) /\
   AsyncStorage.salts (stored r) = AsyncStorage.salts (World.storage w) /\
   AsyncStorage.auth_session (stored r) =
     AsyncStorage.auth_session (World.storage w)) /\
  (signUp_accepts email password name ->
   outcome r = Thrown "User already exists" /\
   AuthState.error (state_after r) =
     auth_error "auth/email-already-in-use"
       "An account with this email already exists").
Proof.
  intros Hreg r. subst r. split.
  - destruct (signUp_accepts_dec email password name) as [Hok|Hno].
    + destruct (signUp_duplicate email password name w Hok Hreg) as (_ & Hs & _).
      rewrite Hs. auto.
    + destruct (signUp_rejected email password name w Hno) as (_ & Hs & _).
      rewrite Hs. auto.
  - intros Hok.
    destruct (signUp_duplicate email password name w Hok Hreg) as (Ho & _ & He).
    auto.
Qed.

(** C3. For every email, password and name that pass the input checks of
    [signUp] (all non-empty, the email of the shape local@domain.tld, at
    least 6 characters of password), the email not being in the directory,
    [signUp] followed at once by [signIn] with the same email and password
    goes through without an error, and the signed-in user has the id that
    [signUp] assigned: [signIn] stores the projection of that user under
    the key of the auth store, which [signUp] does not write, and replaces
    the session of [signUp] by its own, made from its own clock readings
    with the lifetime that [rememberMe] asks for. The digest function never
    returns the empty string (Base64 of a SHA-256 value has 44 characters). *)
Theorem signUp_then_signIn
    (email password name : string) (rememberMe : bool) (w : World.t) :
  (forall x, sha256_base64 x <> "") ->
  signUp_accepts email password name ->
  ~ registered email (World.storage w) ->
  let r1 := signUp email password name w in
  let r2 := signIn email password rememberMe (after r1) in
  let userId := JS.toString (World.now w) in
  outcome r1 = Normal tt /\
  AuthState.error (state_after r1) = None /\
  AuthState.user (state_after r1) = Some (User.mk userId email (Some name)) /\
  outcome r2 = Normal tt /\
  AuthState.error (state_after r2) = None /\
  AuthState.user (state_after r2) = Some (User.mk userId email (Some name)) /\
  (exists session,
     AsyncStorage.auth_session (stored r2) = Some session /\
     SessionData.userId session = userId) /\
  AsyncStorage.auth_store (stored r2) =
    Some (User.mk userId email (Some name)) /\
  AsyncStorage.auth_session (stored r2) =
    Some (SessionData.mk
            (sha256_base64 (userId +:+ JS.toString (World.reading 5 w)))
            (World.reading 6 w + (if rememberMe then 604800000 else 86400000))
            userId) /\
  AuthState.sessionExpiry (state_after r2) =
    Some (World.reading 6 w + (if rememberMe then 604800000 else 86400000)).
Proof.
  intros Hne Hok Hnew r1 r2 userId.
  destruct (signUp_registers email password name w Hne Hok Hnew)
    as (Ho1 & Hs1 & Hst1 & Hclock1 & Hreads1).
  fold r1 in Ho1, Hs1, Hst1, Hclock1, Hreads1.
  assert (Hnow1 : World.now (after r1) = World.reading 5 w)
    by (unfold World.now, World.reading; rewrite Hclock1, Hreads1; reflexivity).
  assert (Hnext1 : World.reading 1 (after r1) = World.reading 6 w)
    by (unfold World.reading; rewrite Hclock1, Hreads1; reflexivity).
  set (salt := sha256_base64 (JS.toString (World.reading 1 w))) in *.
  set (newUser := StoredUser.mk (JS.toString (World.now w)) email name
                    (hashPassword password salt)) in *.
  assert (Hin : signIn_accepts email password).
  { destruct Hok as (He & Hp & _ & Hshape & _). repeat split; assumption. }
  assert (Hfind : JS.find (has_email email)
                    (directory (World.storage w) ++ [newUser]) =
                  Some (length (directory (World.storage w)), newUser)).
  { apply find_snoc.
    - apply not_registered_some. exact Hnew.
    - unfold has_email. cbn. apply String.eqb_refl. }
  assert (Husers : AsyncStorage.registered_users (World.storage (after r1)) =
                   Some (directory (World.storage w) ++ [newUser])).
  { change (World.storage (after r1)) with (stored r1). rewrite Hs1.
    reflexivity. }
  assert (Hsalt : AsyncStorage.salts (World.storage (after r1))
                    !! StoredUser.id newUser = Some salt).
  { change (World.storage (after r1)) with (stored r1). rewrite Hs1. cbn.
    apply lookup_insert_eq. }
  destruct (signIn_success email password rememberMe (after r1) _ _ newUser salt
              Hin Husers Hfind Hsalt (Hne _) eq_refl) as (Ho2 & Hs2 & Hst2).
  fold r2 in Ho2, Hs2, Hst2.
  rewrite Hst1, Hst2, Hs2, Hnow1, Hnext1. cbn.
  repeat apply conj; try reflexivity; try assumption.
  eexists. split; reflexivity.
Qed.

End AuthProperties.

(** ** Inputs on which the claims as first stated fail *)

(** C1 as stated fails. Ann is registered and her salt key is absent.
    [signIn] with her email and the empty password stops at the first input
    check: no salt is stored and her digest stays. The same happens at the
    second check when the registered email is not of the shape
    local@domain.tld. *)
Lemma signIn_missing_salt_counterexample :
  let s := store_with [ann] [] in
  let r := signIn example_digest "ann@x.io" "" false (world_of s 1000) in
  let ann' := StoredUser.mk "1" "ann" "Ann" "digest-of-ann" in
  let s' := store_with [ann'] [] in
  let r' := signIn example_digest "ann" "secret" false (world_of s' 1000) in
  (AsyncStorage.salts s !! "1" = None /\
   AuthState.error (state_after r) =
     auth_error "auth/missing-fields" "Email and password are required" /\
   AsyncStorage.salts (stored r) !! "1" = None /\
   AsyncStorage.registered_users (stored r) = Some [ann]) /\
  (AsyncStorage.salts s' !! "1" = None /\
   AuthState.error (state_after r') =
     auth_error "auth/invalid-email" "Please enter a valid email address" /\
   AsyncStorage.salts (stored r') !! "1" = None /\
   AsyncStorage.registered_users (stored r') = Some [ann']).
Proof. vm_compute. repeat split; reflexivity. Qed.

(** C7 as stated fails. Ann is registered and her salt key is present.
    - With the empty password, whose digest under her salt differs from the
      stored one, [signIn] resolves with auth/missing-fields; it is not
      rejected with "Invalid password".
    - With a registered email that is not of the shape local@domain.tld it
      resolves with auth/invalid-email.
    - When the salt key is present and holds the empty string, [signIn]
      takes it for missing: a wrong password is accepted and the digest is
      rewritten. *)
Lemma signIn_wrong_password_counterexample :
  let s := store_with [ann] [("1", "salt-of-ann")] in
  let r := signIn example_digest "ann@x.io" "" false (world_of s 1000) in
  let ann' := StoredUser.mk "1" "ann" "Ann" "digest-of-ann" in
  let s' := store_with [ann'] [("1", "salt-of-ann")] in
  let r' := signIn example_digest "ann" "guess" false (world_of s' 1000) in
  let s'' := store_with [ann] [("1", "")] in
  let r'' := signIn example_digest "ann@x.io" "guess" false (world_of s'' 1000) in
  (AsyncStorage.salts s !! "1" = Some "salt-of-ann" /\
   hashPassword example_digest "" "salt-of-ann" <> StoredUser.passwordHash ann /\
   outcome r = Normal tt /\
   AuthState.error (state_after r) =
     auth_error "auth/missing-fields" "Email and password are required") /\
  (AsyncStorage.salts s' !! "1" = Some "salt-of-ann" /\
   hashPassword example_digest "guess" "salt-of-ann" <> StoredUser.passwordHash ann' /\
   outcome r' = Normal tt /\
   AuthState.error (state_after r') =
     auth_error "auth/invalid-email" "Please enter a valid email address") /\
  (AsyncStorage.salts s'' !! "1" = Some "" /\
   hashPassword example_digest "guess" "" <> StoredUser.passwordHash ann /\
   outcome r'' = Normal tt /\
   AuthState.error (state_after r'') = None /\
   AsyncStorage.registered_users (stored r'') =
     Some [StoredUser.mk "1" "ann@x.io" "Ann" "#guess#1000"]).
Proof. vm_compute. repeat split; try reflexivity; discriminate. Qed.

(** C8 as stated fails. Ann is registered. [signUp] with her email and a
    password of 5 characters stops at the password check: the promise
    resolves with auth/weak-password; it is not rejected with "User already
    exists". *)
Lemma signUp_existing_email_counterexample :
  let s := store_with [ann] [("1", "salt-of-ann")] in
  let r := signUp example_digest "ann@x.io" "12345" "Ann" (world_of s 1000) in
  JS.some (has_email "ann@x.io") (directory s) = true /\
  outcome r = Normal tt /\
  AuthState.error (state_after r) =
    auth_error "auth/weak-password" "Password should be at least 6 characters".
Proof. vm_compute. repeat split; reflexivity. Qed.

(** ** What the operations keep *)

Section Preservation.
Variable sha256_base64 : string -> string.

Lemma signOut_removes_session (w : World.t) :
  outcome (signOut w) = Normal tt /\
  AsyncStorage.auth_session (stored (signOut w)) = None /\
  AsyncStorage.auth_store (stored (signOut w)) = None /\
  AuthState.user (state_after (signOut w)) = None.
Proof. unfold signOut. run. repeat split; reflexivity. Qed.

Lemma signOut_session_has_projection (w : World.t) :
  session_has_projection (stored (signOut w)).
Proof.
  unfold session_has_projection.
  destruct (signOut_removes_session w) as (_ & -> & _). intros [? [=]].
Qed.

Lemma loadStoredAuth_session_has_projection (w : World.t) :
  session_has_projection (World.storage w) ->
  session_has_projection (stored (loadStoredAuth w)).
Proof.
  unfold session_has_projection, loadStoredAuth. run.
  destruct (AsyncStorage.auth_session (World.storage w)) as [session|] eqn:Hs;
    cbn; [|rewrite Hs; auto].
  destruct (World.now w <? SessionData.expiresAt session)%Z; cbn.
  - destruct (AsyncStorage.auth_store (World.storage w)) as [userData|] eqn:Hu;
      cbn.
    + match goal with |- context [if ?c then _ else _] => destruct c end;
        cbn; rewrite Hu; eauto.
    + rewrite Hs, Hu. auto.
  - intros _ [? [=]].
Qed.

Lemma signIn_session_has_projection
    (email password : string) (rememberMe : bool) (w : World.t) :
  session_has_projection (World.storage w) ->
  session_has_projection
    (stored (signIn sha256_base64 email password rememberMe w)).
Proof.
  intros Hinv.
  destruct (classic_signIn_accepts email password) as [Hok|Hno].
  2:{ destruct (signIn_rejected sha256_base64 email password rememberMe w Hno)
        as (_ & -> & _). exact Hinv. }
  pose proof (signIn_checks_pass email password Hok) as (Hm & Hshape).
  unfold session_has_projection in *.
  unfold signIn, AuthContext.signIn_compare, AuthContext.createSession,
    AuthContext.generateSalt. unfold_async. rewrite Hm, Hshape. cbn.
  destruct (AsyncStorage.registered_users (World.storage w)) as [users|];
    cbn; [|exact Hinv].
  destruct (JS.find _ users) as [[i u]|]; cbn; [|exact Hinv].
  destruct (JS.truthy _) as [salt|]; cbn.
  - destruct (String.eqb _ _); cbn; [|exact Hinv].
    match goal with |- context [if ?c then _ else _] => destruct c end;
      cbn; eauto.
  - rewrite String.eqb_refl. cbn.
    match goal with |- context [if ?c then _ else _] => destruct c end;
      cbn; eauto.
Qed.

Lemma map_alter_same {A B : Type} (g : A -> B) (f : A -> A) (xs : list A) (i : nat) :
  (forall x, g (f x) = g x) -> map g (alter f i xs) = map g xs.
Proof.
  intros Hg. revert i. induction xs as [|x xs IH]; intros [|i]; cbn; auto.
  - rewrite Hg. reflexivity.
  - f_equal. apply IH.
Qed.

(** [signUp] keeps the emails of the directory pairwise distinct: it adds an
    entry only after the check that no entry has the email. *)
Lemma signUp_unique_emails (email password name : string) (w : World.t) :
  unique_emails (World.storage w) ->
  unique_emails (stored (signUp sha256_base64 email password name w)).
Proof.
  intros Hinv.
  destruct (signUp_accepts_dec email password name) as [Hok|Hno].
  2:{ destruct (signUp_rejected sha256_base64 email password name w Hno)
        as (_ & -> & _). exact Hinv. }
  destruct (registered_dec email (World.storage w)) as [Hreg|Hnew].
  { destruct (signUp_duplicate sha256_base64 email password name w Hok Hreg)
      as (_ & -> & _). exact Hinv. }
  pose proof (signUp_checks_pass email password name Hok) as (Hm & Hshape & Hlen).
  pose proof Hnew as Hsome. apply not_registered_some in Hsome.
  unfold unique_emails, directory, has_email in *.
  unfold signUp, AuthContext.generateSalt, AuthContext.createSession.
  unfold_async. rewrite Hm, Hshape, Hlen. cbn. rewrite Hsome. cbn.
  rewrite lookup_insert_eq.
  destruct (JS.not_item _); cbn; [exact Hinv|].
  match goal with |- context [if ?c then _ else _] => destruct c end; cbn;
    rewrite map_app; cbn; apply NoDup_app; (split; [exact Hinv|]);
    (split; [|apply NoDup_singleton]);
    intros e He Hin; apply list_elem_of_singleton in Hin; subst e;
    apply Hnew; apply list_elem_of_fmap in He as (u & Hu & Hin);
    exists u; split; auto.
Qed.

(** [resetPassword] changes a digest only. *)
Lemma resetPassword_unique_emails (email code newPassword : string) (w : World.t) :
  unique_emails (World.storage w) ->
  unique_emails (stored (resetPassword sha256_base64 email code newPassword w)).
Proof.
  intros Hinv.
  destruct (AsyncStorage.reset_codes (World.storage w) !! email)
    as [resetData|] eqn:Hcode.
  2:{ destruct (resetPassword_no_code sha256_base64 email code newPassword w Hcode)
        as (_ & -> & _). exact Hinv. }
  destruct (Z_lt_le_dec (ResetData.expiry resetData) (World.now w))
    as [Hlate|Hintime].
  { destruct (resetPassword_expired sha256_base64 email code newPassword w _
                Hcode Hlate) as (_ & -> & _). exact Hinv. }
  destruct (String.string_dec (ResetData.code resetData) code) as [Hsame|Hdiff].
  2:{ destruct (resetPassword_invalid_code sha256_base64 email code newPassword
                  w _ Hcode Hintime Hdiff) as (_ & -> & _). exact Hinv. }
  destruct (registered_dec email (World.storage w)) as [Hreg|Hnew].
  2:{ destruct (resetPassword_user_not_found sha256_base64 email code
                  newPassword w _ Hcode Hintime Hsame Hnew) as (_ & ->).
      exact Hinv. }
  apply registered_some, findIndex_is_Some in Hreg as [i Hi].
  destruct (resetPassword_success sha256_base64 email code newPassword w _ i
              Hcode Hintime Hsame Hi) as (u & _ & _ & _ & -> & _).
  unfold unique_emails, directory in *. cbn.
  rewrite map_alter_same; [exact Hinv|]. intros x. reflexivity.
Qed.

End Preservation.

(** ** Where the code departs from the claims *)

(** C2. After [signUp] on an empty store the session is stored and not
    expired, and no user projection is stored under the key of the auth
    store: [signIn] writes the projection after [createSession], [signUp]
    only sets the current user in memory. On the next start of the
    application [loadStoredAuth] finds the session, finds no projection and
    leaves the user signed out, the session still in storage. *)
Theorem signUp_stores_session_without_projection :
  let r := signUp example_digest "ann@x.io" "secret" "Ann"
             (world_of AsyncStorage.empty 1000) in
  let restart := loadStoredAuth (world_of (stored r) 2000) in
  session_has_projection AsyncStorage.empty /\
  outcome r = Normal tt /\
  AsyncStorage.auth_session (stored r) =
    Some (SessionData.mk "#10001002" 604801003 "1000") /\
  World.now (after r) < 604801003 /\
  AsyncStorage.auth_store (stored r) = None /\
  ~ session_has_projection (stored r) /\
  AuthState.user (state_after restart) = None /\
  AsyncStorage.auth_session (stored restart) =
    Some (SessionData.mk "#10001002" 604801003 "1000").
Proof.
  cbv zeta. repeat apply conj; try (vm_compute; reflexivity).
  - intros [? [=]].
  - intros Hinv.
    assert (Hs : is_Some (AsyncStorage.auth_session
                            (stored (signUp example_digest "ann@x.io" "secret"
                                       "Ann" (world_of AsyncStorage.empty 1000)))))
      by (vm_compute; eauto).
    destruct (Hinv Hs) as [x Hx]. vm_compute in Hx. discriminate Hx.
Qed.

(** C4. Ann and Bob are registered with different emails and Bob is signed
    in. [updateUserProfile] with Ann's email writes the directory with two
    entries of that email: [signUp] checks the email against the directory
    before it writes, [updateUserProfile] does not. *)
Theorem updateUserProfile_duplicates_email :
  let s := store_with [ann; bob] [("1", "salt-of-ann"); ("2", "salt-of-bob")] in
  let w := World.set_state
             (AuthState.set_user (Some (User.mk "2" "bob@x.io" (Some "Bob")))
                AuthState.initial)
             (world_of s 1000) in
  let r := updateUserProfile (ProfileUpdates.mk (Some "Bob") (Some "ann@x.io")) w in
  unique_emails s /\
  outcome r = Normal tt /\
  AsyncStorage.registered_users (stored r) =
    Some [ann; StoredUser.mk "2" "ann@x.io" "Bob" "digest-of-bob"] /\
  ~ unique_emails (stored r).
Proof.
  cbv zeta. repeat apply conj; try (vm_compute; reflexivity).
  - unfold unique_emails. apply (bool_decide_unpack _). vm_compute. reflexivity.
  - unfold unique_emails. intros Hnd. apply (bool_decide_pack _) in Hnd.
    vm_compute in Hnd. exact Hnd.
Qed.

(** ** Expenses and incomes *)

Section Deleting.
Context {A : Type} (id_of : A -> string) (id : string).

Local Abbreviation other_id := (other_id id_of id).

Lemma In_filter_other_id (xs : list A) (x : A) :
  In x (JS.filter other_id xs) <-> In x xs /\ id_of x <> id.
Proof.
  unfold JS.filter, other_id. rewrite filter_In, negb_true_iff, String.eqb_neq.
  reflexivity.
Qed.

Lemma filter_other_id_sublist (xs : list A) :
  sublist (JS.filter other_id xs) xs.
Proof.
  unfold JS.filter. induction xs as [|x xs IH]; cbn; [constructor|].
  destruct (other_id x); constructor; exact IH.
Qed.

End Deleting.

Lemma deleteExpense_spec (id : string) (storage : AsyncStorage.t)
    (st : ExpenseContext.State) (allExpenses : list Expense.t) :
  AsyncStorage.expenses storage = Some allExpenses ->
  ExpenseContext.deleteExpense id (storage, st) =
    (AsyncStorage.set_expenses
       (Some (JS.filter (other_id Expense.id id) allExpenses)) storage,
     ExpenseContext.mk
       (JS.filter (other_id Expense.id id) (ExpenseContext.expenses st))
       (ExpenseContext.isLoading st) (ExpenseContext.error st)).
Proof. intros H. unfold ExpenseContext.deleteExpense. rewrite H. reflexivity. Qed.

Lemma deleteIncome_spec (id : string) (storage : AsyncStorage.t)
    (st : IncomeContext.State) (allIncomes : list Income.t) :
  AsyncStorage.incomes storage = Some allIncomes ->
  IncomeContext.deleteIncome id (storage, st) =
    (AsyncStorage.set_incomes
       (Some (JS.filter (other_id Income.id id) allIncomes)) storage,
     IncomeContext.mk
       (JS.filter (other_id Income.id id) (IncomeContext.incomes st))
       (IncomeContext.isLoading st) (IncomeContext.error st)).
Proof. intros H. unfold IncomeContext.deleteIncome. rewrite H. reflexivity. Qed.

(** C10. [deleteExpense id] and [deleteIncome id] rewrite the stored
    collection without the records whose id is [id] and with every other
    record as it was, in the same order and as many times as it occurred:
    the new collection is the old one filtered by [x.id !== id], and so is
    the provider's list in memory; nothing else in storage changes.
    The delete paths take no user and do not look at the [userId] of a
    record: a record with that id is removed whoever owns it, and no user's
    next load, its owner's included, brings it back into the provider's
    list. Only the load path selects by user: it loads the records whose
    [userId] is the current user's id. *)
Theorem delete_ignores_owner :
  (forall (id : string) (storage : AsyncStorage.t) (st : ExpenseContext.State)
          (allExpenses : list Expense.t),
     AsyncStorage.expenses storage = Some allExpenses ->
     let r := ExpenseContext.deleteExpense id (storage, st) in
     exists updated,
       AsyncStorage.expenses (fst r) = Some updated /\
       (forall e, In e updated <-> In e allExpenses /\ Expense.id e <> id) /\
       sublist updated allExpenses /\
       fst r = AsyncStorage.set_expenses (Some updated) storage /\
       (forall (owner : option User.t) (e : Expense.t),
          In e allExpenses -> Expense.id e = id ->
          ~ In e (ExpenseContext.expenses
                    (snd (ExpenseContext.loadExpenses owner r)))) /\
       (forall (user : option User.t) (e : Expense.t),
          In e (ExpenseContext.expenses
                  (snd (ExpenseContext.loadExpenses user (storage, st)))) <->
          In e allExpenses /\
          exists u, user = Some u /\ Expense.userId e = User.id u) /\
       updated =
         List.filter (fun e => negb (String.eqb (Expense.id e) id)) allExpenses /\
       ExpenseContext.expenses (snd r) =
         List.filter (fun e => negb (String.eqb (Expense.id e) id))
                     (ExpenseContext.expenses st)) /\
  (forall (id : string) (storage : AsyncStorage.t) (st : IncomeContext.State)
          (allIncomes : list Income.t),
     AsyncStorage.incomes storage = Some allIncomes ->
     let r := IncomeContext.deleteIncome id (storage, st) in
     exists updated,
       AsyncStorage.incomes (fst r) = Some updated /\
       (forall e, In e updated <-> In e allIncomes /\ Income.id e <> id) /\
       sublist updated allIncomes /\
       fst r = AsyncStorage.set_incomes (Some updated) storage /\
       (forall (owner : option User.t) (e : Income.t),
          In e allIncomes -> Income.id e = id ->
          ~ In e (IncomeContext.incomes
                    (snd (IncomeContext.loadIncomes owner r)))) /\
       (forall (user : option User.t) (e : Income.t),
          In e (IncomeContext.incomes
                  (snd (IncomeContext.loadIncomes user (storage, st)))) <->
          In e allIncomes /\
          exists u, user = Some u /\ Income.userId e = User.id u) /\
       updated =
         List.filter (fun e => negb (String.eqb (Income.id e) id)) allIncomes /\
       IncomeContext.incomes (snd r) =
         List.filter (fun e => negb (String.eqb (Income.id e) id))
                     (IncomeContext.incomes st)).
Proof.
  split.
  - intros id storage st allExpenses Hall r. subst r.
    rewrite (deleteExpense_spec id storage st allExpenses Hall).
    exists (JS.filter (other_id Expense.id id) allExpenses). cbn.
    split; [reflexivity|]. split; [apply In_filter_other_id|].
    split; [apply filter_other_id_sublist|]. split; [reflexivity|]. split.
    + intros owner e Hin Hid.
      assert (Hgone : ~ In e (JS.filter (other_id Expense.id id) allExpenses))
        by (rewrite In_filter_other_id; tauto).
      unfold JS.filter in *. rewrite filter_In. tauto.
    + split; [|split; reflexivity].
      intros user e. rewrite Hall. cbn. unfold JS.filter.
      rewrite filter_In. unfold ExpenseContext.belongs_to.
      destruct user as [u|].
      * rewrite String.eqb_eq. split; [intros [? ?]; eauto|].
        intros [? (u' & [= <-] & ?)]. auto.
      * split; [intros [_ [=]]|intros [_ (u' & [=] & _)]].
  - intros id storage st allIncomes Hall r. subst r.
    rewrite (deleteIncome_spec id storage st allIncomes Hall).
    exists (JS.filter (other_id Income.id id) allIncomes). cbn.
    split; [reflexivity|]. split; [apply In_filter_other_id|].
    split; [apply filter_other_id_sublist|]. split; [reflexivity|]. split.
    + intros owner e Hin Hid.
      assert (Hgone : ~ In e (JS.filter (other_id Income.id id) allIncomes))
        by (rewrite In_filter_other_id; tauto).
      unfold JS.filter in *. rewrite filter_In. tauto.
    + split; [|split; reflexivity].
      intros user e. rewrite Hall. cbn. unfold JS.filter.
      rewrite filter_In. unfold IncomeContext.belongs_to.
      destruct user as [u|].
      * rewrite String.eqb_eq. split; [intros [? ?]; eauto|].
        intros [? (u' & [= <-] & ?)]. auto.
      * split; [intros [_ [=]]|intros [_ (u' & [=] & _)]].
Qed.

(** ** The theorems at concrete inputs *)

(** Splits the conjunctions that are written out in the goal. *)
Ltac conjs := repeat match goal with |- _ /\ _ => split end.

Lemma example_digest_nonempty (x : string) : example_digest x <> "".
Proof. cbv. discriminate. Qed.

(** Ann is registered, her salt key is gone: a guessed password is taken. *)
Lemma signIn_missing_salt_accepts_any_password_witness :
  let s := store_with [ann] [] in
  let w := world_of s 1000 in
  let r := signIn example_digest "ann@x.io" "guess" false w in
  (AsyncStorage.registered_users (World.storage w) = Some [ann] /\
   JS.find (has_email "ann@x.io") [ann] = Some (0%nat, ann) /\
   AsyncStorage.salts (World.storage w) !! StoredUser.id ann = None /\
   signIn_accepts "ann@x.io" "guess") /\
  AsyncStorage.salts (stored r) !! "1" = Some "#1000" /\
  outcome r = Normal tt.
Proof.
  cbv zeta.
  assert (Hok : signIn_accepts "ann@x.io" "guess")
    by (repeat split; try discriminate; vm_compute; reflexivity).
  split; [conjs; try reflexivity; exact Hok|].
  destruct (signIn_missing_salt_accepts_any_password example_digest
              "ann@x.io" "guess" false (world_of (store_with [ann] []) 1000)
              [ann] 0 ann eq_refl eq_refl eq_refl Hok)
    as (Hsalt & _ & Ho & _).
  split; [exact Hsalt|exact Ho].
Defined.

(** Ann is registered with her salt: a guessed password is turned down. *)
Lemma signIn_wrong_password_rejected_witness :
  let s := store_with [ann] [("1", "salt-of-ann")] in
  let w := world_of s 1000 in
  let r := signIn example_digest "ann@x.io" "guess" true w in
  (AsyncStorage.registered_users (World.storage w) = Some [ann] /\
   JS.find (has_email "ann@x.io") [ann] = Some (0%nat, ann) /\
   AsyncStorage.salts (World.storage w) !! StoredUser.id ann = Some "salt-of-ann" /\
   "salt-of-ann" <> "" /\
   signIn_accepts "ann@x.io" "guess" /\
   hashPassword example_digest "guess" "salt-of-ann" <> StoredUser.passwordHash ann) /\
  outcome r = Thrown "Invalid password" /\
  AsyncStorage.registered_users (stored r) = Some [ann].
Proof.
  cbv zeta.
  assert (Hok : signIn_accepts "ann@x.io" "guess")
    by (repeat split; try discriminate; vm_compute; reflexivity).
  assert (Hne : "salt-of-ann" <> "") by discriminate.
  assert (Hdiff : hashPassword example_digest "guess" "salt-of-ann"
                  <> StoredUser.passwordHash ann)
    by (vm_compute; discriminate).
  split; [conjs; try reflexivity; assumption|].
  destruct (signIn_wrong_password_rejected example_digest
              "ann@x.io" "guess" true
              (world_of (store_with [ann] [("1", "salt-of-ann")]) 1000)
              [ann] 0 ann "salt-of-ann" eq_refl eq_refl eq_refl Hne Hok Hdiff)
    as (Ho & _ & Hu & _).
  split; [exact Ho|exact Hu].
Defined.

(** Ann is registered: a second sign-up with her email is turned down. *)
Lemma signUp_existing_email_rejected_witness :
  let s := store_with [ann] [("1", "salt-of-ann")] in
  let w := world_of s 1000 in
  let r := signUp example_digest "ann@x.io" "secret" "Anna" w in
  (registered "ann@x.io" (World.storage w) /\
   signUp_accepts "ann@x.io" "secret" "Anna") /\
  AsyncStorage.registered_users (stored r) = Some [ann] /\
  outcome r = Thrown "User already exists".
Proof.
  cbv zeta.
  assert (Hreg : registered "ann@x.io"
                   (World.storage
                      (world_of (store_with [ann] [("1", "salt-of-ann")]) 1000)))
    by (apply registered_some; vm_compute; reflexivity).
  assert (Hok : signUp_accepts "ann@x.io" "secret" "Anna")
    by (repeat split; try discriminate; try (vm_compute; reflexivity);
        cbn; lia).
  split; [split; assumption|].
  destruct (signUp_existing_email_rejected example_digest
              "ann@x.io" "secret" "Anna"
              (world_of (store_with [ann] [("1", "salt-of-ann")]) 1000) Hreg)
    as ((Hu & _) & Hrej).
  split; [exact Hu|]. destruct (Hrej Hok) as (Ho & _). exact Ho.
Defined.

(** Bob signs up next to Ann and signs in at once. *)
Lemma signUp_then_signIn_witness :
  let s := store_with [ann] [("1", "salt-of-ann")] in
  let w := world_of s 1000 in
  let r1 := signUp example_digest "bob@x.io" "secret" "Bob" w in
  let r2 := signIn example_digest "bob@x.io" "secret" false (after r1) in
  ((forall x, example_digest x <> "") /\
   signUp_accepts "bob@x.io" "secret" "Bob" /\
   ~ registered "bob@x.io" (World.storage w)) /\
  outcome r2 = Normal tt /\
  AuthState.user (state_after r1) = Some (User.mk "1000" "bob@x.io" (Some "Bob")) /\
  AuthState.user (state_after r2) = Some (User.mk "1000" "bob@x.io" (Some "Bob")) /\
  AsyncStorage.auth_store (stored r1) = None /\
  AsyncStorage.auth_store (stored r2) =
    Some (User.mk "1000" "bob@x.io" (Some "Bob")).
Proof.
  cbv zeta.
  assert (Hok : signUp_accepts "bob@x.io" "secret" "Bob")
    by (repeat split; try discriminate; try (vm_compute; reflexivity);
        cbn; lia).
  assert (Hnew : ~ registered "bob@x.io"
                     (World.storage
                        (world_of (store_with [ann] [("1", "salt-of-ann")]) 1000)))
    by (apply not_registered_some; vm_compute; reflexivity).
  split; [conjs; try assumption; apply example_digest_nonempty|].
  destruct (signUp_then_signIn example_digest "bob@x.io" "secret" "Bob" false
              (world_of (store_with [ann] [("1", "salt-of-ann")]) 1000)
              example_digest_nonempty Hok Hnew)
    as (_ & _ & Hu1 & Ho2 & _ & Hu2 & _ & Hp2 & _).
  split; [exact Ho2|]. split; [exact Hu1|]. split; [exact Hu2|].
  split; [vm_compute; reflexivity|exact Hp2].
Defined.

(** A session that expires at 1000 is loaded at 1000. *)
Lemma session_lifetime_and_lazy_expiry_witness :
  let w := world_of store_with_session 1000 in
  let r := loadStoredAuth w in
  (AsyncStorage.auth_session (World.storage w) = Some stale_session /\
   SessionData.expiresAt stale_session <= World.now w) /\
  AsyncStorage.auth_session (stored r) = None /\
  AsyncStorage.auth_store (stored r) = None /\
  AuthState.user (state_after r) = None.
Proof.
  cbv zeta.
  assert (Hexpired : SessionData.expiresAt stale_session
                     <= World.now (world_of store_with_session 1000))
    by (vm_compute; discriminate).
  split; [split; [reflexivity|exact Hexpired]|].
  destruct (proj2 (session_lifetime_and_lazy_expiry example_digest)
              (world_of store_with_session 1000) stale_session
              eq_refl Hexpired) as (_ & Hs & Hp & Hu & _).
  conjs; assumption.
Defined.

(** Ann's code 123456 expires at 5000; at 1000 the code 654321 is turned
    down, at 6000 the right code is too late, and at 1000 the right code
    works once. *)
Lemma resetPassword_code_checks_witness :
  let late := resetPassword example_digest "ann@x.io" "123456" "newpass"
                (world_of (reset_pending 5000) 6000) in
  let wrong := resetPassword example_digest "ann@x.io" "654321" "newpass"
                 (world_of (reset_pending 5000) 1000) in
  let good := resetPassword example_digest "ann@x.io" "123456" "newpass"
                (world_of (reset_pending 5000) 1000) in
  let again := resetPassword example_digest "ann@x.io" "123456" "newpass"
                 (after good) in
  AsyncStorage.reset_codes (reset_pending 5000) !! "ann@x.io" =
    Some (ResetData.mk "123456" 5000) /\
  (outcome late = Thrown "Reset code expired" /\
   stored late = reset_pending 5000) /\
  (outcome wrong = Thrown "Invalid code" /\
   stored wrong = reset_pending 5000) /\
  outcome good = Normal tt /\
  outcome again = Thrown "No reset code found".
Proof.
  cbv zeta. split; [reflexivity|].
  pose proof (resetPassword_code_checks example_digest "ann@x.io" "123456"
                "newpass" (world_of (reset_pending 5000) 6000)
                (ResetData.mk "123456" 5000) eq_refl) as (Hlate & _).
  pose proof (resetPassword_code_checks example_digest "ann@x.io" "654321"
                "newpass" (world_of (reset_pending 5000) 1000)
                (ResetData.mk "123456" 5000) eq_refl) as (_ & Hwrong & _).
  pose proof (resetPassword_code_checks example_digest "ann@x.io" "123456"
                "newpass" (world_of (reset_pending 5000) 1000)
                (ResetData.mk "123456" 5000) eq_refl)
    as (_ & _ & Hgood & Honce).
  assert (Hdone : outcome (resetPassword example_digest "ann@x.io" "123456"
                             "newpass" (world_of (reset_pending 5000) 1000))
                  = Normal tt).
  { apply Hgood; [vm_compute; discriminate|reflexivity|].
    apply registered_some. vm_compute. reflexivity. }
  split; [|split; [|split]].
  - destruct Hlate as (Ho & _ & Hs); [vm_compute; reflexivity|]. auto.
  - destruct Hwrong as (Ho & _ & Hs);
      [vm_compute; discriminate|cbn; discriminate|]. auto.
  - exact Hdone.
  - destruct (Honce Hdone) as (_ & Hagain).
    destruct (Hagain "123456" "newpass") as (Ho & _). exact Ho.
Defined.

(** Ann resets her password to the empty string. *)
Lemma resetPassword_accepts_any_password_witness :
  let w := world_of (reset_pending 5000) 1000 in
  let r := resetPassword example_digest "ann@x.io" "123456" "" w in
  (AsyncStorage.reset_codes (World.storage w) !! "ann@x.io" =
     Some (ResetData.mk "123456" 5000) /\
   World.now w <= 5000 /\
   registered "ann@x.io" (World.storage w) /\
   (String.length "" < 6)%nat) /\
  outcome r = Normal tt /\
  outcome (signUp example_digest "zoe@x.io" "" "Zoe" w) = Normal tt /\
  stored (signUp example_digest "zoe@x.io" "" "Zoe" w) = World.storage w.
Proof.
  cbv zeta.
  assert (Hintime : World.now (world_of (reset_pending 5000) 1000) <= 5000)
    by (vm_compute; discriminate).
  assert (Hreg : registered "ann@x.io"
                   (World.storage (world_of (reset_pending 5000) 1000)))
    by (apply registered_some; vm_compute; reflexivity).
  assert (Hshort : (String.length "" < 6)%nat) by (cbn; lia).
  split; [conjs; try reflexivity; assumption|].
  destruct (resetPassword_accepts_any_password example_digest) as (Hreset & Hup).
  destruct (Hreset "ann@x.io" "123456" "" (world_of (reset_pending 5000) 1000)
              (ResetData.mk "123456" 5000) eq_refl Hintime eq_refl Hreg)
    as (Ho & _).
  destruct (Hup "zoe@x.io" "" "Zoe" (world_of (reset_pending 5000) 1000) Hshort)
    as (Ho' & Hs' & _).
  conjs; assumption.
Defined.

(** The rent of user "1" is deleted; no user appears in the call. Bob, user
    "2", still has his lunch in storage, and Ann's next load does not bring
    the rent back. *)
Lemma delete_ignores_owner_witness :
  let storage := AsyncStorage.set_incomes (Some [salary; refund])
                   (AsyncStorage.set_expenses (Some [rent; lunch])
                      AsyncStorage.empty) in
  let r := ExpenseContext.deleteExpense "e1" (storage, ExpenseContext.initial) in
  let r' := IncomeContext.deleteIncome "i1" (storage, IncomeContext.initial) in
  let owner := Some (User.mk "1" "ann@x.io" (Some "Ann")) in
  (AsyncStorage.expenses storage = Some [rent; lunch] /\
   AsyncStorage.incomes storage = Some [salary; refund]) /\
  AsyncStorage.expenses (fst r) = Some [lunch] /\
  AsyncStorage.incomes (fst r') = Some [refund] /\
  (exists updated,
     AsyncStorage.expenses (fst r) = Some updated /\
     In lunch updated /\ ~ In rent updated) /\
  ~ In rent (ExpenseContext.expenses (snd (ExpenseContext.loadExpenses owner r))) /\
  (exists updated,
     AsyncStorage.incomes (fst r') = Some updated /\
     In refund updated /\ ~ In salary updated).
Proof.
  cbv zeta. split; [split; reflexivity|].
  destruct delete_ignores_owner as (Hexp & Hinc).
  destruct (Hexp "e1"
              (AsyncStorage.set_incomes (Some [salary; refund])
                 (AsyncStorage.set_expenses (Some [rent; lunch])
                    AsyncStorage.empty))
              ExpenseContext.initial [rent; lunch] eq_refl)
    as (updated & Hstored & Hmem & _ & _ & Hload & _ & Hfilter & _).
  destruct (Hinc "i1"
              (AsyncStorage.set_incomes (Some [salary; refund])
                 (AsyncStorage.set_expenses (Some [rent; lunch])
                    AsyncStorage.empty))
              IncomeContext.initial [salary; refund] eq_refl)
    as (updated' & Hstored' & Hmem' & _ & _ & _ & _ & Hfilter' & _).
  split; [|split; [|split; [|split]]].
  - rewrite Hstored, Hfilter. reflexivity.
  - rewrite Hstored', Hfilter'. reflexivity.
  - exists updated. split; [exact Hstored|]. split.
    + apply Hmem. split; [cbn; auto|cbn; discriminate].
    + intros Hin. apply Hmem in Hin as [_ Hid]. apply Hid. reflexivity.
  - apply Hload; [cbn; auto|reflexivity].
  - exists updated'. split; [exact Hstored'|]. split.
    + apply Hmem'. split; [cbn; auto|cbn; discriminate].
    + intros Hin. apply Hmem' in Hin as [_ Hid]. apply Hid. reflexivity.
Defined.

(** Two entries with the same id and no salt: the repair of [signIn] writes
    the found entry over both, and the directory has her email twice. *)
Lemma signIn_self_heal_copies_entry :
  let twin := StoredUser.mk "1" "bob@x.io" "Bob" "digest-of-bob" in
  let s := store_with [ann; twin] [] in
  let r := signIn example_digest "ann@x.io" "guess" false (world_of s 1000) in
  let ann' := StoredUser.mk "1" "ann@x.io" "Ann" "#guess#1000" in
  unique_emails s /\
  outcome r = Normal tt /\
  AsyncStorage.registered_users (stored r) = Some [ann'; ann'].
Proof.
  cbv zeta. repeat apply conj; try (vm_compute; reflexivity).
  unfold unique_emails. apply (bool_decide_unpack _). vm_compute. reflexivity.
Qed.

(** * More of the code *)

(** ** Strings *)

Lemma string_app_nil_l (s : string) : "" +:+ s = s.
Proof. reflexivity. Qed.

Lemma string_app_cons (c : ascii) (s1 s2 : string) :
  String c s1 +:+ s2 = String c (s1 +:+ s2).
Proof. reflexivity. Qed.

Lemma string_app_nil_r (s : string) : s +:+ "" = s.
Proof. induction s as [|c s IH]; [reflexivity|]. rewrite string_app_cons, IH. reflexivity. Qed.

Lemma string_app_assoc (s1 s2 s3 : string) : (s1 +:+ s2) +:+ s3 = s1 +:+ (s2 +:+ s3).
Proof.
  induction s1 as [|c s1 IH]; [reflexivity|]. rewrite !string_app_cons, IH. reflexivity.
Qed.

Lemma string_length_app (s1 s2 : string) :
  String.length (s1 +:+ s2) = (String.length s1 + String.length s2)%nat.
Proof.
  induction s1 as [|c s1 IH]; [reflexivity|]. rewrite string_app_cons. cbn.
  rewrite IH. reflexivity.
Qed.

Lemma string_app_eq_nil (s1 s2 : string) : s1 +:+ s2 = "" -> s1 = "" /\ s2 = "".
Proof. destruct s1; [rewrite string_app_nil_l; auto|rewrite string_app_cons; discriminate]. Qed.

Lemma chars_app (s1 s2 : string) : chars (s1 +:+ s2) = chars s1 ++ chars s2.
Proof.
  unfold chars. induction s1 as [|c s1 IH]; [reflexivity|].
  rewrite string_app_cons. cbn. rewrite IH. reflexivity.
Qed.

(** ** The matcher decides [Matches] *)

Lemma nullable_Matches (r : RegExp.t) :
  RegExp.nullable r = true <-> Matches r "".
Proof.
  induction r as [| |p|r1 IH1 r2 IH2|r1 IH1 r2 IH2|r IH]; cbn.
  - split; [discriminate|inversion 1].
  - split; [constructor|reflexivity].
  - split; [discriminate|inversion 1].
  - rewrite andb_true_iff, IH1, IH2. split.
    + intros [H1 H2]. apply (Matches_cat _ _ "" "" H1 H2).
    + inversion 1 as [| |? ? s1 s2 H1 H2| | | |]; subst.
      match goal with E : _ +:+ _ = "" |- _ => apply string_app_eq_nil in E as [-> ->] end.
      auto.
  - rewrite orb_true_iff, IH1, IH2. split.
    + intros [H|H]; [apply Matches_alt_l|apply Matches_alt_r]; exact H.
    + inversion 1; subst; auto.
  - split; [constructor|reflexivity].
Qed.

(** A star that matches a non-empty string starts with a non-empty match. *)
Lemma Matches_star_cons (r : RegExp.t) (c : ascii) (s : string) :
  Matches (RegExp.Star r) (String c s) ->
  exists s1 s2, s = s1 +:+ s2 /\ Matches r (String c s1) /\
                Matches (RegExp.Star r) s2.
Proof.
  intros H. remember (RegExp.Star r) as r' eqn:Er.
  remember (String c s) as s' eqn:Es.
  induction H as [| | | | | |r0 s1 s2 H1 _ H2 IH2]; try discriminate.
  injection Er as ->. destruct s1 as [|c1 s1].
  - rewrite string_app_nil_l in Es. apply IH2; auto.
  - rewrite string_app_cons in Es. injection Es as -> <-. eauto.
Qed.

Lemma deriv_Matches (r : RegExp.t) (c : ascii) (s : string) :
  Matches (RegExp.deriv c r) s <-> Matches r (String c s).
Proof.
  revert s.
  induction r as [| |p|r1 IH1 r2 IH2|r1 IH1 r2 IH2|r IH]; intros s; cbn.
  - split; inversion 1.
  - split; inversion 1.
  - destruct (p c) eqn:Hp; split.
    + inversion 1; subst. constructor. exact Hp.
    + inversion 1; subst. constructor.
    + inversion 1.
    + inversion 1; subst. congruence.
  - destruct (RegExp.nullable r1) eqn:Hn; split.
    + inversion 1 as [| | |? ? ? Hl|? ? ? Hr| |]; subst.
      * inversion Hl as [| |? ? s1 s2 H1 H2| | | |]; subst.
        apply IH1 in H1. apply (Matches_cat _ _ (String c s1) s2 H1 H2).
      * apply IH2 in Hr. apply nullable_Matches in Hn.
        apply (Matches_cat _ _ "" (String c s) Hn Hr).
    + inversion 1 as [| |? ? s1 s2 H1 H2| | | |]; subst.
      match goal with E : _ +:+ _ = String _ _ |- _ => rename E into Hs end.
      destruct s1 as [|c1 s1].
      * rewrite string_app_nil_l in Hs. subst s2. apply Matches_alt_r, IH2, H2.
      * rewrite string_app_cons in Hs. injection Hs as -> <-.
        apply Matches_alt_l, Matches_cat; [apply IH1, H1|exact H2].
    + inversion 1 as [| |? ? s1 s2 H1 H2| | | |]; subst.
      apply IH1 in H1. apply (Matches_cat _ _ (String c s1) s2 H1 H2).
    + inversion 1 as [| |? ? s1 s2 H1 H2| | | |]; subst.
      match goal with E : _ +:+ _ = String _ _ |- _ => rename E into Hs end.
      destruct s1 as [|c1 s1].
      * apply nullable_Matches in H1. congruence.
      * rewrite string_app_cons in Hs. injection Hs as -> <-.
        apply Matches_cat; [apply IH1, H1|exact H2].
  - split.
    + inversion 1; subst; [apply Matches_alt_l, IH1|apply Matches_alt_r, IH2];
        assumption.
    + inversion 1; subst; [apply Matches_alt_l, IH1|apply Matches_alt_r, IH2];
        assumption.
  - split.
    + inversion 1 as [| |? ? s1 s2 H1 H2| | | |]; subst.
      apply IH in H1. apply (Matches_star_more _ (String c s1) s2 H1 H2).
    + intros H. apply Matches_star_cons in H as (s1 & s2 & -> & H1 & H2).
      apply Matches_cat; [apply IH, H1|exact H2].
Qed.

Lemma test_Matches (r : RegExp.t) (s : string) :
  RegExp.test r s = true <-> Matches r s.
Proof.
  revert r. induction s as [|c s IH]; intros r; cbn.
  - apply nullable_Matches.
  - rewrite IH. apply deriv_Matches.
Qed.

Lemma Matches_cat_inv (r1 r2 : RegExp.t) (s : string) :
  Matches (RegExp.Cat r1 r2) s <->
  exists s1 s2, s = s1 +:+ s2 /\ Matches r1 s1 /\ Matches r2 s2.
Proof.
  split.
  - inversion 1; subst; eauto.
  - intros (s1 & s2 & -> & H1 & H2). constructor; assumption.
Qed.

Lemma Matches_class_inv (p : ascii -> bool) (s : string) :
  Matches (RegExp.Class p) s <-> exists c, s = String c "" /\ p c = true.
Proof.
  split.
  - inversion 1; subst; eauto.
  - intros (c & -> & Hc). constructor. exact Hc.
Qed.

Lemma all_chars_app (p : ascii -> bool) (s1 s2 : string) :
  all_chars p (s1 +:+ s2) = all_chars p s1 && all_chars p s2.
Proof. unfold all_chars. rewrite chars_app. apply forallb_app. Qed.

Lemma some_char_app (p : ascii -> bool) (s1 s2 : string) :
  some_char p (s1 +:+ s2) = some_char p s1 || some_char p s2.
Proof. unfold some_char. rewrite chars_app. apply existsb_app. Qed.

Lemma Matches_star_class (p : ascii -> bool) (s : string) :
  Matches (RegExp.Star (RegExp.Class p)) s <-> all_chars p s = true.
Proof.
  split.
  - intros H. remember (RegExp.Star (RegExp.Class p)) as r eqn:Er.
    induction H as [| | | | | |r0 s1 s2 H1 _ H2 IH2]; try discriminate.
    + reflexivity.
    + injection Er as ->. apply Matches_class_inv in H1 as (c & -> & Hc).
      rewrite all_chars_app, IH2 by reflexivity.
      unfold all_chars. cbn. rewrite Hc. reflexivity.
  - induction s as [|c s IH]; [constructor|].
    unfold all_chars. cbn. intros [Hc Hs]%andb_true_iff.
    change (String c s) with (String c "" +:+ s).
    constructor; [constructor; exact Hc|apply IH, Hs].
Qed.

Lemma Matches_plus_class (p : ascii -> bool) (s : string) :
  Matches (RegExp.Plus (RegExp.Class p)) s <-> s <> "" /\ all_chars p s = true.
Proof.
  unfold RegExp.Plus. rewrite Matches_cat_inv. split.
  - intros (s1 & s2 & -> & H1 & H2).
    apply Matches_class_inv in H1 as (c & -> & Hc).
    apply Matches_star_class in H2. split; [discriminate|].
    rewrite all_chars_app, H2. unfold all_chars. cbn. rewrite Hc. reflexivity.
  - intros [Hne Hall]. destruct s as [|c s]; [congruence|].
    unfold all_chars in Hall. cbn in Hall.
    apply andb_true_iff in Hall as [Hc Hs].
    exists (String c ""), s. split; [reflexivity|]. split.
    + constructor. exact Hc.
    + apply Matches_star_class. exact Hs.
Qed.

Lemma Matches_is_char (d : ascii) (s : string) :
  Matches (RegExp.Class (RegExp.is_char d)) s <-> s = String d "".
Proof.
  rewrite Matches_class_inv. unfold RegExp.is_char. split.
  - intros (c & -> & Hc). apply Ascii.eqb_eq in Hc. subst. reflexivity.
  - intros ->. exists d. split; [reflexivity|apply Ascii.eqb_refl].
Qed.

(** Without anchors, a one-class pattern is found when some code unit is in
    the class. *)
Lemma search_class (p : ascii -> bool) (s : string) :
  RegExp.search (RegExp.Class p) s = some_char p s.
Proof.
  apply eq_true_iff_eq. unfold RegExp.search. rewrite test_Matches.
  assert (Hany : forall x, Matches (RegExp.Star RegExp.any_char) x)
    by (intros x; apply Matches_star_class; unfold all_chars;
        induction (chars x); cbn; auto).
  split.
  - intros (s1 & s' & -> & _ & (s2 & s3 & -> & H2 & _)%Matches_cat_inv)%Matches_cat_inv.
    apply Matches_class_inv in H2 as (c & -> & Hc).
    rewrite !some_char_app. unfold some_char at 2. cbn. rewrite Hc.
    rewrite orb_true_r. reflexivity.
  - induction s as [|c s IH]; [discriminate|].
    unfold some_char. cbn. intros [Hc|Hs]%orb_true_iff.
    + apply (Matches_cat _ _ "" (String c s)); [apply Hany|].
      apply (Matches_cat _ _ (String c "") s); [constructor; exact Hc|apply Hany].
    + apply IH in Hs.
      apply Matches_cat_inv in Hs as (s1 & s2 & -> & _ & H2).
      apply (Matches_cat _ _ (String c s1) s2); [apply Hany|exact H2].
Qed.

(** ** validateEmail *)

(** X1. [validateEmail] accepts exactly the strings [local@domain.tld] whose
    three parts are non-empty and free of white space and of [@]; the
    domain part may itself contain dots. *)
Theorem validateEmail_shape (email : string) :
  validateEmail email = true <->
  exists local domain tld : string,
    email = local +:+ "@" +:+ domain +:+ "." +:+ tld /\
    address_part local /\ address_part domain /\ address_part tld.
Proof.
  unfold validateEmail, emailRegex, address_part. rewrite test_Matches.
  rewrite Matches_cat_inv. split.
  - intros (l & s1 & -> & Hl & H1).
    apply Matches_cat_inv in H1 as (a & s2 & -> & Ha & H2).
    apply Matches_cat_inv in H2 as (d & s3 & -> & Hd & H3).
    apply Matches_cat_inv in H3 as (o & t & -> & Ho & Ht).
    apply Matches_is_char in Ha, Ho. subst a o.
    apply Matches_plus_class in Hl, Hd, Ht. exists l, d, t. auto.
  - intros (l & d & t & -> & Hl & Hd & Ht).
    apply Matches_plus_class in Hl, Hd, Ht.
    exists l, ("@" +:+ d +:+ "." +:+ t). split; [reflexivity|].
    split; [exact Hl|]. apply Matches_cat; [apply Matches_is_char; reflexivity|].
    apply Matches_cat; [exact Hd|].
    apply Matches_cat; [apply Matches_is_char; reflexivity|exact Ht].
Qed.

(** ** validatePassword *)

Lemma classes_of_le_1 (c : ascii) : (classes_of c <= 1)%nat.
Proof.
  destruct c as [[] [] [] [] [] [] [] []]; vm_compute; repeat constructor.
Qed.

Lemma classes_in_cons (c : ascii) (s : string) :
  (classes_in (String c s) <= classes_of c + classes_in s)%nat.
Proof.
  unfold classes_in, classes_of, some_char.
  change (chars (String c s)) with (c :: chars s). cbn [existsb].
  destruct (is_upper c), (is_lower c), (is_digit c), (is_special c);
    destruct (existsb is_upper (chars s)), (existsb is_lower (chars s)),
      (existsb is_digit (chars s)), (existsb is_special (chars s));
    cbn [orb Nat.b2n]; lia.
Qed.

Lemma classes_in_le_length (s : string) : (classes_in s <= String.length s)%nat.
Proof.
  induction s as [|c s IH]; [cbn; lia|].
  pose proof (classes_in_cons c s). pose proof (classes_of_le_1 c).
  change (String.length (String c s)) with (S (String.length s)). lia.
Qed.

(** The verdict of [validatePassword] in terms of the criteria met. *)
Lemma validatePassword_verdict (password : string) :
  let v := PasswordUtils.validatePassword password in
  PasswordUtils.isValid v = Nat.leb 3 (criteria_met password) /\
  (PasswordUtils.strength v = PasswordUtils.strong <->
   (4 <= criteria_met password)%nat) /\
  (PasswordUtils.strength v = PasswordUtils.weak <->
   (criteria_met password < 3)%nat).
Proof.
  unfold PasswordUtils.validatePassword, PasswordUtils.upper_case,
    PasswordUtils.lower_case, PasswordUtils.digit, PasswordUtils.special.
  rewrite !search_class.
  fold is_upper is_lower is_digit is_special.
  unfold criteria_met, classes_in, PasswordUtils.bump.
  destruct (Nat.leb 8 (String.length password)), (some_char is_upper password),
    (some_char is_lower password), (some_char is_digit password),
    (some_char is_special password); cbn;
    (split; [reflexivity|]); split; split;
    first [discriminate | lia | reflexivity].
Qed.

Lemma criteria_met_length (password : string) :
  (3 <= criteria_met password)%nat -> (3 <= String.length password)%nat.
Proof.
  unfold criteria_met. intros Hmet.
  pose proof (classes_in_le_length password) as Hle.
  destruct (Nat.leb 8 (String.length password)) eqn:Hlen; cbn in Hmet.
  - apply Nat.leb_le in Hlen. lia.
  - lia.
Qed.

(** X2. A password that [validatePassword] accepts has at least 3
    characters: it meets 3 of the 5 criteria, a character is in at most one
    of the four classes, and the length criterion asks for 8. *)
Theorem validatePassword_valid_length (password : string) :
  PasswordUtils.isValid (PasswordUtils.validatePassword password) = true ->
  (3 <= String.length password)%nat.
Proof.
  destruct (validatePassword_verdict password) as (-> & _).
  intros Hmet%Nat.leb_le. apply criteria_met_length. exact Hmet.
Qed.

Lemma accepted_password_length (password : string) :
  PasswordUtils.isValid (PasswordUtils.validatePassword password) = true ->
  password <> "" /\ (3 <= String.length password)%nat.
Proof.
  destruct (validatePassword_verdict password) as (-> & _).
  intros Hmet%Nat.leb_le%criteria_met_length. split; [|exact Hmet].
  intros ->. cbn in Hmet. lia.
Qed.

(** X3. Text added before or after a password never lowers the verdict of
    [validatePassword]: an accepted password stays accepted and a strong
    one stays strong. *)
Theorem validatePassword_monotone (before password after : string) :
  let v := PasswordUtils.validatePassword password in
  let v' := PasswordUtils.validatePassword (before +:+ password +:+ after) in
  (PasswordUtils.isValid v = true -> PasswordUtils.isValid v' = true) /\
  (PasswordUtils.strength v = PasswordUtils.strong ->
   PasswordUtils.strength v' = PasswordUtils.strong).
Proof.
  cbv zeta.
  destruct (validatePassword_verdict password) as (-> & Hstrong & _).
  destruct (validatePassword_verdict (before +:+ password +:+ after))
    as (-> & Hstrong' & _).
  rewrite Hstrong, Hstrong'. rewrite !Nat.leb_le.
  assert (Hmono : (criteria_met password
                   <= criteria_met (before +:+ password +:+ after))%nat).
  { unfold criteria_met, classes_in. rewrite !some_char_app, !string_length_app.
    destruct (Nat.leb 8 (String.length password)) eqn:Hlen.
    - apply Nat.leb_le in Hlen.
      replace (Nat.leb 8 _) with true by (symmetry; apply Nat.leb_le; lia).
      destruct (some_char is_upper password), (some_char is_lower password),
        (some_char is_digit password), (some_char is_special password);
        rewrite ?orb_true_r, ?orb_true_l; cbn; lia.
    - destruct (some_char is_upper password), (some_char is_lower password),
        (some_char is_digit password), (some_char is_special password);
        rewrite ?orb_true_r, ?orb_true_l; cbn; lia. }
  split; lia.
Qed.

(** ** The screens *)

Lemma trim_nonempty (s : string) :
  JS.not_string (JSString.trim s) = false -> s <> "".
Proof. intros H ->. vm_compute in H. discriminate H. Qed.

(** A handler that catches everything completes normally. *)
Lemma try_catch_swallows (body : Async unit) (w : World.t) :
  outcome (try_catch body (fun _ => ret tt) w) = Normal tt.
Proof.
  unfold outcome, try_catch, ret. destruct (body w) as [[[]|msg] w']; reflexivity.
Qed.

Lemma try_catch_normal (body : Async unit) (w : World.t) :
  outcome (body w) = Normal tt ->
  try_catch body (fun _ => ret tt) w = body w.
Proof.
  unfold outcome, try_catch. destruct (body w) as [[[]|msg] w']; cbn;
    [reflexivity|discriminate].
Qed.

Lemma Register_validateForm_true (name email password confirmPassword : string) :
  fst (RegisterScreen.validateForm name email password confirmPassword) = true ->
  name <> "" /\ email <> "" /\ validateEmail email = true /\
  PasswordUtils.isValid (PasswordUtils.validatePassword password) = true /\
  password = confirmPassword.
Proof.
  unfold RegisterScreen.validateForm, validateEmail.
  destruct (JS.not_string (JSString.trim name)) eqn:Hn; [cbn;
    repeat match goal with |- context [if ?c then _ else _] => destruct c end;
    discriminate|].
  destruct (JS.not_string (JSString.trim email)) eqn:He; [cbn;
    repeat match goal with |- context [if ?c then _ else _] => destruct c end;
    discriminate|].
  destruct (RegExp.test emailRegex email) eqn:Hshape; [|cbn;
    repeat match goal with |- context [if ?c then _ else _] => destruct c end;
    discriminate].
  destruct (PasswordUtils.isValid _) eqn:Hv; [|cbn;
    repeat match goal with |- context [if ?c then _ else _] => destruct c end;
    discriminate].
  destruct (String.eqb password confirmPassword) eqn:Hc; [|cbn; discriminate].
  intros _. apply trim_nonempty in Hn, He. apply String.eqb_eq in Hc. auto.
Qed.

Lemma Reset_validateForm_true (email code password confirmPassword : string) :
  fst (ResetPasswordScreen.validateForm email code password confirmPassword) = true ->
  email <> "" /\ validateEmail email = true /\ String.length code = 6%nat /\
  PasswordUtils.isValid (PasswordUtils.validatePassword password) = true /\
  password = confirmPassword.
Proof.
  unfold ResetPasswordScreen.validateForm, validateEmail.
  destruct (JS.not_string (JSString.trim email)) eqn:He; [cbn;
    repeat match goal with |- context [if ?c then _ else _] => destruct c end;
    discriminate|].
  destruct (RegExp.test emailRegex email) eqn:Hshape; [|cbn;
    repeat match goal with |- context [if ?c then _ else _] => destruct c end;
    discriminate].
  destruct (JS.not_string (JSString.trim code)) eqn:Hc; [cbn;
    repeat match goal with |- context [if ?c then _ else _] => destruct c end;
    discriminate|].
  destruct (Nat.eqb (String.length code) 6) eqn:Hlen; [|cbn;
    repeat match goal with |- context [if ?c then _ else _] => destruct c end;
    discriminate].
  destruct (PasswordUtils.isValid _) eqn:Hv; [|cbn;
    repeat match goal with |- context [if ?c then _ else _] => destruct c end;
    discriminate].
  destruct (String.eqb password confirmPassword) eqn:Hp; [|cbn; discriminate].
  intros _. apply trim_nonempty in He. apply String.eqb_eq in Hp.
  apply Nat.eqb_eq in Hlen. auto.
Qed.

(** X4. On the register screen a form that passes [validateForm] reaches
    [signUp] with a non-empty name, an email of the accepted shape and a
    password of at least 3 characters, so of the input checks of [signUp]
    only the length check can still fail. When it fails (fewer than 6
    characters) [signUp] resolves without registering anybody, and
    [handleRegister] goes on to the dashboard with storage and the current
    user as they were. *)
Theorem handleRegister_short_password
    (sha256_base64 : string -> string)
    (name email password confirmPassword : string) (w : World.t) :
  fst (RegisterScreen.validateForm name email password confirmPassword) = true ->
  let r := RegisterScreen.handleRegister sha256_base64
             name email password confirmPassword w in
  ((6 <= String.length password)%nat -> signUp_accepts email password name) /\
  ((String.length password < 6)%nat ->
   outcome r = Normal tt /\
   World.route (after r) = Some "/(tabs)/dashboard" /\
   stored r = World.storage w /\
   AuthState.user (state_after r) = AuthState.user (World.state w)).
Proof.
  intros Hvalid r. subst r.
  pose proof (Register_validateForm_true _ _ _ _ Hvalid)
    as (Hn & He & Hshape & Hv & _).
  pose proof (accepted_password_length password Hv) as (Hp & Hlen3).
  split.
  - intros Hlen. unfold signUp_accepts. auto.
  - intros Hshort. apply Nat.ltb_lt in Hshort.
    unfold RegisterScreen.handleRegister. rewrite Hvalid. cbn [negb].
    unfold signUp. unfold_async.
    rewrite !not_string_false by assumption. cbn [orb].
    rewrite Hshape, Hshort. cbn. repeat split; reflexivity.
Qed.

(** X5. On the reset screen [handleReset] never rejects, and it changes
    storage only for a form that passed [validateForm]: an email of the
    accepted shape, a code of 6 characters, a password that
    [validatePassword] accepts (hence of at least 3 characters) and an
    equal confirmation. *)
Theorem handleReset_gate
    (sha256_base64 : string -> string)
    (email code password confirmPassword : string) (w : World.t) :
  let r := ResetPasswordScreen.handleReset sha256_base64
             email code password confirmPassword w in
  outcome r = Normal tt /\
  (stored r <> World.storage w ->
   validateEmail email = true /\ String.length code = 6%nat /\
   PasswordUtils.isValid (PasswordUtils.validatePassword password) = true /\
   (3 <= String.length password)%nat /\ password = confirmPassword).
Proof.
  cbv zeta. unfold ResetPasswordScreen.handleReset.
  destruct (fst (ResetPasswordScreen.validateForm email code password
                   confirmPassword)) eqn:Hvalid; cbn [negb].
  - split; [apply try_catch_swallows|]. intros _.
    pose proof (Reset_validateForm_true _ _ _ _ Hvalid)
      as (_ & Hshape & Hlen & Hv & Hc).
    pose proof (accepted_password_length password Hv) as (_ & Hlen3). auto.
  - split; [reflexivity|]. intros Hchanged. exfalso. apply Hchanged.
    reflexivity.
Qed.

(** ** Sessions across sign-out and restarts *)

(** X6. [signOut] resolves in every world, removes the stored session and
    the stored projection, clears the current user and leaves the
    directory, the salts, the reset codes and the records alone; a second
    [signOut] resolves too and leaves storage as the first one left it. *)
Theorem signOut_idempotent (w : World.t) :
  let r := signOut w in
  let r' := signOut (after r) in
  outcome r = Normal tt /\ outcome r' = Normal tt /\
  stored r = AsyncStorage.remove_session_and_user (World.storage w) /\
  stored r' = stored r /\
  AuthState.user (state_after r) = None /\
  AuthState.sessionExpiry (state_after r) = None /\
  AuthState.error (state_after r) = AuthState.error (World.state w) /\
  state_after r' = state_after r.
Proof.
  unfold signOut. run. destruct w as [s [u l e i x] c n ro t]. cbn.
  repeat split; reflexivity.
Qed.

Section Sessions.
Variable sha256_base64 : string -> string.

Lemma signIn_not_found
    (email password : string) (rememberMe : bool) (w : World.t) :
  signIn_accepts email password ->
  ~ registered email (World.storage w) ->
  outcome (signIn sha256_base64 email password rememberMe w)
    = Thrown "User not found" /\
  stored (signIn sha256_base64 email password rememberMe w) = World.storage w.
Proof.
  intros Hok Hnew.
  apply signIn_checks_pass in Hok as (Hm & Hshape).
  apply not_registered_some, findIndex_None in Hnew.
  unfold directory, has_email in Hnew.
  unfold signIn. unfold_async. rewrite Hm, Hshape. cbn.
  destruct (AsyncStorage.registered_users (World.storage w)) as [users|];
    cbn in *; [|split; reflexivity].
  unfold JS.find. rewrite Hnew. cbn. split; reflexivity.
Qed.

(** X7. [signIn] with an email that no entry of the directory has (the
    directory key absent included) is rejected with "User not found"
    (auth/user-not-found) and stores nothing. *)
Theorem signIn_unknown_email
    (email password : string) (rememberMe : bool) (w : World.t) :
  signIn_accepts email password ->
  ~ registered email (World.storage w) ->
  let r := signIn sha256_base64 email password rememberMe w in
  outcome r = Thrown "User not found" /\
  stored r = World.storage w /\
  AuthState.user (state_after r) = AuthState.user (World.state w) /\
  AuthState.error (state_after r) =
    auth_error "auth/user-not-found" "No account found with this email".
Proof.
  intros Hok Hnew r. subst r.
  apply signIn_checks_pass in Hok as (Hm & Hshape).
  apply not_registered_some, findIndex_None in Hnew.
  unfold directory, has_email in Hnew.
  unfold signIn. unfold_async. rewrite Hm, Hshape. cbn.
  destruct (AsyncStorage.registered_users (World.storage w)) as [users|];
    cbn in *; [|repeat split; reflexivity].
  unfold JS.find. rewrite Hnew. cbn. repeat split; reflexivity.
Qed.

Lemma loadStoredAuth_live
    (w : World.t) (session : SessionData.t) (projection : User.t) :
  AsyncStorage.auth_session (World.storage w) = Some session ->
  AsyncStorage.auth_store (World.storage w) = Some projection ->
  World.now w < SessionData.expiresAt session ->
  outcome (loadStoredAuth w) = Normal tt /\
  stored (loadStoredAuth w) = World.storage w /\
  AuthState.user (state_after (loadStoredAuth w)) = Some projection.
Proof.
  intros Hsession Hstore Hlive. apply Z.ltb_lt in Hlive.
  unfold loadStoredAuth. run. clocks. rewrite Hsession. cbn.
  rewrite Hlive. cbn. rewrite Hstore. cbn.
  match goal with |- context [if ?c then _ else _] => destruct c end;
    cbn; repeat split; reflexivity.
Qed.

(** X8. [loadStoredAuth] with a stored session that has not expired and a
    stored projection makes the projection the current user, sets the
    session expiry, arms one timeout for the time that is left, and writes
    nothing to storage. *)
Theorem loadStoredAuth_restores
    (w : World.t) (session : SessionData.t) (projection : User.t) :
  AsyncStorage.auth_session (World.storage w) = Some session ->
  AsyncStorage.auth_store (World.storage w) = Some projection ->
  World.now w < SessionData.expiresAt session ->
  let r := loadStoredAuth w in
  let left := SessionData.expiresAt session - World.reading 1 w in
  outcome r = Normal tt /\
  stored r = World.storage w /\
  AuthState.user (state_after r) = Some projection /\
  AuthState.sessionExpiry (state_after r) = Some (SessionData.expiresAt session) /\
  AuthState.isInitialized (state_after r) = true /\
  World.timeouts (after r) =
    World.timeouts w ++ (if (0 <? left)%Z then [left] else []).
Proof.
  intros Hsession Hstore Hlive. apply Z.ltb_lt in Hlive.
  unfold loadStoredAuth. run. clocks. rewrite Hsession. cbn.
  rewrite Hlive. cbn. rewrite Hstore. cbn.
  destruct (0 <? SessionData.expiresAt session
                  - World.clock w (S (World.reads w)))%Z;
    cbn; rewrite ?List.app_nil_r; repeat split; reflexivity.
Qed.

(** What a [signIn] that resolved without an error has left behind. *)
Lemma signIn_went_through
    (email password : string) (rememberMe : bool) (w : World.t) :
  let r := signIn sha256_base64 email password rememberMe w in
  outcome r = Normal tt ->
  AuthState.error (state_after r) = None ->
  exists (session : SessionData.t) (projection : User.t),
    AsyncStorage.auth_session (stored r) = Some session /\
    AsyncStorage.auth_store (stored r) = Some projection /\
    AuthState.user (state_after r) = Some projection /\
    AuthState.sessionExpiry (state_after r) = Some (SessionData.expiresAt session) /\
    SessionData.userId session = User.id projection /\
    User.email projection = email.
Proof.
  cbv zeta.
  destruct (classic_signIn_accepts email password) as [Hok|Hno].
  2:{ destruct (signIn_rejected sha256_base64 email password rememberMe w Hno)
        as (_ & _ & He). intros _ Herr. congruence. }
  pose proof (signIn_checks_pass email password Hok) as (Hm & Hshape).
  destruct (registered_dec email (World.storage w)) as [Hreg|Hnew].
  2:{ destruct (signIn_not_found email password rememberMe w Hok Hnew)
        as (Ho & _). intros Ho'. congruence. }
  apply registered_some, findIndex_is_Some in Hreg as [i Hi].
  destruct (findIndex_Some _ _ _ Hi) as (u & Hu & Hpu & _).
  apply String.eqb_eq in Hpu.
  unfold directory in Hi, Hu.
  destruct (AsyncStorage.registered_users (World.storage w)) as [users|] eqn:Husers;
    [|discriminate Hu].
  cbn in Hi, Hu.
  assert (Hfind : JS.find (has_email email) users = Some (i, u))
    by (apply find_Some; auto).
  destruct (JS.truthy (AsyncStorage.salts (World.storage w) !! StoredUser.id u))
    as [salt|] eqn:Hsalt.
  - assert (Hs : AsyncStorage.salts (World.storage w) !! StoredUser.id u = Some salt
                 /\ salt <> "").
    { unfold JS.truthy in Hsalt.
      destruct (AsyncStorage.salts (World.storage w) !! StoredUser.id u)
        as [s0|]; [|discriminate].
      destruct (JS.not_string s0) eqn:E; [discriminate|].
      injection Hsalt as ->. split; [reflexivity|].
      intros ->. vm_compute in E. discriminate. }
    destruct Hs as [Hs Hne].
    destruct (String.string_dec (hashPassword sha256_base64 password salt)
                (StoredUser.passwordHash u)) as [Hsame|Hdiff].
    + destruct (signIn_success sha256_base64 email password rememberMe w users
                  i u salt Hok Husers Hfind Hs Hne Hsame) as (_ & -> & ->).
      intros _ _. do 2 eexists. cbn. repeat split; try reflexivity. exact Hpu.
    + destruct (signIn_wrong_password sha256_base64 email password rememberMe w
                  users i u salt Hok Husers Hfind Hs Hne Hdiff) as (Ho & _).
      intros Ho'. congruence.
  - destruct (signIn_self_heal sha256_base64 email password rememberMe w users
                i u Hok Husers Hfind Hsalt) as (_ & -> & ->).
    intros _ _. do 2 eexists. cbn. repeat split; try reflexivity. exact Hpu.
Qed.

(** X9. After a [signIn] that resolved without an error, a restart of the
    application before the session expires ([loadStoredAuth] on the storage
    that [signIn] left, with nobody signed in yet) brings back the very
    user that [signIn] signed in. *)
Theorem signIn_survives_restart
    (email password : string) (rememberMe : bool) (w w' : World.t) :
  let r := signIn sha256_base64 email password rememberMe w in
  outcome r = Normal tt ->
  AuthState.error (state_after r) = None ->
  World.storage w' = stored r ->
  (forall session, AsyncStorage.auth_session (stored r) = Some session ->
                   World.now w' < SessionData.expiresAt session) ->
  let r' := loadStoredAuth w' in
  outcome r' = Normal tt /\
  AuthState.user (state_after r') = AuthState.user (state_after r) /\
  (exists u, AuthState.user (state_after r') = Some u /\ User.email u = email) /\
  stored r' = stored r.
Proof.
  intros r Ho He Hw' Hlive r'.
  destruct (signIn_went_through email password rememberMe w Ho He)
    as (session & projection & Hs & Hp & Hu & _ & _ & Hemail).
  fold r in Hs, Hp, Hu.
  rewrite <- Hw' in Hs, Hp.
  destruct (loadStoredAuth_live w' session projection Hs Hp
              (Hlive session ltac:(rewrite <- Hw'; exact Hs)))
    as (Ho' & Hs' & Hu').
  fold r' in Ho', Hs', Hu'. rewrite Hu', Hu, Hs', Hw'. eauto 6.
Qed.

End Sessions.

(** ** Password recovery *)

Ltac run_request :=
  unfold requestPasswordReset, setItem_reset_code; unfold_async; cbn.

Lemma find_is_Some {A : Type} (p : A -> bool) (xs : list A) :
  JS.some p xs = true -> exists i x, JS.find p xs = Some (i, x).
Proof.
  intros H. apply findIndex_is_Some in H as [i Hi].
  destruct (findIndex_Some _ _ _ Hi) as (x & Hx & _).
  exists i, x. apply find_Some. auto.
Qed.

Lemma find_None {A : Type} (p : A -> bool) (xs : list A) :
  JS.some p xs = false -> JS.find p xs = None.
Proof.
  intros H. apply findIndex_None in H. unfold JS.find. rewrite H. reflexivity.
Qed.

(** What [requestPasswordReset] stores, by whether the email is in the
    directory. *)
Lemma requestPasswordReset_cases (drawn : Z) (email : string) (w : World.t) :
  (registered email (World.storage w) /\
   outcome (requestPasswordReset drawn email w) = Normal tt /\
   World.now (after (requestPasswordReset drawn email w)) = World.reading 1 w /\
   stored (requestPasswordReset drawn email w) =
     AsyncStorage.set_reset_codes
       (<[email := ResetData.mk (JS.toString drawn) (World.now w + 300000)]>
          (AsyncStorage.reset_codes (World.storage w)))
       (World.storage w)) \/
  (~ registered email (World.storage w) /\
   stored (requestPasswordReset drawn email w) = World.storage w).
Proof.
  destruct (registered_dec email (World.storage w)) as [Hreg|Hnew].
  - left. split; [exact Hreg|].
    apply registered_some, find_is_Some in Hreg as (i & u & Hfind).
    unfold directory, has_email in Hfind. run_request. rewrite Hfind. cbn.
    repeat split; reflexivity.
  - right. split; [exact Hnew|].
    apply not_registered_some, find_None in Hnew.
    unfold directory, has_email in Hnew. run_request. rewrite Hnew. cbn.
    reflexivity.
Qed.

(** X10. [requestPasswordReset] for an email of the directory resolves and
    stores under that email the drawn number as the code, with an expiry 5
    minutes after the current time, in place of any code stored before;
    nothing else in storage changes. For any other email it is rejected
    with "User not found" (auth/user-not-found) and stores nothing. *)
Theorem requestPasswordReset_stores_code
    (drawn : Z) (email : string) (w : World.t) :
  let r := requestPasswordReset drawn email w in
  (registered email (World.storage w) ->
   outcome r = Normal tt /\
   stored r =
     AsyncStorage.set_reset_codes
       (<[email := ResetData.mk (JS.toString drawn) (World.now w + 300000)]>
          (AsyncStorage.reset_codes (World.storage w)))
       (World.storage w) /\
   AuthState.error (state_after r) = None) /\
  (~ registered email (World.storage w) ->
   outcome r = Thrown "User not found" /\
   stored r = World.storage w /\
   AuthState.error (state_after r) =
     auth_error "auth/user-not-found" "No account found with this email").
Proof.
  cbv zeta. split.
  - intros Hreg. apply registered_some, find_is_Some in Hreg as (i & u & Hfind).
    unfold directory, has_email in Hfind. run_request. rewrite Hfind. cbn.
    repeat split; reflexivity.
  - intros Hnew. apply not_registered_some, find_None in Hnew.
    unfold directory, has_email in Hnew. run_request. rewrite Hnew. cbn.
    repeat split; reflexivity.
Qed.

(** [alter] with a function that keeps what [p] looks at does not move the
    first element that satisfies [p]. *)
Lemma findIndex_alter {A : Type} (p : A -> bool) (f : A -> A) (xs : list A)
    (j : nat) :
  (forall x, p (f x) = p x) ->
  JS.findIndex p (alter f j xs) = JS.findIndex p xs.
Proof.
  intros Hp. revert j. induction xs as [|x xs IH]; intros [|j]; cbn;
    rewrite ?findIndex_cons, ?Hp, ?IH; reflexivity.
Qed.

Section Recovery.
Variable sha256_base64 : string -> string.

(** X11. The recovery path works end to end: for an email of the directory,
    [requestPasswordReset], then [resetPassword] with the stored code and
    any new password while the clock has not passed the expiry, then
    [signIn] with that email and the new password (when they pass the input
    checks of [signIn]) signs in the first entry with that email. *)
Theorem password_recovery_flow
    (drawn : Z) (email newPassword : string) (rememberMe : bool) (w : World.t) :
  registered email (World.storage w) ->
  signIn_accepts email newPassword ->
  World.reading 1 w <= World.now w + 300000 ->
  let r1 := requestPasswordReset drawn email w in
  let r2 := resetPassword sha256_base64 email (JS.toString drawn) newPassword
              (after r1) in
  let r3 := signIn sha256_base64 email newPassword rememberMe (after r2) in
  outcome r1 = Normal tt /\ outcome r2 = Normal tt /\ outcome r3 = Normal tt /\
  AuthState.error (state_after r3) = None /\
  exists (i : nat) (u : StoredUser.t),
    JS.find (has_email email) (directory (World.storage w)) = Some (i, u) /\
    AuthState.user (state_after r3) =
      Some (User.mk (StoredUser.id u) email (Some (StoredUser.name u))).
Proof.
  intros Hreg Hok Hintime r1 r2 r3.
  destruct (requestPasswordReset_cases drawn email w)
    as [(_ & Ho1 & Hclock1 & Hs1)|(Hnew & _)]; [|contradiction].
  fold r1 in Ho1, Hs1, Hclock1.
  pose proof Hreg as Hfi. apply registered_some, findIndex_is_Some in Hfi as [i Hi].
  destruct (findIndex_Some _ _ _ Hi) as (u & Hu & Hpu & _).
  apply String.eqb_eq in Hpu.
  assert (Hdir1 : directory (World.storage (after r1)) = directory (World.storage w)).
  { change (World.storage (after r1)) with (stored r1). rewrite Hs1. reflexivity. }
  assert (Hcode : AsyncStorage.reset_codes (World.storage (after r1)) !! email =
                  Some (ResetData.mk (JS.toString drawn) (World.now w + 300000))).
  { change (World.storage (after r1)) with (stored r1). rewrite Hs1. cbn.
    apply lookup_insert_eq. }
  assert (Hi1 : JS.findIndex (has_email email)
                  (directory (World.storage (after r1))) = Some i)
    by (rewrite Hdir1; exact Hi).
  destruct (resetPassword_success sha256_base64 email (JS.toString drawn)
              newPassword (after r1) _ i Hcode
              ltac:(rewrite Hclock1; exact Hintime) eq_refl Hi1)
    as (u1 & Hu1 & _ & Ho2 & Hs2 & _).
  fold r2 in Ho2, Hs2. rewrite Hdir1 in Hu1, Hs2.
  assert (u1 = u) by congruence. subst u1.
  set (salt := sha256_base64 (JS.toString (World.reading 1 (after r1)))) in *.
  set (u' := StoredUser.set_passwordHash
               (hashPassword sha256_base64 newPassword salt) u).
  set (users' := alter (StoredUser.set_passwordHash
                          (hashPassword sha256_base64 newPassword salt)) i
                   (directory (World.storage w))) in *.
  assert (Husers2 : AsyncStorage.registered_users (World.storage (after r2))
                    = Some users').
  { change (World.storage (after r2)) with (stored r2). rewrite Hs2. reflexivity. }
  assert (Hfind2 : JS.find (has_email email) users' = Some (i, u')).
  { apply find_Some. split.
    - unfold users'. rewrite findIndex_alter; [exact Hi|]. intros x. reflexivity.
    - unfold users'. rewrite list_lookup_alter.
      destruct (decide (i = i)); [|congruence]. rewrite Hu. reflexivity. }
  assert (Hsalt2 : AsyncStorage.salts (World.storage (after r2))
                     !! StoredUser.id u' = Some salt).
  { change (World.storage (after r2)) with (stored r2). rewrite Hs2. cbn.
    apply lookup_insert_eq. }
  split; [exact Ho1|]. split; [exact Ho2|].
  assert (Hresult : outcome r3 = Normal tt /\
                    state_after r3 =
                      AuthState.mk
                        (Some (User.mk (StoredUser.id u') (StoredUser.email u')
                                 (Some (StoredUser.name u'))))
                        false None
                        (AuthState.isInitialized (World.state (after r2)))
                        (AuthState.sessionExpiry (state_after r3))).
  { destruct (String.string_dec salt "") as [Hempty|Hne].
    - assert (Hfalsy : JS.truthy (AsyncStorage.salts (World.storage (after r2))
                                    !! StoredUser.id u') = None)
        by (rewrite Hsalt2, Hempty; reflexivity).
      destruct (signIn_self_heal sha256_base64 email newPassword rememberMe
                  (after r2) users' i u' Hok Husers2 Hfind2 Hfalsy)
        as (Ho3 & _ & Hst3).
      fold r3 in Ho3, Hst3. split; [exact Ho3|]. rewrite Hst3. reflexivity.
    - destruct (signIn_success sha256_base64 email newPassword rememberMe
                  (after r2) users' i u' salt Hok Husers2 Hfind2 Hsalt2 Hne
                  eq_refl) as (Ho3 & _ & Hst3).
      fold r3 in Ho3, Hst3. split; [exact Ho3|]. rewrite Hst3. reflexivity. }
  destruct Hresult as (Ho3 & Hst3). split; [exact Ho3|].
  rewrite Hst3. cbn. split; [reflexivity|].
  exists i, u. split; [apply find_Some; auto|]. rewrite Hpu. reflexivity.
Qed.

End Recovery.

(** ** What the directory operations leave alone *)

Lemma length_alter_list {A : Type} (f : A -> A) (xs : list A) (i : nat) :
  length (alter f i xs) = length xs.
Proof. revert i. induction xs as [|x xs IH]; intros [|i]; cbn; auto. Qed.

Lemma lookup_alter_other {A : Type} (f : A -> A) (xs : list A) (i j : nat) :
  i <> j -> alter f i xs !! j = xs !! j.
Proof.
  revert i j. induction xs as [|x xs IH]; intros [|i] [|j] Hne; cbn;
    try reflexivity; try congruence.
  apply IH. congruence.
Qed.

Section Frames.
Variable sha256_base64 : string -> string.

(** The stored directory after [resetPassword]: as it was, or with a new
    digest at the first entry with the email. *)
Lemma resetPassword_directory (email code newPassword : string) (w : World.t) :
  let r := resetPassword sha256_base64 email code newPassword w in
  (stored r = World.storage w) \/
  (exists (i : nat) (u : StoredUser.t) (salt : string),
     JS.findIndex (has_email email) (directory (World.storage w)) = Some i /\
     directory (World.storage w) !! i = Some u /\
     outcome r = Normal tt /\
     stored r =
       AsyncStorage.set_reset_codes
         (delete email (AsyncStorage.reset_codes (World.storage w)))
         (AsyncStorage.set_salts
            (<[StoredUser.id u := salt]> (AsyncStorage.salts (World.storage w)))
            (AsyncStorage.set_registered_users
               (Some (alter (StoredUser.set_passwordHash
                               (hashPassword sha256_base64 newPassword salt)) i
                        (directory (World.storage w))))
               (World.storage w)))).
Proof.
  cbv zeta.
  destruct (AsyncStorage.reset_codes (World.storage w) !! email)
    as [resetData|] eqn:Hcode.
  2:{ left. apply (resetPassword_no_code sha256_base64 _ _ _ _ Hcode). }
  destruct (Z_lt_le_dec (ResetData.expiry resetData) (World.now w))
    as [Hlate|Hintime].
  { left. apply (resetPassword_expired sha256_base64 _ _ _ _ _ Hcode Hlate). }
  destruct (String.string_dec (ResetData.code resetData) code) as [Hsame|Hdiff].
  2:{ left. apply (resetPassword_invalid_code sha256_base64 _ _ _ _ _
                     Hcode Hintime Hdiff). }
  destruct (registered_dec email (World.storage w)) as [Hreg|Hnew].
  2:{ left. apply (resetPassword_user_not_found sha256_base64 _ _ _ _ _
                     Hcode Hintime Hsame Hnew). }
  apply registered_some, findIndex_is_Some in Hreg as [i Hi].
  destruct (resetPassword_success sha256_base64 email code newPassword w _ i
              Hcode Hintime Hsame Hi) as (u & Hu & _ & Ho & Hs & _).
  right. exists i, u, (sha256_base64 (JS.toString (World.reading 1 w))). auto.
Qed.

(** X12. [resetPassword], whether it goes through or not, never touches the
    stored session or the stored user projection (whoever is signed in
    stays signed in, also after a restart), keeps the number of entries of
    the directory and the id, email and name of each, changes no digest
    other than that of the first entry with the email, and changes no salt
    other than that entry's. *)
Theorem resetPassword_frame (email code newPassword : string) (w : World.t) :
  let r := resetPassword sha256_base64 email code newPassword w in
  let before := directory (World.storage w) in
  let after := directory (stored r) in
  AsyncStorage.auth_session (stored r) = AsyncStorage.auth_session (World.storage w) /\
  AsyncStorage.auth_store (stored r) = AsyncStorage.auth_store (World.storage w) /\
  map StoredUser.id after = map StoredUser.id before /\
  map StoredUser.email after = map StoredUser.email before /\
  map StoredUser.name after = map StoredUser.name before /\
  (forall j u, before !! j = Some u ->
               JS.findIndex (has_email email) before <> Some j ->
               after !! j = Some u) /\
  (forall userId,
     (forall i u, JS.find (has_email email) before = Some (i, u) ->
                  StoredUser.id u <> userId) ->
     AsyncStorage.salts (stored r) !! userId =
     AsyncStorage.salts (World.storage w) !! userId).
Proof.
  cbv zeta.
  destruct (resetPassword_directory email code newPassword w)
    as [->|(i & u & salt & Hi & Hu & _ & ->)].
  - repeat split; auto.
  - unfold directory at 1 3 5 7. cbn.
    rewrite !map_alter_same by (intros x; reflexivity).
    repeat split; auto.
    + intros j v Hv Hj. rewrite lookup_alter_other; [assumption|]. congruence.
    + intros userId Hother. apply lookup_insert_ne. apply (Hother i).
      apply find_Some. auto.
Qed.

(** X13. [signUp] never changes or removes an entry of the directory: the
    stored directory afterwards is the one before with at most one entry
    added at the end, and the added entry has the supplied email and name
    and the clock reading as id. Every salt stays, except under the new
    id. *)
Theorem signUp_appends (email password name : string) (w : World.t) :
  let r := signUp sha256_base64 email password name w in
  (directory (stored r) = directory (World.storage w) \/
   exists digest,
     directory (stored r) =
       directory (World.storage w) ++
       [StoredUser.mk (JS.toString (World.now w)) email name digest]) /\
  (forall userId, userId <> JS.toString (World.now w) ->
     AsyncStorage.salts (stored r) !! userId =
     AsyncStorage.salts (World.storage w) !! userId).
Proof.
  cbv zeta.
  destruct (signUp_accepts_dec email password name) as [Hok|Hno].
  2:{ destruct (signUp_rejected sha256_base64 email password name w Hno)
        as (_ & -> & _). auto. }
  destruct (registered_dec email (World.storage w)) as [Hreg|Hnew].
  { destruct (signUp_duplicate sha256_base64 email password name w Hok Hreg)
      as (_ & -> & _). auto. }
  pose proof (signUp_checks_pass email password name Hok) as (Hm & Hshape & Hlen).
  apply not_registered_some in Hnew.
  unfold directory, has_email in *.
  unfold signUp, AuthContext.generateSalt, AuthContext.createSession.
  unfold_async. rewrite Hm, Hshape, Hlen. cbn. rewrite Hnew. cbn.
  rewrite lookup_insert_eq.
  destruct (JS.not_item _); cbn.
  - split; [left; reflexivity|]. intros userId Hne.
    apply lookup_insert_ne. clocks. congruence.
  - match goal with |- context [if ?c then _ else _] => destruct c end; cbn;
      (split; [right; eexists; reflexivity|]); intros userId Hne;
      apply lookup_insert_ne; clocks; congruence.
Qed.

End Frames.

(** ** updateUserProfile *)

(** The three ways [updateUserProfile] can end. *)
Lemma updateUserProfile_cases (updates : ProfileUpdates.t) (w : World.t) :
  let r := updateUserProfile updates w in
  (AuthState.user (World.state w) = None /\
   r = (Thrown "No user logged in", w)) \/
  (exists user,
     AuthState.user (World.state w) = Some user /\
     (forall users,
        AsyncStorage.registered_users (World.storage w) = Some users ->
        JS.findIndex (has_id (User.id user)) users = None) /\
     r = (Thrown "Failed to update profile", w)) \/
  (exists user users i,
     AuthState.user (World.state w) = Some user /\
     AsyncStorage.registered_users (World.storage w) = Some users /\
     JS.findIndex (has_id (User.id user)) users = Some i /\
     outcome r = Normal tt /\
     stored r =
       AsyncStorage.set_registered_users
         (Some (alter (merge_stored updates) i users)) (World.storage w) /\
     state_after r =
       AuthState.set_user (Some (merge_user updates user)) (World.state w)).
Proof.
  cbv zeta. unfold updateUserProfile, has_id. unfold_async.
  destruct (AuthState.user (World.state w)) as [user|] eqn:Huser; cbn;
    [|left; auto].
  right.
  destruct (AsyncStorage.registered_users (World.storage w)) as [users|] eqn:Hus;
    cbn.
  - destruct (JS.findIndex _ users) as [i|] eqn:Hi; cbn.
    + right. exists user, users, i. rewrite Huser. cbn. repeat split; auto.
    + left. exists user. repeat split; auto. intros ? [= <-]. exact Hi.
  - left. exists user. repeat split; auto. intros ? [=].
Qed.

(** X14. [updateUserProfile] without a current user is rejected with "No
    user logged in"; with a current user but no directory in storage, or no
    entry with the user's id, it is rejected with "Failed to update
    profile". In both cases storage and the provider's state are as they
    were. *)
Theorem updateUserProfile_rejections (updates : ProfileUpdates.t) (w : World.t) :
  let r := updateUserProfile updates w in
  (AuthState.user (World.state w) = None ->
   r = (Thrown "No user logged in", w)) /\
  (forall user,
     AuthState.user (World.state w) = Some user ->
     ~ (exists u, In u (directory (World.storage w)) /\
                  StoredUser.id u = User.id user) ->
     r = (Thrown "Failed to update profile", w)).
Proof.
  cbv zeta.
  destruct (updateUserProfile_cases updates w)
    as [(Hnone & Hr)|[(user & Huser & _ & Hr)|
        (user & users & i & Huser & Hus & Hi & _)]].
  - split; [auto|]. intros user Huser. congruence.
  - split; [congruence|]. auto.
  - split; [congruence|]. intros user' Huser' Hno. exfalso. apply Hno.
    assert (user' = user) by congruence. subst user'.
    destruct (findIndex_Some _ _ _ Hi) as (u & Hu & Hpu & _).
    exists u. unfold directory. rewrite Hus. cbn. split.
    + apply list_elem_of_In, list_elem_of_lookup. eauto.
    + apply String.eqb_eq. exact Hpu.
Qed.

(** X15. [updateUserProfile] writes nothing but the directory: the stored
    session, the stored user projection, the salts and the reset codes are
    as they were. In the directory it keeps the number of entries and the
    id and digest of each, and changes no entry other than the first one
    with the current user's id. *)
Theorem updateUserProfile_frame (updates : ProfileUpdates.t) (w : World.t) :
  let r := updateUserProfile updates w in
  let before := directory (World.storage w) in
  let after := directory (stored r) in
  AsyncStorage.auth_store (stored r) = AsyncStorage.auth_store (World.storage w) /\
  AsyncStorage.auth_session (stored r) = AsyncStorage.auth_session (World.storage w) /\
  AsyncStorage.salts (stored r) = AsyncStorage.salts (World.storage w) /\
  AsyncStorage.reset_codes (stored r) = AsyncStorage.reset_codes (World.storage w) /\
  map StoredUser.id after = map StoredUser.id before /\
  map StoredUser.passwordHash after = map StoredUser.passwordHash before /\
  (forall user j u,
     AuthState.user (World.state w) = Some user ->
     before !! j = Some u ->
     JS.findIndex (has_id (User.id user)) before <> Some j ->
     after !! j = Some u).
Proof.
  cbv zeta.
  destruct (updateUserProfile_cases updates w)
    as [(_ & ->)|[(user & _ & _ & ->)|
        (user & users & i & Huser & Hus & Hi & _ & -> & _)]].
  - repeat split; auto.
  - repeat split; auto.
  - unfold directory. rewrite Hus. cbn.
    rewrite !map_alter_same by (intros x; reflexivity).
    repeat split; auto.
    intros user' j u Huser' Hu Hj.
    assert (user' = user) by congruence. subst user'.
    rewrite lookup_alter_other; [assumption|]. congruence.
Qed.

(** X16. A profile update does not survive a restart: whatever
    [updateUserProfile] was given and however it ended, [loadStoredAuth] on
    the storage it left, before the session expires, makes the projection
    that was stored before the update the current user. *)
Theorem profile_update_lost_on_restart
    (updates : ProfileUpdates.t) (w w' : World.t)
    (session : SessionData.t) (projection : User.t) :
  AsyncStorage.auth_session (World.storage w) = Some session ->
  AsyncStorage.auth_store (World.storage w) = Some projection ->
  World.storage w' = stored (updateUserProfile updates w) ->
  World.now w' < SessionData.expiresAt session ->
  AuthState.user (state_after (loadStoredAuth w')) = Some projection.
Proof.
  intros Hsession Hstore Hw' Hlive.
  assert (Hkept : AsyncStorage.auth_session (World.storage w') = Some session /\
                  AsyncStorage.auth_store (World.storage w') = Some projection).
  { rewrite Hw'.
    destruct (updateUserProfile_cases updates w)
      as [(_ & ->)|[(user & _ & _ & ->)|
          (user & users & i & _ & _ & _ & _ & -> & _)]]; auto. }
  destruct Hkept as (Hs & Hp).
  apply (loadStoredAuth_live w' session projection Hs Hp Hlive).
Qed.

(** ** Invariants of the stored state *)

(** With pairwise distinct ids, replacing every entry that has the id of
    the entry at [i] replaces that entry only. *)
Lemma map_replace_by_id (users : list StoredUser.t) (i : nat)
    (u u' : StoredUser.t) :
  NoDup (map StoredUser.id users) -> users !! i = Some u ->
  map (fun v => if String.eqb (StoredUser.id v) (StoredUser.id u) then u' else v)
    users = <[i := u']> users.
Proof.
  revert i. induction users as [|x xs IH]; intros [|i] Hnd Hu; cbn in *;
    try discriminate.
  - injection Hu as ->. rewrite String.eqb_refl. f_equal.
    apply NoDup_cons in Hnd as [Hx _].
    clear IH. induction xs as [|y ys IHy]; [reflexivity|]. cbn.
    destruct (String.eqb (StoredUser.id y) (StoredUser.id u)) eqn:E.
    + exfalso. apply Hx. apply String.eqb_eq in E. rewrite <- E. cbn. left.
    + f_equal. apply IHy. intros Hin. apply Hx. cbn. right. exact Hin.
  - apply NoDup_cons in Hnd as [Hx Hxs].
    destruct (String.eqb (StoredUser.id x) (StoredUser.id u)) eqn:E.
    + exfalso. apply Hx. apply String.eqb_eq in E. rewrite E.
      apply list_elem_of_fmap. exists u. split; [reflexivity|].
      apply list_elem_of_lookup. eauto.
    + f_equal. apply IH; assumption.
Qed.

Lemma map_insert_same_image {A B : Type} (g : A -> B) (xs : list A) (i : nat)
    (x x' : A) :
  xs !! i = Some x -> g x' = g x -> map g (<[i := x']> xs) = map g xs.
Proof.
  revert i. induction xs as [|y ys IH]; intros [|i]; cbn; try discriminate.
  - intros [= ->] ->. reflexivity.
  - intros Hi Hg. f_equal. apply IH; assumption.
Qed.

Section Invariants.
Variable sha256_base64 : string -> string.

(** The directory after [signIn]: as it was, or repaired at every entry
    with the id of the entry found. *)
Lemma signIn_directory (email password : string) (rememberMe : bool) (w : World.t) :
  let r := signIn sha256_base64 email password rememberMe w in
  directory (stored r) = directory (World.storage w) \/
  exists users i u digest,
    AsyncStorage.registered_users (World.storage w) = Some users /\
    users !! i = Some u /\
    directory (stored r) =
      map (fun v => if String.eqb (StoredUser.id v) (StoredUser.id u)
                    then StoredUser.set_passwordHash digest u else v) users.
Proof.
  cbv zeta.
  destruct (classic_signIn_accepts email password) as [Hok|Hno].
  2:{ destruct (signIn_rejected sha256_base64 email password rememberMe w Hno)
        as (_ & -> & _). auto. }
  destruct (registered_dec email (World.storage w)) as [Hreg|Hnew].
  2:{ destruct (signIn_not_found sha256_base64 email password rememberMe w
                  Hok Hnew) as (_ & ->). auto. }
  apply registered_some, findIndex_is_Some in Hreg as [i Hi].
  destruct (findIndex_Some _ _ _ Hi) as (u & Hu & _).
  unfold directory in Hi, Hu.
  destruct (AsyncStorage.registered_users (World.storage w)) as [users|] eqn:Husers;
    [|discriminate Hu].
  cbn in Hi, Hu.
  assert (Hfind : JS.find (has_email email) users = Some (i, u))
    by (apply find_Some; auto).
  destruct (JS.truthy (AsyncStorage.salts (World.storage w) !! StoredUser.id u))
    as [salt|] eqn:Hsalt.
  - left.
    assert (Hs : AsyncStorage.salts (World.storage w) !! StoredUser.id u = Some salt
                 /\ salt <> "").
    { unfold JS.truthy in Hsalt.
      destruct (AsyncStorage.salts (World.storage w) !! StoredUser.id u)
        as [s0|]; [|discriminate].
      destruct (JS.not_string s0) eqn:E; [discriminate|].
      injection Hsalt as ->. split; [reflexivity|].
      intros ->. vm_compute in E. discriminate. }
    destruct Hs as [Hs Hne].
    destruct (String.string_dec (hashPassword sha256_base64 password salt)
                (StoredUser.passwordHash u)) as [Hsame|Hdiff].
    + destruct (signIn_success sha256_base64 email password rememberMe w users
                  i u salt Hok Husers Hfind Hs Hne Hsame) as (_ & -> & _).
      unfold directory. cbn. rewrite Husers. reflexivity.
    + destruct (signIn_wrong_password sha256_base64 email password rememberMe w
                  users i u salt Hok Husers Hfind Hs Hne Hdiff) as (_ & -> & _).
      unfold directory. rewrite Husers. reflexivity.
  - right.
    destruct (signIn_self_heal sha256_base64 email password rememberMe w users
                i u Hok Husers Hfind Hsalt) as (_ & -> & _).
    exists users, i, u. eexists. split; [reflexivity|]. split; [exact Hu|].
    reflexivity.
Qed.

(** X17. The emails of the directory stay pairwise distinct across
    [signUp], [resetPassword], [requestPasswordReset], [signOut] and
    [loadStoredAuth], and across [signIn] when the ids of the directory are
    pairwise distinct. *)
Theorem unique_emails_kept (w : World.t) :
  unique_emails (World.storage w) ->
  (forall email password name,
     unique_emails (stored (signUp sha256_base64 email password name w))) /\
  (forall email code newPassword,
     unique_emails (stored (resetPassword sha256_base64 email code newPassword w))) /\
  (forall drawn email,
     unique_emails (stored (requestPasswordReset drawn email w))) /\
  unique_emails (stored (signOut w)) /\
  unique_emails (stored (loadStoredAuth w)) /\
  (unique_ids (World.storage w) ->
   forall email password rememberMe,
     unique_emails (stored (signIn sha256_base64 email password rememberMe w))).
Proof.
  intros Hinv. repeat apply conj.
  - intros. apply signUp_unique_emails. exact Hinv.
  - intros. apply resetPassword_unique_emails. exact Hinv.
  - intros drawn email.
    destruct (requestPasswordReset_cases drawn email w)
      as [(_ & _ & _ & ->)|(_ & ->)]; exact Hinv.
  - unfold unique_emails, directory in *. unfold signOut. run. exact Hinv.
  - unfold unique_emails, directory in *. unfold loadStoredAuth. run.
    destruct (AsyncStorage.auth_session (World.storage w)) as [session|];
      cbn; [|exact Hinv].
    destruct (World.now w <? SessionData.expiresAt session)%Z; cbn;
      [|exact Hinv].
    destruct (AsyncStorage.auth_store (World.storage w)); cbn; [|exact Hinv].
    match goal with |- context [if ?c then _ else _] => destruct c end;
      cbn; exact Hinv.
  - intros Hids email password rememberMe.
    destruct (signIn_directory email password rememberMe w)
      as [Hsame|(users & i & u & digest & Husers & Hu & Hd)];
      unfold unique_emails in *.
    + rewrite Hsame. exact Hinv.
    + rewrite Hd. unfold unique_ids, directory in Hids, Hinv.
      rewrite Husers in Hids, Hinv. cbn in Hids, Hinv.
      rewrite (map_replace_by_id users i u _ Hids Hu).
      rewrite (map_insert_same_image StoredUser.email users i u);
        [exact Hinv|exact Hu|reflexivity].
Qed.

(** X18. A stored session keeps its stored user projection across [signIn],
    [signOut], [loadStoredAuth], [resetPassword], [requestPasswordReset] and
    [updateUserProfile]: every operation of the provider but [signUp]. *)
Theorem session_has_projection_kept (w : World.t) :
  session_has_projection (World.storage w) ->
  (forall email password rememberMe,
     session_has_projection
       (stored (signIn sha256_base64 email password rememberMe w))) /\
  session_has_projection (stored (signOut w)) /\
  session_has_projection (stored (loadStoredAuth w)) /\
  (forall email code newPassword,
     session_has_projection
       (stored (resetPassword sha256_base64 email code newPassword w))) /\
  (forall drawn email,
     session_has_projection (stored (requestPasswordReset drawn email w))) /\
  (forall updates,
     session_has_projection (stored (updateUserProfile updates w))).
Proof.
  intros Hinv. repeat apply conj.
  - intros. apply signIn_session_has_projection. exact Hinv.
  - apply signOut_session_has_projection.
  - apply loadStoredAuth_session_has_projection. exact Hinv.
  - intros email code newPassword.
    destruct (resetPassword_directory sha256_base64 email code newPassword w)
      as [->|(i & u & salt & _ & _ & _ & ->)]; exact Hinv.
  - intros drawn email.
    destruct (requestPasswordReset_cases drawn email w)
      as [(_ & _ & _ & ->)|(_ & ->)]; exact Hinv.
  - intros updates.
    destruct (updateUserProfile_cases updates w)
      as [(_ & ->)|[(user & _ & _ & ->)|
          (user & users & i & _ & _ & _ & _ & -> & _)]]; exact Hinv.
Qed.

End Invariants.

(** ** Adding and updating records *)

Section Records.
Context {A : Type} (id_of : A -> string).

Lemma filter_other_id_fresh (id : string) (xs : list A) :
  (forall x, In x xs -> id_of x <> id) ->
  JS.filter (other_id id_of id) xs = xs.
Proof.
  unfold JS.filter. induction xs as [|x xs IH]; intros Hfresh; [reflexivity|].
  cbn. unfold other_id at 1.
  replace (String.eqb (id_of x) id) with false
    by (symmetry; apply String.eqb_neq, Hfresh; left; reflexivity).
  cbn. f_equal. apply IH. intros y Hy. apply Hfresh. right. exact Hy.
Qed.

Lemma filter_other_id_same (id : string) (x : A) :
  id_of x = id -> JS.filter (other_id id_of id) [x] = [].
Proof.
  intros <-. unfold JS.filter, other_id. cbn. rewrite String.eqb_refl.
  reflexivity.
Qed.

Lemma filter_other_id_snoc (id : string) (xs : list A) (x : A) :
  (forall y, In y xs -> id_of y <> id) -> id_of x = id ->
  JS.filter (other_id id_of id) (xs ++ [x]) = xs.
Proof.
  intros Hfresh Hx. unfold JS.filter. rewrite List.filter_app.
  fold (JS.filter (other_id id_of id) xs). fold (JS.filter (other_id id_of id) [x]).
  rewrite filter_other_id_fresh, filter_other_id_same by assumption.
  apply List.app_nil_r.
Qed.




End Records.

Lemma addExpense_spec (u : User.t) (now : Z) (expenseData : ExpenseData.t)
    (storage : AsyncStorage.t) (st : ExpenseContext.State) :
  ExpenseContext.addExpense (Some u) now expenseData (storage, st) =
    (Normal tt,
     (AsyncStorage.set_expenses
        (Some (default [] (AsyncStorage.expenses storage) ++
               [ExpenseContext.new_expense (JS.toString now) (User.id u) expenseData]))
        storage,
      ExpenseContext.mk
        (ExpenseContext.expenses st ++
         [ExpenseContext.new_expense (JS.toString now) (User.id u) expenseData])
        (ExpenseContext.isLoading st) (ExpenseContext.error st))).
Proof. reflexivity. Qed.



Lemma addExpense_then_deleteExpense (u : User.t) (now : Z)
    (expenseData : ExpenseData.t) (storage : AsyncStorage.t)
    (st : ExpenseContext.State) :
  (forall e, In e (default [] (AsyncStorage.expenses storage)) ->
             Expense.id e <> JS.toString now) ->
  (forall e, In e (ExpenseContext.expenses st) -> Expense.id e <> JS.toString now) ->
  let r := ExpenseContext.deleteExpense (JS.toString now)
             (snd (ExpenseContext.addExpense (Some u) now expenseData (storage, st))) in
  AsyncStorage.expenses (fst r) = Some (default [] (AsyncStorage.expenses storage)) /\
  ExpenseContext.expenses (snd r) = ExpenseContext.expenses st.
Proof.
  intros Hstored Hshown. cbv zeta. rewrite addExpense_spec. cbn [snd].
  unfold ExpenseContext.deleteExpense. cbn.
  split; [f_equal|]; apply (filter_other_id_snoc Expense.id); auto.
Qed.

Lemma patch_expense_keeps (expenseData : ExpensePatch.t) (e : Expense.t) :
  Expense.id (ExpenseContext.patch expenseData e) = Expense.id e /\
  Expense.userId (ExpenseContext.patch expenseData e) = Expense.userId e.
Proof. split; reflexivity. Qed.

(** The two ways [updateExpense] can end. *)
Lemma updateExpense_cases (id : string) (expenseData : ExpensePatch.t)
    (storage : AsyncStorage.t) (st : ExpenseContext.State) :
  let r := ExpenseContext.updateExpense id expenseData (storage, st) in
  let change := fun e => if String.eqb (Expense.id e) id
                         then ExpenseContext.patch expenseData e else e in
  (r = (storage, st) /\
   forall e, In e (default [] (AsyncStorage.expenses storage)) -> Expense.id e <> id) \/
  (exists allExpenses k,
     AsyncStorage.expenses storage = Some allExpenses /\
     JS.findIndex (fun e => String.eqb (Expense.id e) id) allExpenses = Some k /\
     r = (AsyncStorage.set_expenses
            (Some (alter (ExpenseContext.patch expenseData) k allExpenses)) storage,
          ExpenseContext.mk (map change (ExpenseContext.expenses st))
            (ExpenseContext.isLoading st) (ExpenseContext.error st))).
Proof.
  cbv zeta. unfold ExpenseContext.updateExpense.
  destruct (AsyncStorage.expenses storage) as [allExpenses|] eqn:Hall;
    [|left; split; [reflexivity|intros e []]].
  destruct (JS.findIndex _ allExpenses) as [k|] eqn:Hk.
  - right. exists allExpenses, k. auto.
  - left. split; [reflexivity|]. cbn. intros e Hin.
    apply findIndex_None in Hk. unfold JS.some in Hk.
    apply String.eqb_neq.
    destruct (String.eqb (Expense.id e) id) eqn:E; [|reflexivity].
    assert (existsb (fun e => String.eqb (Expense.id e) id) allExpenses = true)
      by (apply existsb_exists; eauto).
    congruence.
Qed.

Lemma updateExpense_identity (id : string) (expenseData : ExpensePatch.t)
    (storage : AsyncStorage.t) (st : ExpenseContext.State) :
  let r := ExpenseContext.updateExpense id expenseData (storage, st) in
  let before := default [] (AsyncStorage.expenses storage) in
  let after := default [] (AsyncStorage.expenses (fst r)) in
  map Expense.id after = map Expense.id before /\
  map Expense.userId after = map Expense.userId before /\
  map Expense.id (ExpenseContext.expenses (snd r)) =
    map Expense.id (ExpenseContext.expenses st) /\
  map Expense.userId (ExpenseContext.expenses (snd r)) =
    map Expense.userId (ExpenseContext.expenses st) /\
  (forall j e, before !! j = Some e ->
     JS.findIndex (fun e => String.eqb (Expense.id e) id) before <> Some j ->
     after !! j = Some e) /\
  ((forall e, In e before -> Expense.id e <> id) -> r = (storage, st)).
Proof.
  cbv zeta.
  destruct (updateExpense_cases id expenseData storage st)
    as [(-> & Hnone)|(allExpenses & k & Hall & Hk & ->)].
  - repeat split; auto.
  - rewrite Hall. cbn.
    rewrite !map_alter_same by (intros x; reflexivity).
    rewrite !map_map.
    repeat split; auto.
    + apply map_ext. intros e. destruct (String.eqb _ _); reflexivity.
    + apply map_ext. intros e. destruct (String.eqb _ _); reflexivity.
    + intros j e He Hj. rewrite lookup_alter_other; [assumption|]. congruence.
    + intros Hnone. exfalso.
      destruct (findIndex_Some _ _ _ Hk) as (e & He & Hid & _).
      apply String.eqb_eq in Hid. apply (Hnone e); [|exact Hid].
      apply list_elem_of_In, list_elem_of_lookup. eauto.
Qed.


Lemma addIncome_spec (u : User.t) (now : Z) (incomeData : ExpenseData.t)
    (storage : AsyncStorage.t) (st : IncomeContext.State) :
  IncomeContext.addIncome (Some u) now incomeData (storage, st) =
    (Normal tt,
     (AsyncStorage.set_incomes
        (Some (default [] (AsyncStorage.incomes storage) ++
               [IncomeContext.new_income (JS.toString now) (User.id u) incomeData]))
        storage,
      IncomeContext.mk
        (IncomeContext.incomes st ++
         [IncomeContext.new_income (JS.toString now) (User.id u) incomeData])
        (IncomeContext.isLoading st) (IncomeContext.error st))).
Proof. reflexivity. Qed.



Lemma addIncome_then_deleteIncome (u : User.t) (now : Z)
    (incomeData : ExpenseData.t) (storage : AsyncStorage.t)
    (st : IncomeContext.State) :
  (forall e, In e (default [] (AsyncStorage.incomes storage)) ->
             Income.id e <> JS.toString now) ->
  (forall e, In e (IncomeContext.incomes st) -> Income.id e <> JS.toString now) ->
  let r := IncomeContext.deleteIncome (JS.toString now)
             (snd (IncomeContext.addIncome (Some u) now incomeData (storage, st))) in
  AsyncStorage.incomes (fst r) = Some (default [] (AsyncStorage.incomes storage)) /\
  IncomeContext.incomes (snd r) = IncomeContext.incomes st.
Proof.
  intros Hstored Hshown. cbv zeta. rewrite addIncome_spec. cbn [snd].
  unfold IncomeContext.deleteIncome. cbn.
  split; [f_equal|]; apply (filter_other_id_snoc Income.id); auto.
Qed.

Lemma patch_income_keeps (incomeData : ExpensePatch.t) (e : Income.t) :
  Income.id (IncomeContext.patch incomeData e) = Income.id e /\
  Income.userId (IncomeContext.patch incomeData e) = Income.userId e.
Proof. split; reflexivity. Qed.

(** The two ways [updateIncome] can end. *)
Lemma updateIncome_cases (id : string) (incomeData : ExpensePatch.t)
    (storage : AsyncStorage.t) (st : IncomeContext.State) :
  let r := IncomeContext.updateIncome id incomeData (storage, st) in
  let change := fun e => if String.eqb (Income.id e) id
                         then IncomeContext.patch incomeData e else e in
  (r = (storage, st) /\
   forall e, In e (default [] (AsyncStorage.incomes storage)) -> Income.id e <> id) \/
  (exists allIncomes k,
     AsyncStorage.incomes storage = Some allIncomes /\
     JS.findIndex (fun e => String.eqb (Income.id e) id) allIncomes = Some k /\
     r = (AsyncStorage.set_incomes
            (Some (alter (IncomeContext.patch incomeData) k allIncomes)) storage,
          IncomeContext.mk (map change (IncomeContext.incomes st))
            (IncomeContext.isLoading st) (IncomeContext.error st))).
Proof.
  cbv zeta. unfold IncomeContext.updateIncome.
  destruct (AsyncStorage.incomes storage) as [allIncomes|] eqn:Hall;
    [|left; split; [reflexivity|intros e []]].
  destruct (JS.findIndex _ allIncomes) as [k|] eqn:Hk.
  - right. exists allIncomes, k. auto.
  - left. split; [reflexivity|]. cbn. intros e Hin.
    apply findIndex_None in Hk. unfold JS.some in Hk.
    apply String.eqb_neq.
    destruct (String.eqb (Income.id e) id) eqn:E; [|reflexivity].
    assert (existsb (fun e => String.eqb (Income.id e) id) allIncomes = true)
      by (apply existsb_exists; eauto).
    congruence.
Qed.

Lemma updateIncome_identity (id : string) (incomeData : ExpensePatch.t)
    (storage : AsyncStorage.t) (st : IncomeContext.State) :
  let r := IncomeContext.updateIncome id incomeData (storage, st) in
  let before := default [] (AsyncStorage.incomes storage) in
  let after := default [] (AsyncStorage.incomes (fst r)) in
  map Income.id after = map Income.id before /\
  map Income.userId after = map Income.userId before /\
  map Income.id (IncomeContext.incomes (snd r)) =
    map Income.id (IncomeContext.incomes st) /\
  map Income.userId (IncomeContext.incomes (snd r)) =
    map Income.userId (IncomeContext.incomes st) /\
  (forall j e, before !! j = Some e ->
     JS.findIndex (fun e => String.eqb (Income.id e) id) before <> Some j ->
     after !! j = Some e) /\
  ((forall e, In e before -> Income.id e <> id) -> r = (storage, st)).
Proof.
  cbv zeta.
  destruct (updateIncome_cases id incomeData storage st)
    as [(-> & Hnone)|(allIncomes & k & Hall & Hk & ->)].
  - repeat split; auto.
  - rewrite Hall. cbn.
    rewrite !map_alter_same by (intros x; reflexivity).
    rewrite !map_map.
    repeat split; auto.
    + apply map_ext. intros e. destruct (String.eqb _ _); reflexivity.
    + apply map_ext. intros e. destruct (String.eqb _ _); reflexivity.
    + intros j e He Hj. rewrite lookup_alter_other; [assumption|]. congruence.
    + intros Hnone. exfalso.
      destruct (findIndex_Some _ _ _ Hk) as (e & He & Hid & _).
      apply String.eqb_eq in Hid. apply (Hnone e); [|exact Hid].
      apply list_elem_of_In, list_elem_of_lookup. eauto.
Qed.


(** ** What the record providers guarantee *)


(** X20. Adding a record and then deleting the id it was given brings the
    stored collection and the provider's state list back to what they were,
    provided no record in storage or in the state list had that id before
    (an absent key comes back as the empty collection). *)
Theorem add_then_delete :
  (forall (u : User.t) (now : Z) (expenseData : ExpenseData.t)
          (storage : AsyncStorage.t) (st : ExpenseContext.State),
     (forall e, In e (default [] (AsyncStorage.expenses storage)) ->
                Expense.id e <> JS.toString now) ->
     (forall e, In e (ExpenseContext.expenses st) ->
                Expense.id e <> JS.toString now) ->
     let r := ExpenseContext.deleteExpense (JS.toString now)
                (snd (ExpenseContext.addExpense (Some u) now expenseData
                        (storage, st))) in
     AsyncStorage.expenses (fst r) =
       Some (default [] (AsyncStorage.expenses storage)) /\
     ExpenseContext.expenses (snd r) = ExpenseContext.expenses st) /\
  (forall (u : User.t) (now : Z) (incomeData : ExpenseData.t)
          (storage : AsyncStorage.t) (st : IncomeContext.State),
     (forall e, In e (default [] (AsyncStorage.incomes storage)) ->
                Income.id e <> JS.toString now) ->
     (forall e, In e (IncomeContext.incomes st) ->
                Income.id e <> JS.toString now) ->
     let r := IncomeContext.deleteIncome (JS.toString now)
                (snd (IncomeContext.addIncome (Some u) now incomeData
                        (storage, st))) in
     AsyncStorage.incomes (fst r) =
       Some (default [] (AsyncStorage.incomes storage)) /\
     IncomeContext.incomes (snd r) = IncomeContext.incomes st).
Proof.
  split.
  - intros. apply addExpense_then_deleteExpense; assumption.
  - intros. apply addIncome_then_deleteIncome; assumption.
Qed.

(** X21. [updateExpense] and [updateIncome] never change the id or the
    [userId] of a record, in storage or in the provider's state list
    ([expenses], [incomes]: the list the provider keeps, not the sorted and
    filtered one it hands out), and never add a record to either of the two
    or remove one from them: position by position the ids and the owners
    are as before. In storage they change no record other than the first
    one with the given id, and when no stored record has the id they change
    nothing at all. *)
Theorem update_keeps_identity :
  (forall (id : string) (expenseData : ExpensePatch.t)
          (storage : AsyncStorage.t) (st : ExpenseContext.State),
     let r := ExpenseContext.updateExpense id expenseData (storage, st) in
     let before := default [] (AsyncStorage.expenses storage) in
     let after := default [] (AsyncStorage.expenses (fst r)) in
     map Expense.id after = map Expense.id before /\
     map Expense.userId after = map Expense.userId before /\
     map Expense.id (ExpenseContext.expenses (snd r)) =
       map Expense.id (ExpenseContext.expenses st) /\
     map Expense.userId (ExpenseContext.expenses (snd r)) =
       map Expense.userId (ExpenseContext.expenses st) /\
     (forall j e, before !! j = Some e ->
        JS.findIndex (fun e => String.eqb (Expense.id e) id) before <> Some j ->
        after !! j = Some e) /\
     ((forall e, In e before -> Expense.id e <> id) -> r = (storage, st))) /\
  (forall (id : string) (incomeData : ExpensePatch.t)
          (storage : AsyncStorage.t) (st : IncomeContext.State),
     let r := IncomeContext.updateIncome id incomeData (storage, st) in
     let before := default [] (AsyncStorage.incomes storage) in
     let after := default [] (AsyncStorage.incomes (fst r)) in
     map Income.id after = map Income.id before /\
     map Income.userId after = map Income.userId before /\
     map Income.id (IncomeContext.incomes (snd r)) =
       map Income.id (IncomeContext.incomes st) /\
     map Income.userId (IncomeContext.incomes (snd r)) =
       map Income.userId (IncomeContext.incomes st) /\
     (forall j e, before !! j = Some e ->
        JS.findIndex (fun e => String.eqb (Income.id e) id) before <> Some j ->
        after !! j = Some e) /\
     ((forall e, In e before -> Income.id e <> id) -> r = (storage, st))).
Proof.
  split.
  - intros. apply updateExpense_identity.
  - intros. apply updateIncome_identity.
Qed.



(** ** The added theorems at concrete inputs *)

Lemma validatePassword_valid_length_witness :
  PasswordUtils.isValid (PasswordUtils.validatePassword "aA1") = true /\
  (3 <= String.length "aA1")%nat.
Proof.
  assert (Hv : PasswordUtils.isValid (PasswordUtils.validatePassword "aA1") = true)
    by (vm_compute; reflexivity).
  split; [exact Hv|]. apply (validatePassword_valid_length "aA1" Hv).
Defined.

Lemma validatePassword_monotone_witness :
  PasswordUtils.isValid (PasswordUtils.validatePassword "aA1") = true /\
  PasswordUtils.isValid (PasswordUtils.validatePassword ("my " +:+ "aA1" +:+ "!")) = true.
Proof.
  assert (Hv : PasswordUtils.isValid (PasswordUtils.validatePassword "aA1") = true)
    by (vm_compute; reflexivity).
  split; [exact Hv|].
  apply (proj1 (validatePassword_monotone "my " "aA1" "!") Hv).
Defined.

(** A form with the password aA1 passes on the register screen; nobody is
    registered and the screen goes to the dashboard. *)
Lemma handleRegister_short_password_witness :
  let w := world_of AsyncStorage.empty 1000 in
  let r := RegisterScreen.handleRegister example_digest
             "Ann" "ann@x.io" "aA1" "aA1" w in
  (fst (RegisterScreen.validateForm "Ann" "ann@x.io" "aA1" "aA1") = true /\
   (String.length "aA1" < 6)%nat) /\
  World.route (after r) = Some "/(tabs)/dashboard" /\
  stored r = AsyncStorage.empty /\
  AuthState.user (state_after r) = None.
Proof.
  cbv zeta.
  assert (Hform : fst (RegisterScreen.validateForm "Ann" "ann@x.io" "aA1" "aA1")
                  = true) by (vm_compute; reflexivity).
  assert (Hshort : (String.length "aA1" < 6)%nat) by (cbn; lia).
  split; [split; assumption|].
  destruct (handleRegister_short_password example_digest
              "Ann" "ann@x.io" "aA1" "aA1" (world_of AsyncStorage.empty 1000)
              Hform) as (_ & Hgo).
  destruct (Hgo Hshort) as (_ & Hroute & Hs & Hu).
  conjs; assumption.
Defined.

(** Ann sets the password aA1 on the reset screen. *)
Lemma handleReset_gate_witness :
  let w := world_of (reset_pending 5000) 1000 in
  let r := ResetPasswordScreen.handleReset example_digest
             "ann@x.io" "123456" "aA1" "aA1" w in
  stored r <> World.storage w /\
  PasswordUtils.isValid (PasswordUtils.validatePassword "aA1") = true /\
  (3 <= String.length "aA1")%nat.
Proof.
  cbv zeta.
  assert (Hchanged : stored (ResetPasswordScreen.handleReset example_digest
                               "ann@x.io" "123456" "aA1" "aA1"
                               (world_of (reset_pending 5000) 1000))
                     <> World.storage (world_of (reset_pending 5000) 1000)).
  { intros E. apply (f_equal AsyncStorage.registered_users) in E.
    vm_compute in E. discriminate E. }
  split; [exact Hchanged|].
  destruct (handleReset_gate example_digest "ann@x.io" "123456" "aA1" "aA1"
              (world_of (reset_pending 5000) 1000)) as (_ & Hgate).
  destruct (Hgate Hchanged) as (_ & _ & Hv & Hlen & _). split; assumption.
Defined.

Lemma signIn_unknown_email_witness :
  let w := world_of (store_with [ann] [("1", "salt-of-ann")]) 1000 in
  let r := signIn example_digest "bob@x.io" "secret" false w in
  (signIn_accepts "bob@x.io" "secret" /\
   ~ registered "bob@x.io" (World.storage w)) /\
  outcome r = Thrown "User not found" /\ stored r = World.storage w.
Proof.
  cbv zeta.
  assert (Hok : signIn_accepts "bob@x.io" "secret")
    by (repeat split; try discriminate; vm_compute; reflexivity).
  assert (Hnew : ~ registered "bob@x.io"
                     (World.storage
                        (world_of (store_with [ann] [("1", "salt-of-ann")]) 1000)))
    by (apply not_registered_some; vm_compute; reflexivity).
  split; [split; assumption|].
  destruct (signIn_unknown_email example_digest "bob@x.io" "secret" false
              (world_of (store_with [ann] [("1", "salt-of-ann")]) 1000)
              Hok Hnew) as (Ho & Hs & _).
  split; assumption.
Defined.

(** The session that expires at 1000 is loaded at 500. *)
Lemma loadStoredAuth_restores_witness :
  let w := world_of store_with_session 500 in
  let r := loadStoredAuth w in
  World.now w < SessionData.expiresAt stale_session /\
  AuthState.user (state_after r) = Some (User.mk "1" "ann@x.io" (Some "Ann")) /\
  World.timeouts (after r) = [499].
Proof.
  cbv zeta.
  assert (Hlive : World.now (world_of store_with_session 500)
                  < SessionData.expiresAt stale_session)
    by (vm_compute; reflexivity).
  split; [exact Hlive|].
  destruct (loadStoredAuth_restores (world_of store_with_session 500)
              stale_session (User.mk "1" "ann@x.io" (Some "Ann"))
              eq_refl eq_refl Hlive) as (_ & _ & Hu & _ & _ & Ht).
  split; [exact Hu|]. rewrite Ht. vm_compute. reflexivity.
Defined.

(** Ann signs in (her salt is repaired on the way) and restarts the
    application a second later. *)
Lemma signIn_survives_restart_witness :
  let r := signIn example_digest "ann@x.io" "guess" false
             (world_of (store_with [ann] []) 1000) in
  let w' := world_of (stored r) 2000 in
  (outcome r = Normal tt /\ AuthState.error (state_after r) = None) /\
  AuthState.user (state_after (loadStoredAuth w')) =
    Some (User.mk "1" "ann@x.io" (Some "Ann")).
Proof.
  cbv zeta.
  set (r := signIn example_digest "ann@x.io" "guess" false
              (world_of (store_with [ann] []) 1000)).
  assert (Ho : outcome r = Normal tt) by (vm_compute; reflexivity).
  assert (He : AuthState.error (state_after r) = None) by (vm_compute; reflexivity).
  split; [split; assumption|].
  destruct (signIn_survives_restart example_digest "ann@x.io" "guess" false
              (world_of (store_with [ann] []) 1000) (world_of (stored r) 2000)
              Ho He eq_refl) as (_ & Hu & _).
  { intros session Hs. vm_compute in Hs. injection Hs as <-.
    vm_compute. reflexivity. }
  rewrite Hu. vm_compute. reflexivity.
Defined.

Lemma validateEmail_shape_witness :
  address_part "ann" /\ address_part "x" /\ address_part "io" /\
  validateEmail ("ann" +:+ "@" +:+ "x" +:+ "." +:+ "io") = true.
Proof.
  assert (H1 : address_part "ann") by (split; [discriminate|reflexivity]).
  assert (H2 : address_part "x") by (split; [discriminate|reflexivity]).
  assert (H3 : address_part "io") by (split; [discriminate|reflexivity]).
  conjs; try assumption.
  apply (proj2 (validateEmail_shape ("ann" +:+ "@" +:+ "x" +:+ "." +:+ "io"))).
  exists "ann", "x", "io". auto.
Defined.

Lemma requestPasswordReset_stores_code_witness :
  let w := world_of two_users 1000 in
  (registered "ann@x.io" (World.storage w) /\
   ~ registered "zoe@x.io" (World.storage w)) /\
  AsyncStorage.reset_codes (stored (requestPasswordReset 123456 "ann@x.io" w))
    !! "ann@x.io" = Some (ResetData.mk "123456" 301000) /\
  outcome (requestPasswordReset 123456 "zoe@x.io" w) = Thrown "User not found".
Proof.
  cbv zeta.
  assert (Hreg : registered "ann@x.io" (World.storage (world_of two_users 1000)))
    by (apply registered_some; vm_compute; reflexivity).
  assert (Hnew : ~ registered "zoe@x.io" (World.storage (world_of two_users 1000)))
    by (apply not_registered_some; vm_compute; reflexivity).
  split; [split; assumption|].
  destruct (requestPasswordReset_stores_code 123456 "ann@x.io"
              (world_of two_users 1000)) as (Hyes & _).
  destruct (requestPasswordReset_stores_code 123456 "zoe@x.io"
              (world_of two_users 1000)) as (_ & Hno).
  destruct (Hyes Hreg) as (_ & Hs & _). destruct (Hno Hnew) as (Ho & _).
  split; [|exact Ho]. rewrite Hs. vm_compute. reflexivity.
Defined.

Lemma password_recovery_flow_witness :
  let w := world_of two_users 1000 in
  let r1 := requestPasswordReset 123456 "ann@x.io" w in
  let r2 := resetPassword example_digest "ann@x.io" (JS.toString 123456)
              "newpass" (after r1) in
  let r3 := signIn example_digest "ann@x.io" "newpass" false (after r2) in
  (registered "ann@x.io" (World.storage w) /\
   signIn_accepts "ann@x.io" "newpass" /\
   World.reading 1 w <= World.now w + 300000) /\
  outcome r3 = Normal tt /\ AuthState.error (state_after r3) = None.
Proof.
  cbv zeta.
  assert (Hreg : registered "ann@x.io" (World.storage (world_of two_users 1000)))
    by (apply registered_some; vm_compute; reflexivity).
  assert (Hok : signIn_accepts "ann@x.io" "newpass")
    by (repeat split; try discriminate; vm_compute; reflexivity).
  assert (Hintime : World.reading 1 (world_of two_users 1000)
                    <= World.now (world_of two_users 1000) + 300000)
    by (vm_compute; discriminate).
  split; [conjs; assumption|].
  destruct (password_recovery_flow example_digest 123456 "ann@x.io" "newpass"
              false (world_of two_users 1000) Hreg Hok Hintime)
    as (_ & _ & Ho & He & _).
  split; assumption.
Defined.

(** Ann resets her password: Bob's entry and Bob's salt stay. *)
Lemma resetPassword_frame_witness :
  let s := AsyncStorage.set_reset_codes
             {[ "ann@x.io" := ResetData.mk "123456" 5000 ]} two_users in
  let r := resetPassword example_digest "ann@x.io" "123456" "newpass"
             (world_of s 1000) in
  (directory s !! 1%nat = Some bob /\
   JS.findIndex (has_email "ann@x.io") (directory s) <> Some 1%nat) /\
  directory (stored r) !! 1%nat = Some bob /\
  AsyncStorage.salts (stored r) !! "2" = Some "salt-of-bob".
Proof.
  cbv zeta.
  set (s := AsyncStorage.set_reset_codes
              {[ "ann@x.io" := ResetData.mk "123456" 5000 ]} two_users).
  assert (Hbob : directory s !! 1%nat = Some bob) by reflexivity.
  assert (Hfirst : JS.findIndex (has_email "ann@x.io") (directory s) <> Some 1%nat)
    by (vm_compute; discriminate).
  split; [split; assumption|].
  destruct (resetPassword_frame example_digest "ann@x.io" "123456" "newpass"
              (world_of s 1000)) as (_ & _ & _ & _ & _ & Hentry & Hsalt).
  split; [apply (Hentry 1%nat bob Hbob Hfirst)|].
  rewrite (Hsalt "2").
  - vm_compute. reflexivity.
  - intros i u Hfind. vm_compute in Hfind. injection Hfind as _ <-.
    cbn. discriminate.
Defined.

(** Zoe signs up next to Ann and Bob. *)
Lemma signUp_appends_witness :
  let w := world_of two_users 1000 in
  let r := signUp example_digest "zoe@x.io" "secret" "Zoe" w in
  "1" <> JS.toString (World.now w) /\
  AsyncStorage.salts (stored r) !! "1" = Some "salt-of-ann" /\
  directory (stored r) =
    [ann; bob; StoredUser.mk "1000" "zoe@x.io" "Zoe" "#secret#1001"].
Proof.
  cbv zeta.
  assert (Hne : "1" <> JS.toString (World.now (world_of two_users 1000)))
    by (vm_compute; discriminate).
  split; [exact Hne|].
  destruct (signUp_appends example_digest "zoe@x.io" "secret" "Zoe"
              (world_of two_users 1000)) as (_ & Hsalts).
  split; [rewrite (Hsalts "1" Hne)|]; vm_compute; reflexivity.
Defined.

(** Nobody is signed in, or somebody who is not in the directory. *)
Lemma updateUserProfile_rejections_witness :
  let w := world_of two_users 1000 in
  let zoe := User.mk "3" "zoe@x.io" (Some "Zoe") in
  let updates := ProfileUpdates.mk (Some "New") None in
  (AuthState.user (World.state w) = None /\
   AuthState.user (World.state (signed_in zoe w)) = Some zoe /\
   ~ (exists u, In u (directory (World.storage (signed_in zoe w))) /\
                StoredUser.id u = User.id zoe)) /\
  updateUserProfile updates w = (Thrown "No user logged in", w) /\
  updateUserProfile updates (signed_in zoe w) =
    (Thrown "Failed to update profile", signed_in zoe w).
Proof.
  cbv zeta.
  assert (Hno : ~ (exists u,
                     In u (directory (World.storage
                             (signed_in (User.mk "3" "zoe@x.io" (Some "Zoe"))
                                (world_of two_users 1000)))) /\
                     StoredUser.id u = User.id (User.mk "3" "zoe@x.io" (Some "Zoe")))).
  { intros (u & [<-|[<-|[]]] & Hid); vm_compute in Hid; discriminate Hid. }
  split; [conjs; try reflexivity; exact Hno|].
  split.
  - apply (proj1 (updateUserProfile_rejections
                    (ProfileUpdates.mk (Some "New") None)
                    (world_of two_users 1000)) eq_refl).
  - apply (proj2 (updateUserProfile_rejections
                    (ProfileUpdates.mk (Some "New") None)
                    (signed_in (User.mk "3" "zoe@x.io" (Some "Zoe"))
                       (world_of two_users 1000)))
             (User.mk "3" "zoe@x.io" (Some "Zoe")) eq_refl Hno).
Defined.

(** Bob renames himself: Ann's entry stays. *)
Lemma updateUserProfile_frame_witness :
  let w := signed_in bob_user (world_of two_users 1000) in
  let r := updateUserProfile (ProfileUpdates.mk (Some "Robert") None) w in
  (AuthState.user (World.state w) = Some bob_user /\
   directory (World.storage w) !! 0%nat = Some ann /\
   JS.findIndex (has_id (User.id bob_user)) (directory (World.storage w))
     <> Some 0%nat) /\
  directory (stored r) !! 0%nat = Some ann /\
  directory (stored r) !! 1%nat =
    Some (StoredUser.mk "2" "bob@x.io" "Robert" "digest-of-bob").
Proof.
  cbv zeta.
  set (w := signed_in bob_user (world_of two_users 1000)).
  assert (Hfirst : JS.findIndex (has_id (User.id bob_user))
                     (directory (World.storage w)) <> Some 0%nat)
    by (vm_compute; discriminate).
  split; [conjs; try reflexivity; exact Hfirst|].
  destruct (updateUserProfile_frame (ProfileUpdates.mk (Some "Robert") None) w)
    as (_ & _ & _ & _ & _ & _ & Hentry).
  split; [apply (Hentry bob_user 0%nat ann eq_refl eq_refl Hfirst)|].
  vm_compute. reflexivity.
Defined.

(** Ann renames herself and restarts: the old name is back. *)
Lemma profile_update_lost_on_restart_witness :
  let w := signed_in ann_user (world_of store_with_session 400) in
  let r := updateUserProfile (ProfileUpdates.mk (Some "Anna") None) w in
  let w' := world_of (stored r) 500 in
  (AsyncStorage.auth_session (World.storage w) = Some stale_session /\
   AsyncStorage.auth_store (World.storage w) = Some ann_user /\
   World.now w' < SessionData.expiresAt stale_session) /\
  AuthState.user (state_after r) = Some (User.mk "1" "ann@x.io" (Some "Anna")) /\
  AuthState.user (state_after (loadStoredAuth w')) = Some ann_user.
Proof.
  cbv zeta.
  set (w := signed_in ann_user (world_of store_with_session 400)).
  set (r := updateUserProfile (ProfileUpdates.mk (Some "Anna") None) w).
  assert (Hlive : World.now (world_of (stored r) 500)
                  < SessionData.expiresAt stale_session)
    by (vm_compute; reflexivity).
  split; [conjs; try reflexivity; exact Hlive|].
  split; [vm_compute; reflexivity|].
  apply (profile_update_lost_on_restart (ProfileUpdates.mk (Some "Anna") None)
           w (world_of (stored r) 500) stale_session ann_user
           eq_refl eq_refl eq_refl Hlive).
Defined.

Lemma unique_emails_kept_witness :
  let w := world_of two_users 1000 in
  (unique_emails (World.storage w) /\ unique_ids (World.storage w)) /\
  unique_emails (stored (signUp example_digest "zoe@x.io" "secret" "Zoe" w)) /\
  unique_emails (stored (signIn example_digest "ann@x.io" "guess" false w)).
Proof.
  cbv zeta.
  assert (He : unique_emails (World.storage (world_of two_users 1000)))
    by (unfold unique_emails; apply (bool_decide_unpack _); vm_compute;
        reflexivity).
  assert (Hi : unique_ids (World.storage (world_of two_users 1000)))
    by (unfold unique_ids; apply (bool_decide_unpack _); vm_compute;
        reflexivity).
  split; [split; assumption|].
  destruct (unique_emails_kept example_digest (world_of two_users 1000) He)
    as (Hup & _ & _ & _ & _ & Hin).
  split; [apply Hup|apply (Hin Hi)].
Defined.

Lemma session_has_projection_kept_witness :
  let w := world_of store_with_session 500 in
  session_has_projection (World.storage w) /\
  session_has_projection
    (stored (signIn example_digest "ann@x.io" "guess" true w)) /\
  session_has_projection
    (stored (updateUserProfile (ProfileUpdates.mk (Some "Anna") None)
               (signed_in ann_user w))).
Proof.
  cbv zeta.
  assert (Hinv : session_has_projection
                   (World.storage (world_of store_with_session 500)))
    by (intros _; vm_compute; eauto).
  split; [exact Hinv|].
  destruct (session_has_projection_kept example_digest
              (world_of store_with_session 500) Hinv) as (Hin & _).
  destruct (session_has_projection_kept example_digest
              (signed_in ann_user (world_of store_with_session 500)) Hinv)
    as (_ & _ & _ & _ & _ & Hup).
  split; [apply Hin|apply Hup].
Defined.


Lemma add_then_delete_witness :
  let r := ExpenseContext.deleteExpense (JS.toString 5000)
             (snd (ExpenseContext.addExpense (Some bob_user) 5000 coffee
                     (two_users, ExpenseContext.initial))) in
  ((forall e, In e (default [] (AsyncStorage.expenses two_users)) ->
              Expense.id e <> JS.toString 5000) /\
   (forall e, In e (ExpenseContext.expenses ExpenseContext.initial) ->
              Expense.id e <> JS.toString 5000)) /\
  AsyncStorage.expenses (fst r) = Some [rent; lunch].
Proof.
  cbv zeta.
  assert (H1 : forall e, In e (default [] (AsyncStorage.expenses two_users)) ->
                         Expense.id e <> JS.toString 5000)
    by (intros e [<-|[<-|[]]]; vm_compute; discriminate).
  assert (H2 : forall e, In e (ExpenseContext.expenses ExpenseContext.initial) ->
                         Expense.id e <> JS.toString 5000)
    by (intros e []).
  split; [split; assumption|].
  destruct add_then_delete as (Hexp & _).
  destruct (Hexp bob_user 5000 coffee two_users ExpenseContext.initial H1 H2)
    as (Hs & _).
  exact Hs.
Defined.

(** The lunch gets a new category: ids, owners and the rent stay. *)
Lemma update_keeps_identity_witness :
  let data := ExpensePatch.mk None None (Some "Food") None in
  let r := ExpenseContext.updateExpense "e2" data
             (two_users, ExpenseContext.initial) in
  let r' := ExpenseContext.updateExpense "e9" data
              (two_users, ExpenseContext.initial) in
  ([rent; lunch] !! 0%nat = Some rent /\
   JS.findIndex (fun e => String.eqb (Expense.id e) "e2") [rent; lunch]
     <> Some 0%nat /\
   (forall e, In e [rent; lunch] -> Expense.id e <> "e9")) /\
  default [] (AsyncStorage.expenses (fst r)) !! 0%nat = Some rent /\
  r' = (two_users, ExpenseContext.initial).
Proof.
  cbv zeta.
  assert (Hfirst : JS.findIndex (fun e => String.eqb (Expense.id e) "e2")
                     [rent; lunch] <> Some 0%nat)
    by (vm_compute; discriminate).
  assert (Hnone : forall e, In e [rent; lunch] -> Expense.id e <> "e9")
    by (intros e [<-|[<-|[]]]; vm_compute; discriminate).
  split; [conjs; try reflexivity; assumption|].
  destruct update_keeps_identity as (Hexp & _).
  destruct (Hexp "e2" (ExpensePatch.mk None None (Some "Food") None)
              two_users ExpenseContext.initial)
    as (_ & _ & _ & _ & Hother & _).
  destruct (Hexp "e9" (ExpensePatch.mk None None (Some "Food") None)
              two_users ExpenseContext.initial)
    as (_ & _ & _ & _ & _ & Hsame).
  split; [apply (Hother 0%nat rent eq_refl Hfirst)|apply (Hsame Hnone)].
Defined.


